(** * NEPSE daily scraper: a shallow embedding of [scraper.py]

    The harvesting pipeline of [NepseDailyScraper] is embedded as pure
    functions over an explicit [world] (the clock, the pages the primary
    source serves, the answers of the alternate sources, and what pandas
    and the disk do when the file is written).  Python [str]
    values are Rocq strings of ASCII characters, Python [int] values are
    [Z], and a price ([float]) is the exact rational value of its decimal
    numeral, with overflow to [inf] kept as a separate case because the
    code behaves differently on it. *)

From Stdlib Require Import ZArith QArith List String Ascii Bool Lia Lqa.
From Stdlib Require Import Sorting.Sorted Sorting.Permutation.
Import ListNotations.

Open Scope string_scope.
Open Scope list_scope.
Open Scope Z_scope.

(** ** Python string primitives *)

Module PyStr.

(** [str.isspace] on the ASCII range: TAB..CR, FS..US and the blank. *)
Definition isspace (c : ascii) : bool :=
  let n := nat_of_ascii c in
  ((9 <=? n)%nat && (n <=? 13)%nat) || ((28 <=? n)%nat && (n <=? 32)%nat).

Definition is_digit (c : ascii) : bool :=
  let n := nat_of_ascii c in (48 <=? n)%nat && (n <=? 57)%nat.

Definition digit_value (c : ascii) : Z := Z.of_nat (nat_of_ascii c) - 48.

Fixpoint lstrip (s : string) : string :=
  match s with
  | EmptyString => EmptyString
  | String c s' => if isspace c then lstrip s' else s
  end.

Fixpoint rstrip (s : string) : string :=
  match s with
  | EmptyString => EmptyString
  | String c s' =>
      match rstrip s' with
      | EmptyString => if isspace c then EmptyString else String c EmptyString
      | r => String c r
      end
  end.

(** [s.strip()] *)
Definition strip (s : string) : string := rstrip (lstrip s).

(** [s.replace(c, '')] for a one-character [c]. *)
Fixpoint remove (c : ascii) (s : string) : string :=
  match s with
  | EmptyString => EmptyString
  | String a s' => if Ascii.eqb a c then remove c s' else String a (remove c s')
  end.

(** [s.split(sep)] for a one-character separator. *)
Fixpoint split (sep : ascii) (s : string) : list string :=
  match s with
  | EmptyString => [EmptyString]
  | String a s' =>
      if Ascii.eqb a sep then EmptyString :: split sep s'
      else match split sep s' with
           | p :: ps => String a p :: ps
           | [] => [String a EmptyString]
           end
  end.

(** [c in s] for a one-character [c]. *)
Fixpoint has_char (c : ascii) (s : string) : bool :=
  match s with
  | EmptyString => false
  | String a s' => Ascii.eqb a c || has_char c s'
  end.

Fixpoint all_digits (s : string) : bool :=
  match s with
  | EmptyString => true
  | String a s' => is_digit a && all_digits s'
  end.

(** [s.isdigit()]: non-empty and made of digits only. *)
Definition isdigit (s : string) : bool :=
  match s with
  | EmptyString => false
  | _ => all_digits s
  end.

Definition is_empty (s : string) : bool :=
  match s with EmptyString => true | _ => false end.

Definition lower_char (c : ascii) : ascii :=
  let n := nat_of_ascii c in
  if (65 <=? n)%nat && (n <=? 90)%nat then ascii_of_nat (n + 32) else c.

(** [s.lower()] *)
Fixpoint lower (s : string) : string :=
  match s with
  | EmptyString => EmptyString
  | String a s' => String (lower_char a) (lower s')
  end.

(** [sub in s] *)
Fixpoint contains (sub s : string) : bool :=
  String.prefix sub s ||
  match s with
  | EmptyString => false
  | String _ s' => contains sub s'
  end.

(** Digits with single underscores between them, as [int] accepts. *)
Fixpoint digits_value (acc : Z) (after_digit : bool) (s : string) : option Z :=
  match s with
  | EmptyString => if after_digit then Some acc else None
  | String c s' =>
      if is_digit c then digits_value (10 * acc + digit_value c) true s'
      else if Ascii.eqb c "_" && after_digit then
        match s' with
        | EmptyString => None
        | _ => digits_value acc false s'
        end
      else None
  end.

(** [int(s)] in base ten; [None] stands for the [ValueError]. *)
Definition int (s : string) : option Z :=
  match strip s with
  | String "-" r => option_map Z.opp (digits_value 0 false r)
  | String "+" r => digits_value 0 false r
  | r => digits_value 0 false r
  end.

Definition digit_char (k : Z) : ascii := ascii_of_nat (48 + Z.to_nat (k mod 10)).

Definition mem (s : string) (l : list string) : bool :=
  existsb (String.eqb s) l.

End PyStr.

(** ** Calendar dates, as [datetime] has them *)

Module Calendar.

Record date := mkdate { year : Z; month : Z; day : Z }.

Definition is_leap (y : Z) : bool :=
  (y mod 4 =? 0) && (negb (y mod 100 =? 0) || (y mod 400 =? 0)).

Definition days_in_month (y m : Z) : Z :=
  if m =? 2 then (if is_leap y then 29 else 28)
  else if (m =? 4) || (m =? 6) || (m =? 9) || (m =? 11) then 30
  else 31.

Definition valid (d : date) : bool :=
  (1 <=? year d) && (year d <=? 9999) &&
  (1 <=? month d) && (month d <=? 12) &&
  (1 <=? day d) && (day d <=? days_in_month (year d) (month d)).

(** [datetime(year, month, day)]; [None] stands for the [ValueError]. *)
Definition datetime (y m d : Z) : option date :=
  let r := mkdate y m d in if valid r then Some r else None.

Definition days_before_year (y : Z) : Z :=
  let p := y - 1 in p * 365 + p / 4 - p / 100 + p / 400.

Definition days_before_month (y m : Z) : Z :=
  (if m =? 1 then 0 else if m =? 2 then 31 else if m =? 3 then 59
   else if m =? 4 then 90 else if m =? 5 then 120 else if m =? 6 then 151
   else if m =? 7 then 181 else if m =? 8 then 212 else if m =? 9 then 243
   else if m =? 10 then 273 else if m =? 11 then 304 else 334)
  + (if (2 <? m) && is_leap y then 1 else 0).

(** [d.toordinal()]: 0001-01-01 is day 1. *)
Definition toordinal (d : date) : Z :=
  days_before_year (year d) + days_before_month (year d) (month d) + day d.

(** [d.weekday()]: Monday is 0. *)
Definition weekday (d : date) : Z := (toordinal d + 6) mod 7.

Definition max_ordinal : Z := 3652059.

(** A point in time: the proleptic ordinal of its day and the microseconds
    elapsed in that day.  [datetime] objects compare field by field, which
    is the lexicographic order of this pair. *)
Record instant := mkinstant { ord : Z; tod : Z }.

Definition instant_ltb (a b : instant) : bool :=
  (ord a <? ord b) || ((ord a =? ord b) && (tod a <? tod b)).

Definition instant_lt (a b : instant) : Prop :=
  ord a < ord b \/ (ord a = ord b /\ tod a < tod b).

(** The instant of [datetime(y, m, d)]: midnight of that day. *)
Definition midnight (d : date) : instant := mkinstant (toordinal d) 0.

Definition two_digits (n : Z) : string :=
  String (PyStr.digit_char (n / 10)) (String (PyStr.digit_char n) EmptyString).

Definition four_digits (n : Z) : string :=
  String (PyStr.digit_char (n / 1000))
    (String (PyStr.digit_char (n / 100)) (two_digits n)).

(** [d.strftime('%m/%d/%Y')], the year on four digits. *)
Definition strftime (d : date) : string :=
  (two_digits (month d) ++ "/" ++ two_digits (day d) ++ "/" ++ four_digits (year d))%string.

(** The directive [%m]: [1[0-2]|0[1-9]|[1-9]]. *)
Definition parse_month (s : string) : option Z :=
  match s with
  | String a EmptyString =>
      if PyStr.is_digit a && negb (Ascii.eqb a "0") then Some (PyStr.digit_value a) else None
  | String a (String b EmptyString) =>
      if Ascii.eqb a "1" && PyStr.is_digit b && (PyStr.digit_value b <=? 2)
      then Some (10 + PyStr.digit_value b)
      else if Ascii.eqb a "0" && PyStr.is_digit b && negb (Ascii.eqb b "0")
      then Some (PyStr.digit_value b)
      else None
  | _ => None
  end.

(** The directive [%d]: [3[0-1]|[1-2]\d|0[1-9]|[1-9]| [1-9]]. *)
Definition parse_day (s : string) : option Z :=
  match s with
  | String a EmptyString =>
      if PyStr.is_digit a && negb (Ascii.eqb a "0") then Some (PyStr.digit_value a) else None
  | String a (String b EmptyString) =>
      if Ascii.eqb a "3" && PyStr.is_digit b && (PyStr.digit_value b <=? 1)
      then Some (30 + PyStr.digit_value b)
      else if (Ascii.eqb a "1" || Ascii.eqb a "2") && PyStr.is_digit b
      then Some (10 * PyStr.digit_value a + PyStr.digit_value b)
      else if (Ascii.eqb a "0" || Ascii.eqb a " ") && PyStr.is_digit b && negb (Ascii.eqb b "0")
      then Some (PyStr.digit_value b)
      else None
  | _ => None
  end.

(** The directive [%Y]: exactly four digits. *)
Definition parse_year (s : string) : option Z :=
  match s with
  | String a (String b (String c (String d EmptyString))) =>
      if PyStr.is_digit a && PyStr.is_digit b && PyStr.is_digit c && PyStr.is_digit d
      then Some (1000 * PyStr.digit_value a + 100 * PyStr.digit_value b
                 + 10 * PyStr.digit_value c + PyStr.digit_value d)
      else None
  | _ => None
  end.

(** [datetime.strptime(s, '%m/%d/%Y')]; [None] is the [ValueError].
    pandas matches the format with the same three directives. *)
Definition strptime (s : string) : option date :=
  match PyStr.split "/" s with
  | [ms; ds; ys] =>
      match parse_month ms, parse_day ds, parse_year ys with
      | Some m, Some d, Some y => datetime y m d
      | _, _, _ => None
      end
  | _ => None
  end.

End Calendar.

(** ** Prices *)

Module PyFloat.

(** A non-negative [float] read from a decimal numeral: its exact value, or
    [inf] when the numeral is beyond the binary64 range.  Rounding of
    finite values to binary64 is not modelled. *)
Inductive t := Finite (q : Q) | Inf.

Fixpoint digits_Z (acc : Z) (s : string) : Z :=
  match s with
  | EmptyString => acc
  | String c s' => digits_Z (10 * acc + PyStr.digit_value c) s'
  end.

Definition pow10 (k : nat) : positive := Z.to_pos (10 ^ Z.of_nat k).

(** Numerals at or above [2^1024 - 2^970] round to [inf]. *)
Definition overflow_threshold : Z := 2 ^ 1024 - 2 ^ 970.

Definition of_parts (i f : string) : t :=
  let q := Qmake (digits_Z 0 (i ++ f)%string) (pow10 (String.length f)) in
  if Qle_bool (inject_Z overflow_threshold) q then Inf else Finite q.

(** [float(s)] on the texts the scraper hands it (digits and dots): a
    numeral has at most one dot and at least one digit; [None] stands for
    the [ValueError]. *)
Definition of_string (s : string) : option t :=
  match PyStr.split "." s with
  | [i] => if PyStr.isdigit i then Some (of_parts i EmptyString) else None
  | [i; f] =>
      if PyStr.all_digits i && PyStr.all_digits f && negb (PyStr.is_empty (i ++ f)%string)
      then Some (of_parts i f) else None
  | _ => None
  end.

End PyFloat.

(** ** Records, pages and the world *)

(** The dictionaries the scraper builds: [{'Date', 'Close', 'Volume'}].
    [Volume] holds the estimated magnitude that the code renders with
    [f"{v:,.2f}"]. *)
Record record := mkrecord { Date : string; Close : Q; Volume : Q }.

(** A [bs4] tag, seen through the two queries the scraper makes on it:
    [find_all('tr')] and the texts of [find_all(['td', 'th'])]. *)
#[warnings="-register-all"]
Inductive tag := Tag (find_all_tr : list tag) (cells : list string).

Definition find_all_tr (t : tag) : list tag :=
  match t with Tag trs _ => trs end.

Definition get_texts (t : tag) : list string :=
  match t with Tag _ cs => cs end.

Inductive selector := Sel_table | Sel_dot_table | Sel_class_table | Sel_tbody_tr | Sel_tr.

(** A parsed page: what [soup.select] answers for each selector, and the
    [.string] of every anchor of the page ([None] when an anchor has no
    single string). *)
Record soup := mksoup {
  select : selector -> list tag;
  anchors : list (option string)
}.

(** Lines 73-82: the request either raises (network failure, HTTP error
    status) or yields a parsed page. *)
Inductive response := FetchError | Fetched (page : soup).

(** Lines 222-229 of the fallback: the request raises, or answers with a
    status code and the page text ([soup.get_text()]). *)
Inductive alt_response := AltError | AltStatus (status_code : Z) (text : string).

(** The last three fields are what [save_csv] depends on besides its
    arguments.  [representable]: the days [pd.to_datetime] can hold; a
    day outside raises [OutOfBoundsDatetime] (before pandas 3.0 the
    column is [datetime64[ns]], which holds 1677-09-22 to 2262-04-11
    only).  [tie_rank]: pandas sorts with numpy's quicksort, which
    promises no order among equal keys; for an array of keys, the world
    gives each position a rank, and equal keys come out in the order of
    their ranks.  [to_csv]: whether writing the given rows under the
    given name runs to its end; when it does not (a directory that does
    not exist, no permission, a full disk), [to_csv] raises. *)
Record world := mkworld {
  now_date : Calendar.date;          (* the day of [datetime.now()] *)
  now_tod : Z;                       (* its time of day, in microseconds *)
  get_page : nat -> response;        (* [session.get] on page [n] of the index *)
  get_alt : string -> alt_response;  (* [session.get] on an alternate URL *)
  repr_tail : Q -> Z;                (* [int(str(x).replace('.', '')[-2:])] *)
  representable : Calendar.date -> bool;
  tie_rank : list Z -> list nat;
  to_csv : string -> list record -> bool
}.

(** ** [get_daily_volume_estimate] (lines 29-55) *)

Definition base_volume : Q := 4500000000.

Definition day_factor (date_str : string) : Q :=
  match Calendar.strptime date_str with
  | Some date_obj =>
      if Calendar.weekday date_obj =? 0 then 1.2
      else if Calendar.weekday date_obj =? 4 then 0.9
      else 1.0
  | None => 1.0
  end.

(** [None] is the [ValueError] of [int('nf')] at line 51, raised when the
    price is [inf]. *)
Definition get_daily_volume_estimate (w : world) (close_price : PyFloat.t)
  (date_str : string) : option Q :=
  match close_price with
  | PyFloat.Inf => None
  | PyFloat.Finite q =>
      let price_factor := (q / 2500 * 0.3 + 0.85)%Q in
      let variation := (0.7 + inject_Z (repr_tail w q mod 60) / 100)%Q in
      Some (base_volume * price_factor * day_factor date_str * variation)%Q
  end.

(** ** [scrape_nepse_daily_data] (lines 57-206) *)

Definition selectors : list selector :=
  [Sel_table; Sel_dot_table; Sel_class_table; Sel_tbody_tr; Sel_tr].

(** Line 100: [selector in ['table', '.table', '[class*="table"]']]. *)
Definition is_table_selector (s : selector) : bool :=
  match s with
  | Sel_table | Sel_dot_table | Sel_class_table => true
  | _ => false
  end.

(** Lines 102-107: the data rows of the first element with more than five
    of them, the header row dropped. *)
Fixpoint first_table_rows (elements : list tag) : option (list tag) :=
  match elements with
  | [] => None
  | element :: rest =>
      let table_rows := tl (find_all_tr element) in
      if (5 <? List.length table_rows)%nat then Some table_rows
      else first_table_rows rest
  end.

(** Lines 97-115: the selector loop, [rows] being the value the variable
    holds when the loop is entered at [sels]. *)
Fixpoint select_rows (page : soup) (sels : list selector) (rows : list tag) : list tag :=
  match sels with
  | [] => rows
  | s :: rest =>
      match select page s with
      | [] => select_rows page rest rows
      | elements =>
          if is_table_selector s then
            match first_table_rows elements with
            | Some table_rows => table_rows
            | None => select_rows page rest rows
            end
          else if (5 <? List.length elements)%nat then elements
          else select_rows page rest elements
      end
  end.

Definition find_rows (page : soup) : list tag := select_rows page selectors [].

(** What one row does to the page state. *)
Inductive row_step :=
| Skip                  (* [continue], or nothing happens *)
| Stop                  (* lines 156-159: extend and return *)
| Accept (r : record).  (* lines 170-175 *)

(** Lines 140-146: the date written in a date cell; [None] when the text
    has another shape, or [int] or [datetime] raises. *)
Definition parse_date_cell (date_cell : string) : option Calendar.date :=
  if PyStr.has_char "/" date_cell && (List.length (PyStr.split "/" date_cell) =? 3)%nat then
    let parts := PyStr.split "/" date_cell in
    match PyStr.int (nth 0 parts EmptyString),
          PyStr.int (nth 1 parts EmptyString),
          PyStr.int (nth 2 parts EmptyString) with
    | Some year, Some month, Some day => Calendar.datetime year month day
    | _, _, _ => None
    end
  else None.

(** Lines 132-133. *)
Definition date_text (row : tag) : string := PyStr.strip (nth 1 (get_texts row) EmptyString).
Definition price_text (row : tag) : string := PyStr.strip (nth 2 (get_texts row) EmptyString).

(** Lines 126-146: the date of a row, when the code gets to build it. *)
Definition row_date (row : tag) : option Calendar.date :=
  if (List.length (get_texts row) <? 3)%nat then None else
  if PyStr.is_empty (date_text row) || PyStr.is_empty (price_text row) then None else
  parse_date_cell (date_text row).

(** Lines 162-164: the price of a row; [None] when the text is not a
    numeral or [float] raises. *)
Definition row_price (row : tag) : option PyFloat.t :=
  let clean_price := PyStr.strip (PyStr.remove "," (price_text row)) in
  if negb (PyStr.is_empty clean_price) && PyStr.isdigit (PyStr.remove "." clean_price)
  then PyFloat.of_string clean_price
  else None.

(** Lines 162-175: the record of a row that passed the date checks. *)
Definition row_record (w : world) (row : tag) (formatted_date : string) : option record :=
  match row_price row with
  | Some closing_price =>
      match get_daily_volume_estimate w closing_price formatted_date with
      | Some volume =>
          match closing_price with
          | PyFloat.Finite q => Some (mkrecord formatted_date q volume)
          | PyFloat.Inf => None
          end
      | None => None
      end
  | None => None
  end.

(** Lines 125-181: the body of the row loop. *)
Definition process_row (w : world) (target_date : Calendar.instant)
  (seen_dates : list string) (row : tag) : row_step :=
  match row_date row with
  | None => Skip
  | Some record_date =>
      let formatted_date := Calendar.strftime record_date in
      if PyStr.mem formatted_date seen_dates then Skip
      else if Calendar.instant_ltb (Calendar.midnight record_date) target_date then Stop
      else match row_record w row formatted_date with
           | Some r => Accept r
           | None => Skip
           end
  end.

(** How the row loop of one page ends. *)
Inductive page_result :=
| Returned (page_records : list record)    (* the [return] of line 159 *)
| Completed (page_records : list record).  (* the loop ran to its end *)

(** Lines 124-181. *)
Fixpoint for_rows (w : world) (target_date : Calendar.instant) (rows : list tag)
  (page_records : list record) (seen_dates : list string) : page_result :=
  match rows with
  | [] => Completed page_records
  | row :: rest =>
      match process_row w target_date seen_dates row with
      | Skip => for_rows w target_date rest page_records seen_dates
      | Stop => Returned page_records
      | Accept r =>
          for_rows w target_date rest (page_records ++ [r]) (Date r :: seen_dates)
      end
  end.

(** Lines 191-194: some anchor's string matches [next] (any case) or [>]. *)
Definition is_next_link (a : option string) : bool :=
  match a with
  | Some s => PyStr.contains "next" (PyStr.lower s) || PyStr.contains ">" s
  | None => false
  end.

Definition has_next_link (page : soup) : bool := existsb is_next_link (anchors page).

Inductive stop_reason :=
| Stopped_boundary | Stopped_no_rows | Stopped_no_records
| Stopped_no_next_link | Stopped_page_limit | Failed.

(** What a run leaves behind: the list it returns, the pages it requested
    (in order) and why it stopped. *)
Record outcome := mkoutcome {
  records : list record;
  fetched : list nat;
  reason : stop_reason
}.

(** Lines 68-206, [fuel] bounding the number of evaluations of the loop
    condition; [None] means the fuel ran out. *)
Fixpoint while_loop (w : world) (target_date : Calendar.instant) (fuel : nat)
  (page : nat) (all_records : list record) (log : list nat) : option outcome :=
  match fuel with
  | O => None
  | S fuel' =>
      if (page <=? 30)%nat then
        match get_page w page with
        | FetchError => Some (mkoutcome all_records (log ++ [page]) Failed)
        | Fetched html =>
            let log := log ++ [page] in
            match find_rows html with
            | [] => Some (mkoutcome all_records log Stopped_no_rows)
            | rows =>
                match for_rows w target_date rows [] [] with
                | Returned page_records =>
                    Some (mkoutcome (all_records ++ page_records) log Stopped_boundary)
                | Completed [] => Some (mkoutcome all_records log Stopped_no_records)
                | Completed page_records =>
                    let all_records := all_records ++ page_records in
                    if has_next_link html
                    then while_loop w target_date fuel' (S page) all_records log
                    else Some (mkoutcome all_records log Stopped_no_next_link)
                end
            end
        end
      else Some (mkoutcome all_records log Stopped_page_limit)
  end.

(** How a call ends. *)
Inductive completion (A : Type) :=
| Returns (a : A)
| Raises
| OutOfFuel.
Arguments Returns {A} a.
Arguments Raises {A}.
Arguments OutOfFuel {A}.

(** Line 66: [datetime.now() - timedelta(days=365 * years)]; [None] is the
    [OverflowError] raised when the result leaves years 1..9999. *)
Definition target_date (w : world) (years : Z) : option Calendar.instant :=
  let o := Calendar.toordinal (now_date w) - 365 * years in
  if (1 <=? o) && (o <=? Calendar.max_ordinal)
  then Some (Calendar.mkinstant o (now_tod w)) else None.

Definition scrape_trace (w : world) (years : Z) : completion outcome :=
  match target_date w years with
  | None => Raises
  | Some t =>
      match while_loop w t 31 1 [] [] with
      | Some o => Returns o
      | None => OutOfFuel
      end
  end.

Definition scrape_nepse_daily_data (w : world) (years : Z) : completion (list record) :=
  match scrape_trace w years with
  | Returns o => Returns (records o)
  | Raises => Raises
  | OutOfFuel => OutOfFuel
  end.

(** ** [try_alternative_source] (lines 208-251) *)

Definition alternative_urls : list string :=
  ["https://www.sharesansar.com/today-share-price";
   "https://nepsealpha.com/trading/1"].

(** The longest prefix of digits, and what follows it. *)
Fixpoint take_digits (s : string) : string * string :=
  match s with
  | EmptyString => (EmptyString, EmptyString)
  | String c s' =>
      if PyStr.is_digit c
      then let (d, r) := take_digits s' in (String c d, r)
      else (EmptyString, s)
  end.

(** [re.findall(r'\d+\.?\d*', s)[0]], when the list is not empty. *)
Fixpoint first_numeral (s : string) : option string :=
  match s with
  | EmptyString => None
  | String c s' =>
      if PyStr.is_digit c then
        let (d1, r1) := take_digits s in
        match r1 with
        | String "." r2 => let (d2, _) := take_digits r2 in Some (d1 ++ "." ++ d2)%string
        | _ => Some d1
        end
      else first_numeral s'
  end.

(** Line 235: [datetime.now().strftime('%m/%d/%Y')]. *)
Definition current_date (w : world) : string := Calendar.strftime (now_date w).

(** Lines 220-246: one pass of the loop over the alternate URLs; [None]
    when the pass goes on to the next URL. *)
Definition probe_source (w : world) (url : string) : option record :=
  match get_alt w url with
  | AltError => None
  | AltStatus status_code text =>
      if status_code =? 200 then
        let text_content := PyStr.lower text in
        if PyStr.contains "nepse" text_content && PyStr.contains "index" text_content then
          match first_numeral text_content with
          | Some number =>
              match PyFloat.of_string number with
              | Some current_price =>
                  match get_daily_volume_estimate w current_price (current_date w) with
                  | Some volume =>
                      match current_price with
                      | PyFloat.Finite q => Some (mkrecord (current_date w) q volume)
                      | PyFloat.Inf => None
                      end
                  | None => None
                  end
              | None => None
              end
          | None => None
          end
        else None
      else None
  end.

Fixpoint try_urls (w : world) (urls : list string) : list record :=
  match urls with
  | [] => []
  | url :: rest =>
      match probe_source w url with
      | Some r => [r]
      | None => try_urls w rest
      end
  end.

Definition try_alternative_source (w : world) : list record :=
  try_urls w alternative_urls.

(** ** [save_csv] (lines 253-297) *)

(** A file on disk: its name, its header and its data rows. *)
Record artifact := mkartifact { path : string; columns : list string; rows : list record }.

(** [s.endswith(suffix)] *)
Fixpoint endswith (s suffix : string) : bool :=
  String.eqb s suffix ||
  match s with
  | EmptyString => false
  | String _ s' => endswith s' suffix
  end.

(** [d.strftime('%Y%m%d')] *)
Definition strftime_Ymd (d : Calendar.date) : string :=
  (Calendar.four_digits (Calendar.year d) ++ Calendar.two_digits (Calendar.month d)
   ++ Calendar.two_digits (Calendar.day d))%string.

(** Lines 261-265 of [save_csv]: the name of the file written, [None]
    and the empty name standing for no name given. *)
Definition output_filename (w : world) (filename : option string) : string :=
  let filename :=
    match filename with
    | None | Some EmptyString =>
        ("nepse_daily_" ++ strftime_Ymd (now_date w) ++ ".csv")%string
    | Some name => name
    end in
  if endswith filename ".csv" then filename else (filename ++ ".csv")%string.

(** Line 272: [df.drop_duplicates(subset=['Date'], keep='first')]. *)
Fixpoint drop_duplicates_from (seen : list string) (data : list record) : list record :=
  match data with
  | [] => []
  | r :: rest =>
      if PyStr.mem (Date r) seen then drop_duplicates_from seen rest
      else r :: drop_duplicates_from (Date r :: seen) rest
  end.

Definition drop_duplicates (data : list record) : list record :=
  drop_duplicates_from [] data.

(** A cell of the [date_obj] column: a day, held as the ordinal of its
    midnight, or [NaT]. *)
Inductive timestamp := NaT | Timestamp (ordinal : Z).

(** The texts [pd.to_datetime] reads as a missing value, besides the
    empty one. *)
Definition nat_strings : list string := ["NaT"; "nat"; "NAT"; "nan"; "NaN"; "NAN"].

Definition not_a_time (s : string) : bool :=
  PyStr.is_empty s || PyStr.mem s nat_strings.

(** [pd.to_datetime(s, format='%m/%d/%Y')] on one cell: a missing value
    gives [NaT]; any other text has to match the format, name a calendar
    day, and lie in the range the column can hold; [None] stands for the
    [ValueError] ([OutOfBoundsDatetime] is one). *)
Definition to_datetime (w : world) (s : string) : option timestamp :=
  if not_a_time s then Some NaT
  else match Calendar.strptime s with
       | Some d => if representable w d then Some (Timestamp (Calendar.toordinal d)) else None
       | None => None
       end.

(** Line 276: the [date_obj] column beside the rows; [None] when
    [pd.to_datetime] raises on some cell. *)
Fixpoint with_date_obj (w : world) (data : list record) : option (list (timestamp * record)) :=
  match data with
  | [] => Some []
  | r :: rest =>
      match to_datetime w (Date r), with_date_obj w rest with
      | Some t, Some keyed => Some ((t, r) :: keyed)
      | _, _ => None
      end
  end.

(** The rows whose [date_obj] is a day, under that day, and the rows
    whose [date_obj] is [NaT]. *)
Fixpoint dated (keyed : list (timestamp * record)) : list (Z * record) :=
  match keyed with
  | [] => []
  | (Timestamp k, r) :: rest => (k, r) :: dated rest
  | (NaT, _) :: rest => dated rest
  end.

Fixpoint undated (keyed : list (timestamp * record)) : list record :=
  match keyed with
  | [] => []
  | (Timestamp _, _) :: rest => undated rest
  | (NaT, r) :: rest => r :: undated rest
  end.

(** An element of the array being sorted: its key, the rank that orders
    it among equal keys, and the row it stands for. *)
Definition key (e : Z * nat * record) : Z := fst (fst e).
Definition rank (e : Z * nat * record) : nat := snd (fst e).

Fixpoint ranked (ranks : list nat) (l : list (Z * record)) : list (Z * nat * record) :=
  match l with
  | [] => []
  | (k, r) :: l' => (k, hd 0%nat ranks, r) :: ranked (tl ranks) l'
  end.

Definition entry_leb (x y : Z * nat * record) : bool :=
  (key x <? key y) || ((key x =? key y) && (rank x <=? rank y)%nat).

Fixpoint insert_sorted (x : Z * nat * record) (l : list (Z * nat * record))
  : list (Z * nat * record) :=
  match l with
  | [] => [x]
  | y :: l' => if entry_leb x y then x :: l else y :: insert_sorted x l'
  end.

(** The array in ascending order of key and, among equal keys, of rank;
    elements equal in both stay in the order they had. *)
Fixpoint argsort (l : list (Z * nat * record)) : list (Z * nat * record) :=
  match l with
  | [] => []
  | x :: l' => insert_sorted x (argsort l')
  end.

(** Line 277: [sort_values('date_obj', ascending=True)], with the
    defaults [kind='quicksort'] and [na_position='last']: the rows that
    have a day in ascending order of day, equal days in the order of the
    ranks the world gives them, then the [NaT] rows in the order they
    had. *)
Definition sort_values (w : world) (keyed : list (timestamp * record)) : list record :=
  let days := dated keyed in
  map snd (argsort (ranked (tie_rank w (map fst days)) days)) ++ undated keyed.

Definition csv_columns : list string := ["Date"; "Close"; "Volume"].

(** Lines 269-281: the frame handed to [to_csv]; [None] when
    [pd.to_datetime] raises. *)
Definition sorted_frame (w : world) (data : list record) : option (list record) :=
  option_map (sort_values w) (with_date_obj w (drop_duplicates data)).

(** The method returns nothing; what is modelled is the file it leaves
    on disk.  [None]: no file was written to its end, because there was
    no data (line 257) or because [pd.to_datetime] or [to_csv] raised
    and the handler of line 296 took over.  What follows the write
    (lines 286-294) only reports. *)
Definition save_csv (w : world) (data : list record) (filename : option string)
  : option artifact :=
  match data with
  | [] => None
  | _ =>
      let filename := output_filename w filename in
      match sorted_frame w data with
      | Some df_unique =>
          if to_csv w filename df_unique
          then Some (mkartifact filename csv_columns df_unique)
          else None
      | None => None
      end
  end.

(** ** [run] (lines 299-319) *)

Definition run (w : world) (years : Z) (filename : option string)
  : completion (option artifact) :=
  match scrape_nepse_daily_data w years with
  | Returns data =>
      let data := match data with [] => try_alternative_source w | _ => data end in
      Returns (save_csv w data filename)
  | Raises => Raises
  | OutOfFuel => OutOfFuel
  end.

(** ** Concrete worlds *)

Module Sample.

(** The tail of [str(x)] for a price printed in positional notation with
    its shortest numeral (at most fifteen significant digits):
    [2481.35 -> 35], [100.0 -> 0], [5.0 -> 50]. *)
Fixpoint positional_digits (fuel : nat) (n : Z) (d : positive) : Z :=
  match fuel with
  | O => 0
  | S fuel' =>
      let n' := 10 * n in
      if n' mod Zpos d =? 0 then n' / Zpos d else positional_digits fuel' n' d
  end.

Definition short_repr_tail (q : Q) : Z :=
  positional_digits 17 (Qnum q) (Qden q) mod 100.

(** A [<tr>] with the given cell texts. *)
Definition tr (cells : list string) : tag := Tag [] cells.

Definition header : tag := tr ["#"; "Date"; "Index Value"].

(** A page holding one [<table>] without class or [<tbody>]: a header row
    followed by [data_rows], and the given anchors. *)
Definition table_page (data_rows : list tag) (links : list (option string)) : soup :=
  mksoup (fun s =>
            match s with
            | Sel_table => [Tag (header :: data_rows) (List.concat (map get_texts (header :: data_rows)))]
            | Sel_tr => header :: data_rows
            | _ => []
            end)
         links.

Definition next_anchor : list (option string) := [Some "Next"].

(** 2026-11-04, 12:00:00. *)
Definition today : Calendar.date := Calendar.mkdate 2026 11 4.
Definition noon : Z := 43200000000.

(** The days a [datetime64[ns]] column holds: 1677-09-22 to 2262-04-11. *)
Definition nanosecond_days (d : Calendar.date) : bool :=
  (Calendar.toordinal (Calendar.mkdate 1677 9 22) <=? Calendar.toordinal d) &&
  (Calendar.toordinal d <=? Calendar.toordinal (Calendar.mkdate 2262 4 11)).

(** A sort that leaves equal keys in the order they came in, and one
    that turns them round. *)
Definition first_come : list Z -> list nat := fun _ => [].
Definition last_come : list Z -> list nat := fun keys => rev (seq 0 (List.length keys)).

(** A disk that takes every file, and one that takes none. *)
Definition writable : string -> list record -> bool := fun _ _ => true.
Definition read_only : string -> list record -> bool := fun _ _ => false.

Definition world_of (pages : nat -> response) (alt : string -> alt_response) : world :=
  mkworld today noon pages alt short_repr_tail nanosecond_days first_come writable.

Definition no_alt : string -> alt_response := fun _ => AltError.

(** Three pages of a listing that goes back in time, run on 2026-11-04
    with [years = 2]: the cutoff is 2024-11-04, 12:00:00.  The seventh
    row of the third page is the first one dated before it. *)
Definition page1_rows : list tag :=
  [tr ["1"; "2024/11/22"; "2,700.10"]; tr ["2"; "2024/11/21"; "2,698.00"];
   tr ["3"; "2024/11/20"; "2,695.50"]; tr ["4"; "2024/11/19"; "2,690.25"];
   tr ["5"; "2024/11/18"; "2,688.75"]; tr ["6"; "2024/11/17"; "2,685.00"]].

Definition page2_rows : list tag :=
  [tr ["7"; "2024/11/16"; "2,684.10"]; tr ["8"; "2024/11/15"; "2,683.00"];
   tr ["9"; "2024/11/14"; "2,681.50"]; tr ["10"; "2024/11/13"; "2,680.25"];
   tr ["11"; "2024/11/12"; "2,678.75"]; tr ["12"; "2024/11/11"; "2,675.00"]].

Definition page3_kept : list tag :=
  [tr ["13"; "2024/11/10"; "2,674.10"]; tr ["14"; "2024/11/09"; "2,673.00"];
   tr ["15"; "2024/11/08"; "2,671.50"]; tr ["16"; "2024/11/07"; "2,670.25"];
   tr ["17"; "2024/11/06"; "2,668.75"]; tr ["18"; "2024/11/05"; "2,665.00"]].

Definition boundary_row : tag := tr ["19"; "2024/11/03"; "2,664.00"].

Definition page3_older : list tag :=
  [tr ["20"; "2024/11/02"; "2,663.00"]; tr ["21"; "2024/11/01"; "2,662.00"];
   tr ["22"; "2024/10/31"; "2,661.00"]].

Definition page3 : soup :=
  table_page (page3_kept ++ boundary_row :: page3_older) next_anchor.

Definition three_pages (n : nat) : response :=
  match n with
  | 1%nat => Fetched (table_page page1_rows next_anchor)
  | 2%nat => Fetched (table_page page2_rows next_anchor)
  | 3%nat => Fetched page3
  | _ => FetchError
  end.

Definition harvest_world : world := world_of three_pages no_alt.

(** The same listing, on a machine whose disk refuses the file. *)
Definition read_only_world : world :=
  mkworld today noon three_pages no_alt short_repr_tail nanosecond_days first_come read_only.

(** The same listing, sorted by a quicksort that turns equal keys round. *)
Definition last_come_world : world :=
  mkworld today noon three_pages no_alt short_repr_tail nanosecond_days last_come writable.

(** The same listing, except that the third page has a row dated on the
    very day of the cutoff, 2024-11-04, where [boundary_row] stood. *)
Definition cutoff_day_row : tag := tr ["19"; "2024/11/04"; "2,664.50"].

Definition cutoff_day_pages (n : nat) : response :=
  match n with
  | 1%nat => Fetched (table_page page1_rows next_anchor)
  | 2%nat => Fetched (table_page page2_rows next_anchor)
  | 3%nat => Fetched (table_page (page3_kept ++ cutoff_day_row :: page3_older) next_anchor)
  | _ => FetchError
  end.

Definition cutoff_day_world : world := world_of cutoff_day_pages no_alt.

Definition cutoff_2024 : Calendar.instant := Calendar.mkinstant 739194 noon.

(** The second page serves the rows of the first one again. *)
Definition overlapping_pages (n : nat) : response :=
  match n with
  | 1%nat => Fetched (table_page page1_rows next_anchor)
  | 2%nat => Fetched (table_page page1_rows [])
  | _ => FetchError
  end.

Definition overlap_world : world := world_of overlapping_pages no_alt.

(** A one-page listing in which one closing value reads [0]. *)
Definition zero_price_rows : list tag :=
  [tr ["1"; "2026/11/03"; "2,481.35"]; tr ["2"; "2026/11/02"; "2,470.00"];
   tr ["3"; "2026/11/01"; "0"]; tr ["4"; "2026/10/30"; "2,465.10"];
   tr ["5"; "2026/10/29"; "2,460.00"]; tr ["6"; "2026/10/28"; "2,455.75"]].

Definition zero_price_pages (n : nat) : response :=
  match n with
  | 1%nat => Fetched (table_page zero_price_rows [])
  | _ => FetchError
  end.

Definition zero_price_world : world := world_of zero_price_pages no_alt.

(** The writer's scenario of the specification. *)
Definition three_records : list record :=
  [mkrecord "01/02/2024" 100 1; mkrecord "01/02/2024" 101 2; mkrecord "01/03/2024" 102 3].

(** Records as no run builds them: one day written in two ways, and
    dates that read as missing values. *)
Definition loose_records : list record :=
  [mkrecord "nan" 1 1; mkrecord "01/03/2024" 2 2; mkrecord "1/2/2024" 3 3;
   mkrecord "" 4 4; mkrecord "01/02/2024" 5 5].

(** A page whose only table has a header and one data row. *)
Definition short_table_row : tag := tr ["1"; "2026/11/03"; "2,481.35"].
Definition short_table_page : soup := table_page [short_table_row] [].

Definition short_table_pages (n : nat) : response :=
  match n with
  | 1%nat => Fetched short_table_page
  | _ => FetchError
  end.

Definition short_table_world : world := world_of short_table_pages no_alt.

(** A page on which no selector matches anything. *)
Definition blank_page : soup := mksoup (fun _ => []) [].

Definition blank_pages (n : nat) : response :=
  match n with
  | 1%nat => Fetched blank_page
  | _ => FetchError
  end.

Definition blank_world : world := world_of blank_pages no_alt.

(** A row long out of the window whose price does not parse, a good row
    after it, and a row with a blank price. *)
Definition old_bad_price_row : tag := tr ["1"; "2000/01/01"; "abc"].
Definition old_blank_price_row : tag := tr ["1"; "2000/01/01"; " "].
Definition good_row : tag := tr ["2"; "2026/11/03"; "2,481.35"].
Definition recent_bad_price_row : tag := tr ["3"; "2026/11/02"; "n/a"].

Definition blank_price_pages (n : nat) : response :=
  match n with
  | 1%nat => Fetched (table_page [old_blank_price_row; good_row] [])
  | _ => FetchError
  end.

Definition blank_price_world : world := world_of blank_price_pages no_alt.

(** The source is unreachable. *)
Definition offline_world : world := world_of (fun _ => FetchError) no_alt.

(** Every page is the same six rows with a next link. *)
Definition endless_world : world :=
  world_of (fun _ => Fetched (table_page page1_rows next_anchor)) no_alt.

(** The alternate sources: the specification's scenario, and one in
    which the first source already shows another figure. *)
Definition scenario_alt (url : string) : alt_response :=
  if String.eqb url "https://www.sharesansar.com/today-share-price"
  then AltStatus 200 "Today's NEPSE Index 2481.35 points, turnover up"
  else AltError.

Definition scenario_world : world := world_of (fun _ => FetchError) scenario_alt.

Definition two_figures_alt (url : string) : alt_response :=
  if String.eqb url "https://www.sharesansar.com/today-share-price"
  then AltStatus 200 "NEPSE Index gained 100 points"
  else AltStatus 200 "NEPSE index 2481.35".

Definition two_figures_world : world := world_of (fun _ => FetchError) two_figures_alt.

End Sample.

(** ** Derived notions used by the statements *)

(** What one fetched page adds to the result. *)
Definition page_records_of (w : world) (c : Calendar.instant) (n : nat) : list record :=
  match get_page w n with
  | FetchError => []
  | Fetched html =>
      match for_rows w c (find_rows html) [] [] with
      | Returned l => l
      | Completed l => l
      end
  end.

(** The rows a selector strategy offers when it clears the threshold of
    more than five rows. *)
Definition yields (page : soup) (s : selector) : option (list tag) :=
  if is_table_selector s then first_table_rows (select page s)
  else if (5 <? List.length (select page s))%nat then Some (select page s)
  else None.

Fixpoint first_yield (page : soup) (sels : list selector) : option (list tag) :=
  match sels with
  | [] => None
  | s :: rest =>
      match yields page s with
      | Some rows => Some rows
      | None => first_yield page rest
      end
  end.

(** A source from which the fallback extracts nothing: the request fails,
    the status is not 200, a keyword is missing, or the text has no
    numeral. *)
Definition unusable (w : world) (url : string) : bool :=
  match get_alt w url with
  | AltError => true
  | AltStatus status_code text =>
      negb (status_code =? 200)
      || negb (PyStr.contains "nepse" (PyStr.lower text)
               && PyStr.contains "index" (PyStr.lower text))
      || match first_numeral (PyStr.lower text) with Some _ => false | None => true end
  end.

(** The day a [Date] in the [MM/DD/YYYY] form names, as an ordinal: the
    sort key of such a row at line 277. *)
Definition date_key (r : record) : Z :=
  match Calendar.strptime (Date r) with
  | Some d => Calendar.toordinal d
  | None => 0
  end.

(** A record whose [Date] is the [MM/DD/YYYY] rendering of a calendar day. *)
Definition well_dated (r : record) : Prop :=
  exists d, Calendar.valid d = true /\ Date r = Calendar.strftime d.

(** The writer's first step as the specification words it: a record is
    dropped when an earlier record of the input has its [Date]. *)
Fixpoint first_occurrences (earlier data : list record) : list record :=
  match data with
  | [] => []
  | r :: rest =>
      if existsb (fun e => String.eqb (Date e) (Date r)) earlier
      then first_occurrences (earlier ++ [r]) rest
      else r :: first_occurrences (earlier ++ [r]) rest
  end.

(** A row that is a boundary stop for cutoff [c]: its date is built and
    lies before [c]. *)
Definition before_cutoff (c : Calendar.instant) (row : tag) : bool :=
  match row_date row with
  | Some d => Calendar.instant_ltb (Calendar.midnight d) c
  | None => false
  end.

(** What the scraper guarantees of a record it builds. *)
Definition sound_record (r : record) : Prop := (0 <= Close r)%Q /\ (0 < Volume r)%Q.

(** A record the row loop can have built under cutoff [c]: it comes from
    a row whose day is not before [c], and carries that day's rendering. *)
Definition harvested (w : world) (c : Calendar.instant) (r : record) : Prop :=
  exists row d,
    row_date row = Some d /\ Date r = Calendar.strftime d /\
    Calendar.instant_ltb (Calendar.midnight d) c = false /\
    row_record w row (Calendar.strftime d) = Some r.

(** Rows in strictly ascending order of their parsed dates. *)
Definition strictly_ascending (l : list record) : Prop :=
  StronglySorted (fun a b => date_key a < date_key b) l.

(** Every day whose rendering is in the set is on or after the cutoff. *)
Definition seen_after_cutoff (c : Calendar.instant) (seen : list string) : Prop :=
  forall d, Calendar.valid d = true -> In (Calendar.strftime d) seen ->
            Calendar.instant_ltb (Calendar.midnight d) c = false.

(** ** More of the code *)

(** How the loop leaves page [n] (lines 69-203): [None] when it goes on
    to the next page, or the reason it stops there. *)
Definition page_end_of (w : world) (c : Calendar.instant) (n : nat) : option stop_reason :=
  match get_page w n with
  | FetchError => Some Failed
  | Fetched html =>
      match find_rows html with
      | [] => Some Stopped_no_rows
      | rows =>
          match for_rows w c rows [] [] with
          | Returned _ => Some Stopped_boundary
          | Completed [] => Some Stopped_no_records
          | Completed _ =>
              if has_next_link html then None else Some Stopped_no_next_link
          end
      end
  end.

(** The cutoff of a run on 2026-11-04 with [years = 3]: 2023-11-05,
    12:00:00. *)
Definition cutoff_2023 : Calendar.instant := Calendar.mkinstant 738829 Sample.noon.

(** A numeral of [n] zeros. *)
Fixpoint zeros (n : nat) : string :=
  match n with
  | O => EmptyString
  | S n' => String "0" (zeros n')
  end.

(** A row whose price reads 1 followed by 309 zeros. *)
Definition overflowing_row : tag :=
  Sample.tr ["1"; "2026/11/03"; String "1" (zeros 309)].


(** A text without white space. *)
Fixpoint no_space (s : string) : bool :=
  match s with
  | EmptyString => true
  | String a s' => negb (PyStr.isspace a) && no_space s'
  end.

(** The dates [pd.to_datetime] accepts. *)
Definition readable (w : world) (r : record) : Prop :=
  not_a_time (Date r) = true \/
  exists d, Calendar.strptime (Date r) = Some d /\ representable w d = true.

(** ** The forecast's samples ([model.py], lines 15-21 and 43) *)

Module Forecast.

Definition window_size : nat := 3.

(** Line 18-19 for one [i]: the window [prices[i:i + window_size]] and
    the target [prices[i + window_size]]; [None] stands for the
    [IndexError]. *)
Definition sample_at (prices : list Q) (i : nat) : option (list Q * Q) :=
  match nth_error prices (i + window_size) with
  | Some target => Some (firstn window_size (skipn i prices), target)
  | None => None
  end.

Fixpoint collect {A : Type} (l : list (option A)) : option (list A) :=
  match l with
  | [] => Some []
  | Some a :: l' => option_map (cons a) (collect l')
  | None :: _ => None
  end.

(** Lines 16-19: the loop over [range(len(prices) - window_size)]. *)
Definition samples (prices : list Q) : option (list (list Q * Q)) :=
  collect (map (sample_at prices) (seq 0 (List.length prices - window_size))).

(** Line 43: [prices[-window_size:]]. *)
Definition tomorrow_input (prices : list Q) : list Q :=
  skipn (List.length prices - window_size) prices.

End Forecast.

(** * Facts *)

(** ** Strings and dates *)

Ltac Zify.zify_post_hook ::= Z.to_euclidean_division_equations.

Lemma digit_char_cases (k : Z) :
  exists j, 0 <= j <= 9 /\ k mod 10 = j /\ PyStr.digit_char k = ascii_of_nat (48 + Z.to_nat j).
Proof.
  exists (k mod 10). pose proof (Z.mod_pos_bound k 10 ltac:(lia)).
  repeat split; try lia.
Qed.

Lemma small_cases (j : Z) :
  0 <= j <= 9 ->
  j = 0 \/ j = 1 \/ j = 2 \/ j = 3 \/ j = 4 \/ j = 5 \/ j = 6 \/ j = 7 \/ j = 8 \/ j = 9.
Proof. lia. Qed.

Ltac digit_cases k :=
  let j := fresh "j" in let Hj := fresh "Hj" in let Hm := fresh "Hm" in
  let Hc := fresh "Hc" in
  destruct (digit_char_cases k) as (j & Hj & Hm & Hc);
  rewrite Hc;
  destruct (small_cases j Hj) as [->|[->|[->|[->|[->|[->|[->|[->|[->| ->]]]]]]]]].

Lemma digit_char_is_digit (k : Z) : PyStr.is_digit (PyStr.digit_char k) = true.
Proof. digit_cases k; reflexivity. Qed.

Lemma digit_char_value (k : Z) : PyStr.digit_value (PyStr.digit_char k) = k mod 10.
Proof. digit_cases k; rewrite Hm; reflexivity. Qed.

Lemma is_digit_not_slash (a : ascii) : PyStr.is_digit a = true -> Ascii.eqb a "/" = false.
Proof.
  intros H. destruct (Ascii.eqb_spec a "/") as [->|]; [discriminate H | reflexivity].
Qed.

Lemma split_date_shape (a b c d e f g h : ascii) :
  PyStr.is_digit a = true -> PyStr.is_digit b = true -> PyStr.is_digit c = true ->
  PyStr.is_digit d = true -> PyStr.is_digit e = true -> PyStr.is_digit f = true ->
  PyStr.is_digit g = true -> PyStr.is_digit h = true ->
  PyStr.split "/"
    (String a (String b (String "/" (String c (String d (String "/"
       (String e (String f (String g (String h EmptyString))))))))))
  = [String a (String b EmptyString); String c (String d EmptyString);
     String e (String f (String g (String h EmptyString)))].
Proof.
  intros Ha Hb Hc Hd He Hf Hg Hh.
  apply is_digit_not_slash in Ha, Hb, Hc, Hd, He, Hf, Hg, Hh.
  cbn [PyStr.split].
  rewrite Ha, Hb, Hc, Hd, He, Hf, Hg, Hh, Ascii.eqb_refl. reflexivity.
Qed.

Ltac calc_tests :=
  cbn [Z.eqb Z.ltb Z.leb Z.compare Pos.compare Pos.compare_cont Pos.eqb andb orb negb] in *.

Ltac enumerate x lo hi :=
  let H := fresh "Hcase" in
  assert (H : List.In x (map Z.of_nat (seq (Z.to_nat lo) (Z.to_nat (hi - lo + 1)))))
    by (apply in_map_iff; exists (Z.to_nat x); split;
        [ lia | apply in_seq; lia ]);
  cbv in H;
  repeat (destruct H as [H | H]; [ subst x | ]); try contradiction.

Lemma parse_month_two_digits (m : Z) :
  1 <= m <= 12 -> Calendar.parse_month (Calendar.two_digits m) = Some m.
Proof. intros H. enumerate m 1 12; reflexivity. Qed.

Lemma parse_day_two_digits (d : Z) :
  1 <= d <= 31 -> Calendar.parse_day (Calendar.two_digits d) = Some d.
Proof. intros H. enumerate d 1 31; reflexivity. Qed.

Lemma parse_year_four_digits (y : Z) :
  0 <= y <= 9999 -> Calendar.parse_year (Calendar.four_digits y) = Some y.
Proof.
  intros H. unfold Calendar.four_digits, Calendar.two_digits, Calendar.parse_year.
  rewrite !digit_char_is_digit, !digit_char_value. cbn [andb]. f_equal. lia.
Qed.

Lemma valid_ranges (d : Calendar.date) :
  Calendar.valid d = true ->
  1 <= Calendar.year d <= 9999 /\ 1 <= Calendar.month d <= 12 /\
  1 <= Calendar.day d <= Calendar.days_in_month (Calendar.year d) (Calendar.month d).
Proof. unfold Calendar.valid. rewrite !andb_true_iff. lia. Qed.

Lemma days_in_month_bound (y m : Z) : 28 <= Calendar.days_in_month y m <= 31.
Proof.
  unfold Calendar.days_in_month.
  repeat match goal with |- context [if ?b then _ else _] => destruct b end; lia.
Qed.

(** Parsing a rendered date gives the date back. *)
Lemma strptime_strftime (d : Calendar.date) :
  Calendar.valid d = true -> Calendar.strptime (Calendar.strftime d) = Some d.
Proof.
  intros Hv. pose proof (valid_ranges d Hv) as (Hy & Hm & Hd).
  pose proof (days_in_month_bound (Calendar.year d) (Calendar.month d)).
  unfold Calendar.strptime, Calendar.strftime.
  change (Calendar.two_digits (Calendar.month d) ++ "/" ++
          Calendar.two_digits (Calendar.day d) ++ "/" ++
          Calendar.four_digits (Calendar.year d))%string
    with (String (PyStr.digit_char (Calendar.month d / 10))
           (String (PyStr.digit_char (Calendar.month d))
             (String "/"
               (String (PyStr.digit_char (Calendar.day d / 10))
                 (String (PyStr.digit_char (Calendar.day d))
                   (String "/" (Calendar.four_digits (Calendar.year d)))))))).
  unfold Calendar.four_digits at 1. unfold Calendar.two_digits at 1.
  rewrite split_date_shape by apply digit_char_is_digit.
  fold (Calendar.two_digits (Calendar.month d)).
  fold (Calendar.two_digits (Calendar.day d)).
  fold (Calendar.two_digits (Calendar.year d)).
  fold (Calendar.four_digits (Calendar.year d)).
  rewrite parse_month_two_digits, parse_day_two_digits, parse_year_four_digits by lia.
  unfold Calendar.datetime. destruct d as [y m dd]; cbn in *. rewrite Hv. reflexivity.
Qed.

Lemma strftime_inj (d1 d2 : Calendar.date) :
  Calendar.valid d1 = true -> Calendar.valid d2 = true ->
  Calendar.strftime d1 = Calendar.strftime d2 -> d1 = d2.
Proof.
  intros H1 H2 E. apply strptime_strftime in H1, H2.
  rewrite E in H1. congruence.
Qed.

Lemma is_leap_spec (y : Z) :
  (Calendar.is_leap y = true /\ y mod 4 = 0 /\ (y mod 100 <> 0 \/ y mod 400 = 0)) \/
  (Calendar.is_leap y = false /\ (y mod 4 <> 0 \/ (y mod 100 = 0 /\ y mod 400 <> 0))).
Proof.
  unfold Calendar.is_leap.
  destruct (Z.eqb_spec (y mod 4) 0), (Z.eqb_spec (y mod 100) 0),
    (Z.eqb_spec (y mod 400) 0); cbn; intuition lia.
Qed.

Lemma days_before_year_step (y1 y2 : Z) :
  y1 < y2 ->
  Calendar.days_before_year y1 + 365 + (if Calendar.is_leap y1 then 1 else 0)
  <= Calendar.days_before_year y2.
Proof.
  intros H. unfold Calendar.days_before_year.
  destruct (is_leap_spec y1) as [(-> & ?) | (-> & ?)]; lia.
Qed.

Lemma day_of_year_bound (d : Calendar.date) :
  Calendar.valid d = true ->
  1 <= Calendar.days_before_month (Calendar.year d) (Calendar.month d) + Calendar.day d
    <= 365 + (if Calendar.is_leap (Calendar.year d) then 1 else 0).
Proof.
  intros Hv. destruct (valid_ranges d Hv) as (_ & Hm & Hd).
  destruct d as [y m dd]; cbn [Calendar.year Calendar.month Calendar.day] in *.
  enumerate m 1 12; unfold Calendar.days_in_month in Hd;
    unfold Calendar.days_before_month;
    destruct (Calendar.is_leap y); calc_tests; lia.
Qed.

Lemma day_of_year_inj (y m1 d1 m2 d2 : Z) :
  Calendar.valid (Calendar.mkdate y m1 d1) = true ->
  Calendar.valid (Calendar.mkdate y m2 d2) = true ->
  Calendar.days_before_month y m1 + d1 = Calendar.days_before_month y m2 + d2 ->
  m1 = m2 /\ d1 = d2.
Proof.
  intros H1 H2.
  destruct (valid_ranges _ H1) as (_ & Hm1 & Hd1).
  destruct (valid_ranges _ H2) as (_ & Hm2 & Hd2).
  cbn [Calendar.year Calendar.month Calendar.day] in *.
  unfold Calendar.days_in_month in *.
  enumerate m1 1 12; enumerate m2 1 12;
    unfold Calendar.days_before_month;
    destruct (Calendar.is_leap y); calc_tests; lia.
Qed.

(** Distinct calendar days have distinct ordinals. *)
Lemma toordinal_inj (a b : Calendar.date) :
  Calendar.valid a = true -> Calendar.valid b = true ->
  Calendar.toordinal a = Calendar.toordinal b -> a = b.
Proof.
  intros Ha Hb E. unfold Calendar.toordinal in E.
  pose proof (day_of_year_bound a Ha) as Ba.
  pose proof (day_of_year_bound b Hb) as Bb.
  assert (Calendar.year a = Calendar.year b) as Ey.
  { destruct (Z.lt_trichotomy (Calendar.year a) (Calendar.year b)) as [L | [L | L]].
    - pose proof (days_before_year_step _ _ L). lia.
    - exact L.
    - pose proof (days_before_year_step _ _ L). lia. }
  destruct a as [y m1 d1], b as [y' m2 d2]; cbn [Calendar.year Calendar.month Calendar.day] in *.
  subst y'. destruct (day_of_year_inj y m1 d1 m2 d2 Ha Hb) as [-> ->]; [lia | reflexivity].
Qed.

Lemma instant_ltb_spec (a b : Calendar.instant) :
  Calendar.instant_ltb a b = true <-> Calendar.instant_lt a b.
Proof.
  unfold Calendar.instant_ltb, Calendar.instant_lt.
  rewrite orb_true_iff, andb_true_iff, !Z.ltb_lt, Z.eqb_eq. reflexivity.
Qed.

Lemma instant_ltb_false (a b : Calendar.instant) :
  Calendar.instant_ltb a b = false <-> ~ Calendar.instant_lt a b.
Proof.
  rewrite <- instant_ltb_spec. destruct (Calendar.instant_ltb a b); intuition congruence.
Qed.

(** ** Rows *)

Lemma parse_date_cell_valid (s : string) (d : Calendar.date) :
  parse_date_cell s = Some d -> Calendar.valid d = true.
Proof.
  unfold parse_date_cell, Calendar.datetime.
  repeat match goal with
         | |- context [match ?x with _ => _ end] => destruct x eqn:?; try discriminate
         end.
  intros E; injection E as <-; assumption.
Qed.

Lemma row_date_parse (row : tag) (d : Calendar.date) :
  row_date row = Some d ->
  (3 <= List.length (get_texts row))%nat /\ date_text row <> EmptyString /\
  price_text row <> EmptyString /\ parse_date_cell (date_text row) = Some d.
Proof.
  unfold row_date.
  destruct (Nat.ltb_spec (List.length (get_texts row)) 3); [discriminate|].
  destruct (date_text row) eqn:Ed, (price_text row) eqn:Ep; cbn; try discriminate.
  intros E. repeat split; try lia; try discriminate. exact E.
Qed.

Lemma row_date_valid (row : tag) (d : Calendar.date) :
  row_date row = Some d -> Calendar.valid d = true.
Proof.
  intros H. apply row_date_parse in H as (_ & _ & _ & H).
  exact (parse_date_cell_valid _ _ H).
Qed.

Lemma row_record_date (w : world) (row : tag) (fd : string) (r : record) :
  row_record w row fd = Some r -> Date r = fd.
Proof.
  unfold row_record.
  repeat match goal with
         | |- context [match ?x with _ => _ end] => destruct x eqn:?; try discriminate
         end.
  intros E; injection E as <-; reflexivity.
Qed.

(** The three ways a row can go, read off [process_row]. *)
Lemma process_row_stop (w : world) (c : Calendar.instant) (seen : list string) (row : tag) :
  process_row w c seen row = Stop <->
  exists d, row_date row = Some d /\ PyStr.mem (Calendar.strftime d) seen = false /\
            Calendar.instant_ltb (Calendar.midnight d) c = true.
Proof.
  unfold process_row. split.
  - destruct (row_date row) as [d|]; [|discriminate].
    destruct (PyStr.mem _ seen) eqn:Em; [discriminate|].
    destruct (Calendar.instant_ltb _ c) eqn:El.
    + intros _. exists d. auto.
    + destruct (row_record w row _); discriminate.
  - intros (d & -> & -> & ->). reflexivity.
Qed.

Lemma process_row_accept (w : world) (c : Calendar.instant) (seen : list string)
  (row : tag) (r : record) :
  process_row w c seen row = Accept r ->
  exists d, row_date row = Some d /\ Date r = Calendar.strftime d /\
            PyStr.mem (Date r) seen = false /\
            Calendar.instant_ltb (Calendar.midnight d) c = false /\
            row_record w row (Calendar.strftime d) = Some r.
Proof.
  unfold process_row.
  destruct (row_date row) as [d|]; [|discriminate].
  destruct (PyStr.mem _ seen) eqn:Em; [discriminate|].
  destruct (Calendar.instant_ltb _ c) eqn:El; [discriminate|].
  destruct (row_record w row _) as [r'|] eqn:Er; [|discriminate].
  intros E; injection E as <-. exists d.
  rewrite (row_record_date _ _ _ _ Er). auto.
Qed.

Lemma mem_true_iff (s : string) (l : list string) :
  PyStr.mem s l = true <-> In s l.
Proof.
  unfold PyStr.mem. rewrite existsb_exists. split.
  - intros (x & Hx & E). apply String.eqb_eq in E. subst. exact Hx.
  - intros H. exists s. split; [exact H | apply String.eqb_refl].
Qed.

Lemma mem_false_iff (s : string) (l : list string) :
  PyStr.mem s l = false <-> ~ In s l.
Proof.
  rewrite <- mem_true_iff. destruct (PyStr.mem s l); intuition congruence.
Qed.

Section PageLoop.

Variable w : world.
Variable c : Calendar.instant.

Lemma seen_after_cutoff_nil : seen_after_cutoff c [].
Proof. intros d _ []. Qed.

Lemma seen_after_cutoff_cons (d : Calendar.date) (seen : list string) :
  Calendar.valid d = true ->
  Calendar.instant_ltb (Calendar.midnight d) c = false ->
  seen_after_cutoff c seen -> seen_after_cutoff c (Calendar.strftime d :: seen).
Proof.
  intros Hv Hl Hs d' Hv' [E | Hin].
  - apply strftime_inj in E; auto. subst. exact Hl.
  - apply Hs; assumption.
Qed.

(** Rows none of which is a boundary stop are run through, and the loop
    then carries on with what follows them. *)
Lemma for_rows_app_no_stop (pre : list tag) :
  forall recs seen,
    seen_after_cutoff c seen ->
    forallb (fun r => negb (before_cutoff c r)) pre = true ->
    exists recs' seen',
      seen_after_cutoff c seen' /\
      for_rows w c pre recs seen = Completed recs' /\
      forall rest, for_rows w c (pre ++ rest) recs seen = for_rows w c rest recs' seen'.
Proof.
  induction pre as [|row pre IH]; intros recs seen Hs Hno.
  - exists recs, seen. auto.
  - cbn [forallb] in Hno. apply andb_true_iff in Hno as [Hrow Hpre].
    cbn [for_rows app].
    destruct (process_row w c seen row) as [| |r] eqn:Ep.
    + destruct (IH recs seen Hs Hpre) as (recs' & seen' & ? & ? & ?).
      exists recs', seen'; auto.
    + exfalso. apply process_row_stop in Ep as (d & Ed & _ & El).
      unfold before_cutoff in Hrow. rewrite Ed, El in Hrow. discriminate.
    + apply process_row_accept in Ep as (d & Ed & EDate & _ & El & _).
      assert (seen_after_cutoff c (Date r :: seen)) as Hs'.
      { rewrite EDate. apply seen_after_cutoff_cons; eauto using row_date_valid. }
      destruct (IH (recs ++ [r]) (Date r :: seen) Hs' Hpre) as (recs' & seen' & ? & ? & ?).
      exists recs', seen'; auto.
Qed.

(** A row whose date lies before the cutoff cannot have been seen. *)
Lemma boundary_row_stops (seen : list string) (row : tag) (d : Calendar.date) :
  seen_after_cutoff c seen -> row_date row = Some d ->
  Calendar.instant_lt (Calendar.midnight d) c ->
  process_row w c seen row = Stop.
Proof.
  intros Hs Ed Hl. apply process_row_stop. exists d.
  apply instant_ltb_spec in Hl. repeat split; auto.
  apply mem_false_iff. intros Hin.
  rewrite (Hs d (row_date_valid _ _ Ed) Hin) in Hl. discriminate.
Qed.

Lemma kept_row_goes_on (seen : list string) (row : tag) (d : Calendar.date) :
  row_date row = Some d -> ~ Calendar.instant_lt (Calendar.midnight d) c ->
  process_row w c seen row <> Stop.
Proof.
  intros Ed Hl Hstop. apply process_row_stop in Hstop as (d' & Ed' & _ & El).
  rewrite Ed in Ed'. injection Ed' as <-. apply instant_ltb_spec in El. contradiction.
Qed.

End PageLoop.

(** ** The pagination loop *)

Section Pagination.

Variable w : world.
Variable c : Calendar.instant.

Lemma while_loop_failed (fuel page : nat) (all_records : list record) (log : list nat) :
  (page <= 30)%nat -> get_page w page = FetchError ->
  while_loop w c (S fuel) page all_records log
  = Some (mkoutcome all_records (log ++ [page]) Failed).
Proof.
  intros Hp Hg. cbn [while_loop].
  destruct (Nat.leb_spec page 30); [|lia]. rewrite Hg. reflexivity.
Qed.

Lemma while_loop_returned (fuel page : nat) (all_records : list record) (log : list nat)
  (html : soup) (recs : list record) :
  (page <= 30)%nat -> get_page w page = Fetched html ->
  for_rows w c (find_rows html) [] [] = Returned recs ->
  while_loop w c (S fuel) page all_records log
  = Some (mkoutcome (all_records ++ recs) (log ++ [page]) Stopped_boundary).
Proof.
  intros Hp Hg Hr. cbn [while_loop].
  destruct (Nat.leb_spec page 30); [|lia]. rewrite Hg.
  destruct (find_rows html) as [|row rows]; [discriminate Hr|].
  rewrite Hr. reflexivity.
Qed.

Lemma while_loop_no_rows (fuel page : nat) (all_records : list record) (log : list nat)
  (html : soup) :
  (page <= 30)%nat -> get_page w page = Fetched html -> find_rows html = [] ->
  while_loop w c (S fuel) page all_records log
  = Some (mkoutcome all_records (log ++ [page]) Stopped_no_rows).
Proof.
  intros Hp Hg Hr. cbn [while_loop].
  destruct (Nat.leb_spec page 30); [|lia]. rewrite Hg, Hr. reflexivity.
Qed.

Lemma while_loop_next (fuel page : nat) (all_records : list record) (log : list nat)
  (html : soup) (r : record) (recs : list record) :
  (page <= 30)%nat -> get_page w page = Fetched html ->
  for_rows w c (find_rows html) [] [] = Completed (r :: recs) ->
  has_next_link html = true ->
  while_loop w c (S fuel) page all_records log
  = while_loop w c fuel (S page) (all_records ++ r :: recs) (log ++ [page]).
Proof.
  intros Hp Hg Hr Hn. cbn [while_loop].
  destruct (Nat.leb_spec page 30); [|lia]. rewrite Hg.
  destruct (find_rows html) as [|row rows]; [discriminate Hr|].
  rewrite Hr, Hn. reflexivity.
Qed.

(** With enough fuel the loop returns. *)
Lemma while_loop_total (fuel : nat) :
  forall page all_records log,
    (31 - page < fuel)%nat ->
    exists o, while_loop w c fuel page all_records log = Some o.
Proof.
  induction fuel as [|fuel IH]; intros page all_records log Hf; [lia|].
  cbn [while_loop].
  destruct (Nat.leb_spec page 30); [|eauto].
  destruct (get_page w page) as [|html]; [eauto|].
  destruct (find_rows html) as [|row rows]; [eauto|].
  destruct (for_rows w c (row :: rows) [] []) as [recs|[|r recs]]; eauto.
  destruct (has_next_link html); eauto.
  apply IH. lia.
Qed.

(** What a run of the loop from [page] amounts to: it requests [k]
    consecutive pages and returns what each of them contributes. *)
Lemma while_loop_spec (fuel : nat) :
  forall page all_records log o,
    while_loop w c fuel page all_records log = Some o ->
    exists k,
      fetched o = log ++ seq page k /\
      records o = all_records ++ List.concat (map (page_records_of w c) (seq page k)) /\
      (page <= 31 -> page + k <= 31)%nat /\
      (reason o = Failed ->
       (1 <= k)%nat /\ get_page w (page + k - 1) = FetchError) /\
      (reason o = Stopped_page_limit -> (31 <= page + k)%nat).
Proof.
  induction fuel as [|fuel IH]; intros page all_records log o H; [discriminate|].
  cbn [while_loop] in H.
  destruct (Nat.leb_spec page 30) as [Hp|Hp].
  2:{ injection H as <-. exists 0%nat. cbn. rewrite !app_nil_r.
      repeat split; try lia; discriminate. }
  assert (forall l, o = mkoutcome (all_records ++ page_records_of w c page)
                        (log ++ [page]) l ->
                    (l = Failed -> get_page w page = FetchError) ->
                    l <> Stopped_page_limit ->
                    exists k,
                      fetched o = log ++ seq page k /\
                      records o = all_records ++
                                  List.concat (map (page_records_of w c) (seq page k)) /\
                      (page <= 31 -> page + k <= 31)%nat /\
                      (reason o = Failed ->
                       (1 <= k)%nat /\ get_page w (page + k - 1) = FetchError) /\
                      (reason o = Stopped_page_limit -> (31 <= page + k)%nat)) as one.
  { intros l -> Hl Hn. exists 1%nat. cbn. rewrite app_nil_r.
    repeat split; try lia; try contradiction.
    replace (page + 1 - 1)%nat with page by lia. auto. }
  unfold page_records_of in one.
  destruct (get_page w page) as [|html] eqn:Hg.
  { injection H as <-. apply (one Failed); [now rewrite app_nil_r | auto | discriminate]. }
  destruct (find_rows html) as [|row rows] eqn:Hr.
  { injection H as <-. apply (one Stopped_no_rows);
      [cbn; now rewrite app_nil_r | discriminate | discriminate]. }
  destruct (for_rows w c (row :: rows) [] []) as [recs|[|r recs]] eqn:Hf.
  - injection H as <-. apply (one Stopped_boundary); [reflexivity | discriminate | discriminate].
  - injection H as <-. apply (one Stopped_no_records);
      [now rewrite app_nil_r | discriminate | discriminate].
  - destruct (has_next_link html).
    + apply IH in H as (k & Hfe & Hre & Hk & Hfail & Hlim).
      exists (S k). cbn [seq map List.concat].
      unfold page_records_of at 1. rewrite Hg, Hr, Hf.
      rewrite Hfe, Hre, <- !app_assoc. cbn [app].
      replace (page + S k)%nat with (S page + k)%nat by lia.
      repeat split; try lia; auto.
      match goal with
      | Hx : reason o = Failed |- _ => destruct (Hfail Hx) as [_ E]; exact E
      end.
    + injection H as <-. apply (one Stopped_no_next_link);
        [reflexivity | discriminate | discriminate].
Qed.

End Pagination.

Lemma scrape_trace_returns (w : world) (years : Z) (c : Calendar.instant) :
  target_date w years = Some c ->
  exists o, scrape_trace w years = Returns o /\ while_loop w c 31 1 [] [] = Some o.
Proof.
  intros Ht. unfold scrape_trace. rewrite Ht.
  destruct (while_loop_total w c 31 1 [] []) as (o & Ho); [lia|].
  rewrite Ho. eauto.
Qed.

Lemma scrape_trace_inv (w : world) (years : Z) (o : outcome) :
  scrape_trace w years = Returns o ->
  exists c, target_date w years = Some c /\ while_loop w c 31 1 [] [] = Some o.
Proof.
  unfold scrape_trace. destruct (target_date w years) as [c|]; [|discriminate].
  destruct (while_loop w c 31 1 [] []) as [o'|] eqn:E; [|discriminate].
  intros H; injection H as <-. eauto.
Qed.

(** * The claims *)

(** C1, as the code has it.  The cutoff [c] is the datetime
    [now - 365 * years days], which carries the time of day of the run,
    and the date of a row is the midnight of its day.  A row whose date
    is built is a boundary stop exactly when that midnight lies before
    [c]: when its day is earlier than the day of the cutoff, or is the
    day of the cutoff itself and the run did not start at midnight
    sharp.  At the first such row the pagination loop returns at once,
    in the same iteration, with the records of the earlier pages followed
    by the records the current page gave before that row, whatever comes
    after. *)
Theorem boundary_stop_returns_at_once :
  forall (w : world) (c : Calendar.instant) (fuel page : nat)
         (all_records : list record) (log : list nat) (html : soup)
         (pre post : list tag) (row : tag) (d : Calendar.date),
    (page <= 30)%nat ->
    get_page w page = Fetched html ->
    find_rows html = pre ++ row :: post ->
    forallb (fun r => negb (before_cutoff c r)) pre = true ->
    row_date row = Some d ->
    exists recs seen,
      for_rows w c pre [] [] = Completed recs /\
      (forall rest, for_rows w c (pre ++ rest) [] [] = for_rows w c rest recs seen) /\
      (process_row w c seen row = Stop <-> Calendar.instant_lt (Calendar.midnight d) c) /\
      (Calendar.instant_lt (Calendar.midnight d) c ->
       while_loop w c (S fuel) page all_records log
       = Some (mkoutcome (all_records ++ recs) (log ++ [page]) Stopped_boundary)) /\
      (process_row w c seen row = Stop <->
       Calendar.toordinal d < Calendar.ord c \/
       (Calendar.toordinal d = Calendar.ord c /\ 0 < Calendar.tod c)) /\
      (forall years,
          target_date w years = Some c ->
          Calendar.ord c = Calendar.toordinal (now_date w) - 365 * years /\
          Calendar.tod c = now_tod w).
Proof.
  intros w c fuel page all_records log html pre post row d Hp Hg Hrows Hpre Hd.
  destruct (for_rows_app_no_stop w c pre [] [] (seen_after_cutoff_nil c) Hpre)
    as (recs & seen & Hseen & Hdone & Hnext).
  assert (process_row w c seen row = Stop <-> Calendar.instant_lt (Calendar.midnight d) c)
    as Hstop.
  { split.
    - intros Hstop. destruct (Calendar.instant_ltb (Calendar.midnight d) c) eqn:El.
      + now apply instant_ltb_spec.
      + exfalso. apply instant_ltb_false in El.
        exact (kept_row_goes_on w c seen row d Hd El Hstop).
    - apply boundary_row_stops; assumption. }
  exists recs, seen. split; [exact Hdone|]. split; [exact Hnext|].
  split; [exact Hstop|]. split; [|split].
  - intros Hlt. apply while_loop_returned with (html := html); try assumption.
    rewrite Hrows, Hnext. cbn [for_rows].
    rewrite (boundary_row_stops w c seen row d Hseen Hd Hlt). reflexivity.
  - rewrite Hstop. unfold Calendar.instant_lt, Calendar.midnight.
    cbn [Calendar.ord Calendar.tod]. reflexivity.
  - intros years. unfold target_date.
    destruct (_ && _); [|discriminate].
    intros E; injection E as <-. cbn [Calendar.ord Calendar.tod]. split; reflexivity.
Qed.

Lemma boundary_stop_on_the_cutoff_day :
  target_date Sample.cutoff_day_world 2 = Some Sample.cutoff_2024 /\
  Calendar.toordinal (Calendar.mkdate 2024 11 4) = Calendar.ord Sample.cutoff_2024 /\
  exists recs seen,
    for_rows Sample.cutoff_day_world Sample.cutoff_2024 Sample.page3_kept [] []
    = Completed recs /\
    process_row Sample.cutoff_day_world Sample.cutoff_2024 seen Sample.cutoff_day_row = Stop /\
    while_loop Sample.cutoff_day_world Sample.cutoff_2024 1 3 [] [1; 2]%nat
    = Some (mkoutcome ([] ++ recs) ([1; 2]%nat ++ [3%nat]) Stopped_boundary).
Proof.
  split; [reflexivity|]. split; [reflexivity|].
  destruct (boundary_stop_returns_at_once Sample.cutoff_day_world Sample.cutoff_2024
              0 3 [] [1; 2]%nat
              (Sample.table_page (Sample.page3_kept ++ Sample.cutoff_day_row :: Sample.page3_older)
                 Sample.next_anchor)
              Sample.page3_kept Sample.page3_older
              Sample.cutoff_day_row (Calendar.mkdate 2024 11 4))
    as (recs & seen & Hdone & _ & _ & Hret & Hday & _).
  - lia.
  - reflexivity.
  - reflexivity.
  - reflexivity.
  - reflexivity.
  - exists recs, seen. split; [exact Hdone|]. split.
    + apply Hday. right. split; reflexivity.
    + apply Hret. right. split; reflexivity.
Defined.

(** C1, as the claim words it, fails: run at noon of 2026-11-04 with
    [years = 2], the scraper has its cutoff on 2024-11-04, and the row
    dated 2024/11/04 is a boundary stop, not a row that is kept: the
    list returned ends with the record of 2024/11/05. *)
Lemma cutoff_day_row_is_a_stop :
  target_date Sample.cutoff_day_world 2
  = Some (Calendar.mkinstant (Calendar.toordinal (Calendar.mkdate 2024 11 4)) Sample.noon) /\
  row_date Sample.cutoff_day_row = Some (Calendar.mkdate 2024 11 4) /\
  process_row Sample.cutoff_day_world Sample.cutoff_2024 [] Sample.cutoff_day_row = Stop /\
  exists o,
    scrape_trace Sample.cutoff_day_world 2 = Returns o /\
    fetched o = [1; 2; 3]%nat /\ reason o = Stopped_boundary /\
    map Date (records o)
    = ["11/22/2024"; "11/21/2024"; "11/20/2024"; "11/19/2024"; "11/18/2024"; "11/17/2024";
       "11/16/2024"; "11/15/2024"; "11/14/2024"; "11/13/2024"; "11/12/2024"; "11/11/2024";
       "11/10/2024"; "11/09/2024"; "11/08/2024"; "11/07/2024"; "11/06/2024"; "11/05/2024"].
Proof.
  split; [reflexivity|]. split; [reflexivity|]. split; [reflexivity|].
  eexists. split; [vm_compute; reflexivity|]. repeat split.
Qed.

(** ** Dates within one page *)

Lemma for_rows_nodup (w : world) (c : Calendar.instant) (rows : list tag) :
  forall recs seen l,
    NoDup (map Date recs) ->
    (forall r, In r recs -> In (Date r) seen) ->
    for_rows w c rows recs seen = Completed l \/ for_rows w c rows recs seen = Returned l ->
    NoDup (map Date l).
Proof.
  induction rows as [|row rows IH]; intros recs seen l Hnd Hseen Hl; cbn [for_rows] in Hl.
  - destruct Hl as [E | E]; [injection E as <-; exact Hnd | discriminate].
  - destruct (process_row w c seen row) as [| |r] eqn:Ep.
    + eapply IH; eauto.
    + destruct Hl as [E | E]; [discriminate | injection E as <-; exact Hnd].
    + apply process_row_accept in Ep as (d & _ & _ & Hmem & _).
      apply mem_false_iff in Hmem.
      eapply IH; [ | | exact Hl].
      * rewrite map_app. apply NoDup_app; [exact Hnd | repeat constructor; intros [] | ].
        intros a Ha [<- | []]. apply Hmem.
        apply in_map_iff in Ha as (r' & <- & Hr'). auto.
      * intros r' Hin. apply in_app_or in Hin as [Hin | [<- | []]]; [right | left]; auto.
Qed.

Lemma page_records_nodup (w : world) (c : Calendar.instant) (n : nat) :
  NoDup (map Date (page_records_of w c n)).
Proof.
  unfold page_records_of. destruct (get_page w n) as [|html]; [constructor|].
  destruct (for_rows w c (find_rows html) [] []) as [l|l] eqn:E;
    eapply for_rows_nodup with (recs := []) (seen := []); eauto; try constructor;
    intros r [].
Qed.

(** C2, as the code has it.  The set of seen dates is created anew for
    every page (line 122): the list a run returns is the concatenation of
    what each requested page contributed, and within the contribution of
    one page no two records have the same [Date]. *)
Theorem dates_unique_within_each_page :
  forall (w : world) (years : Z) (o : outcome),
    scrape_trace w years = Returns o ->
    exists c,
      target_date w years = Some c /\
      records o = List.concat (map (page_records_of w c) (fetched o)) /\
      forall n, NoDup (map Date (page_records_of w c n)).
Proof.
  intros w years o H. apply scrape_trace_inv in H as (c & Hc & Hloop).
  exists c. split; [exact Hc|]. split; [|apply page_records_nodup].
  apply while_loop_spec in Hloop as (k & Hf & Hr & _).
  rewrite Hf, Hr. reflexivity.
Qed.

Lemma dates_unique_within_each_page_overlap :
  exists c,
    target_date Sample.overlap_world 2 = Some c /\
    records (mkoutcome (page_records_of Sample.overlap_world Sample.cutoff_2024 1
                        ++ page_records_of Sample.overlap_world Sample.cutoff_2024 2)
                       [1; 2]%nat Stopped_no_next_link)
    = List.concat (map (page_records_of Sample.overlap_world c) [1; 2]%nat) /\
    forall n, NoDup (map Date (page_records_of Sample.overlap_world c n)).
Proof.
  apply (dates_unique_within_each_page Sample.overlap_world 2
           (mkoutcome (page_records_of Sample.overlap_world Sample.cutoff_2024 1
                       ++ page_records_of Sample.overlap_world Sample.cutoff_2024 2)
                      [1; 2]%nat Stopped_no_next_link)).
  vm_compute. reflexivity.
Defined.

(** C2, as the claim words it, fails: when the second page serves the
    rows of the first one again, the returned list has the same [Date] at
    positions 0 and 6. *)
Lemma same_date_from_two_pages :
  exists l r1 r2,
    scrape_nepse_daily_data Sample.overlap_world 2 = Returns l /\
    nth_error l 0 = Some r1 /\ nth_error l 6 = Some r2 /\ Date r1 = Date r2.
Proof.
  eexists. eexists. eexists. split; [vm_compute; reflexivity|].
  split; [reflexivity|]. split; reflexivity.
Qed.

(** ** Prices and volumes *)

Lemma is_digit_value (a : ascii) : PyStr.is_digit a = true -> 0 <= PyStr.digit_value a <= 9.
Proof.
  unfold PyStr.is_digit, PyStr.digit_value. rewrite andb_true_iff, !Nat.leb_le.
  generalize (nat_of_ascii a). intros n Hn. lia.
Qed.

Lemma digits_Z_nonneg (s : string) :
  forall acc, PyStr.all_digits s = true -> 0 <= acc -> 0 <= PyFloat.digits_Z acc s.
Proof.
  induction s as [|a s IH]; intros acc Hd Hacc;
    cbn [PyStr.all_digits PyFloat.digits_Z] in *; [exact Hacc|].
  apply andb_true_iff in Hd as [Ha Hs]. apply IH; [exact Hs|].
  pose proof (is_digit_value a Ha). lia.
Qed.

Lemma all_digits_app (s t : string) :
  PyStr.all_digits s = true -> PyStr.all_digits t = true ->
  PyStr.all_digits (s ++ t)%string = true.
Proof.
  induction s as [|a s IH]; cbn; intros Hs Ht; [exact Ht|].
  apply andb_true_iff in Hs as [-> Hs]. cbn. auto.
Qed.

Lemma isdigit_all_digits (s : string) : PyStr.isdigit s = true -> PyStr.all_digits s = true.
Proof. destruct s; [discriminate | auto]. Qed.

Lemma of_parts_nonneg (i f : string) (q : Q) :
  PyStr.all_digits i = true -> PyStr.all_digits f = true ->
  PyFloat.of_parts i f = PyFloat.Finite q -> (0 <= q)%Q.
Proof.
  intros Hi Hf. unfold PyFloat.of_parts.
  destruct (Qle_bool _ _); [discriminate|]. intros E; injection E as <-.
  unfold Qle; cbn. rewrite Z.mul_1_r.
  apply digits_Z_nonneg; [apply all_digits_app; assumption | lia].
Qed.

Lemma of_string_nonneg (s : string) (q : Q) :
  PyFloat.of_string s = Some (PyFloat.Finite q) -> (0 <= q)%Q.
Proof.
  unfold PyFloat.of_string.
  destruct (PyStr.split "." s) as [|i [|f [|? ?]]]; try discriminate.
  - destruct (PyStr.isdigit i) eqn:Hi; [|discriminate].
    intros E; injection E as E.
    apply (of_parts_nonneg i EmptyString q); auto using isdigit_all_digits.
  - destruct (PyStr.all_digits i) eqn:Hi, (PyStr.all_digits f) eqn:Hf; cbn; try discriminate.
    destruct (negb _); [|discriminate].
    intros E; injection E as E. apply (of_parts_nonneg i f q); auto.
Qed.

Lemma day_factor_pos (s : string) : (0 < day_factor s)%Q.
Proof.
  unfold day_factor. destruct (Calendar.strptime s) as [d|]; [|reflexivity].
  destruct (Calendar.weekday d =? 0); [reflexivity|].
  destruct (Calendar.weekday d =? 4); reflexivity.
Qed.

Lemma volume_estimate_pos (w : world) (q v : Q) (s : string) :
  (0 <= q)%Q -> get_daily_volume_estimate w (PyFloat.Finite q) s = Some v -> (0 < v)%Q.
Proof.
  intros Hq E. unfold get_daily_volume_estimate in E. cbv zeta in E. injection E as <-.
  assert (0 <= inject_Z (repr_tail w q mod 60))%Q as Hm.
  { change 0%Q with (inject_Z 0). rewrite <- Zle_Qle.
    apply Z.mod_pos_bound. lia. }
  repeat apply Qmult_lt_0_compat.
  - reflexivity.
  - unfold Qdiv. change (/ 2500)%Q with (1 # 2500)%Q. lra.
  - apply day_factor_pos.
  - revert Hm. generalize (inject_Z (repr_tail w q mod 60)). intros x Hx.
    unfold Qdiv. change (/ 100)%Q with (1 # 100)%Q. lra.
Qed.

Lemma row_record_sound (w : world) (row : tag) (fd : string) (r : record) :
  row_record w row fd = Some r -> sound_record r.
Proof.
  unfold row_record, row_price.
  destruct (negb _ && _); [|discriminate].
  destruct (PyFloat.of_string _) as [[q|]|] eqn:Ef; try discriminate.
  destruct (get_daily_volume_estimate w _ fd) as [v|] eqn:Ev; [|discriminate].
  intros E; injection E as <-. apply of_string_nonneg in Ef.
  split; cbn; [exact Ef | eapply volume_estimate_pos; eauto].
Qed.

(** ** What the returned records are *)

Lemma for_rows_harvested (w : world) (c : Calendar.instant) (rows : list tag) :
  forall recs seen l,
    Forall (harvested w c) recs ->
    for_rows w c rows recs seen = Completed l \/ for_rows w c rows recs seen = Returned l ->
    Forall (harvested w c) l.
Proof.
  induction rows as [|row rows IH]; intros recs seen l Hrecs Hl; cbn [for_rows] in Hl.
  - destruct Hl as [E | E]; [injection E as <-; exact Hrecs | discriminate].
  - destruct (process_row w c seen row) as [| |r] eqn:Ep.
    + eapply IH; eauto.
    + destruct Hl as [E | E]; [discriminate | injection E as <-; exact Hrecs].
    + apply process_row_accept in Ep as (d & Hd & HDate & _ & Hl' & Hrec).
      eapply IH; [|exact Hl]. apply Forall_app. split; [exact Hrecs|].
      constructor; [|constructor]. exists row, d. auto.
Qed.

Lemma page_records_harvested (w : world) (c : Calendar.instant) (n : nat) :
  Forall (harvested w c) (page_records_of w c n).
Proof.
  unfold page_records_of. destruct (get_page w n) as [|html]; [constructor|].
  destruct (for_rows w c (find_rows html) [] []) as [l|l] eqn:E;
    eapply for_rows_harvested with (recs := []); eauto.
Qed.

Lemma Forall_concat_map {A B : Type} (P : B -> Prop) (f : A -> list B) (l : list A) :
  (forall a, Forall P (f a)) -> Forall P (List.concat (map f l)).
Proof.
  intros H. induction l as [|a l IH]; cbn; [constructor|].
  apply Forall_app. auto.
Qed.

Lemma scraped_records_harvested (w : world) (years : Z) (o : outcome) :
  scrape_trace w years = Returns o ->
  exists c, target_date w years = Some c /\ Forall (harvested w c) (records o).
Proof.
  intros H. apply scrape_trace_inv in H as (c & Hc & Hloop).
  exists c. split; [exact Hc|].
  apply while_loop_spec in Hloop as (k & _ & Hr & _). rewrite Hr. cbn [app].
  apply Forall_concat_map. intros n. apply page_records_harvested.
Qed.

Lemma harvested_sound (w : world) (c : Calendar.instant) (r : record) :
  harvested w c r -> sound_record r.
Proof. intros (row & d & _ & _ & _ & Hr). exact (row_record_sound _ _ _ _ Hr). Qed.

Lemma harvested_well_dated (w : world) (c : Calendar.instant) (r : record) :
  harvested w c r -> well_dated r.
Proof.
  intros (row & d & Hd & HDate & _). exists d. split; [|exact HDate].
  exact (row_date_valid _ _ Hd).
Qed.

(** ** The fallback *)

Lemma probe_source_record (w : world) (url : string) (r : record) :
  probe_source w url = Some r ->
  Date r = current_date w /\
  exists status text number,
    get_alt w url = AltStatus status text /\ status = 200 /\
    PyStr.contains "nepse" (PyStr.lower text) = true /\
    PyStr.contains "index" (PyStr.lower text) = true /\
    first_numeral (PyStr.lower text) = Some number /\
    PyFloat.of_string number = Some (PyFloat.Finite (Close r)) /\
    get_daily_volume_estimate w (PyFloat.Finite (Close r)) (current_date w) = Some (Volume r).
Proof.
  unfold probe_source.
  destruct (get_alt w url) as [|status text]; [discriminate|].
  destruct (Z.eqb_spec status 200) as [->|]; [|discriminate].
  destruct (PyStr.contains "nepse" _) eqn:Hn; [|discriminate].
  destruct (PyStr.contains "index" _) eqn:Hi; [|discriminate].
  cbn [andb].
  destruct (first_numeral _) as [number|] eqn:Hf; [|discriminate].
  destruct (PyFloat.of_string number) as [[q|]|] eqn:Ho; try discriminate.
  destruct (get_daily_volume_estimate w _ _) as [v|] eqn:Hv; [|discriminate].
  intros E; injection E as <-. cbn. split; [reflexivity|].
  exists 200, text, number. auto 10.
Qed.

Lemma probe_source_sound (w : world) (url : string) (r : record) :
  probe_source w url = Some r -> sound_record r.
Proof.
  intros H. apply probe_source_record in H as (_ & s & t & n & _ & _ & _ & _ & _ & Ho & Hv).
  apply of_string_nonneg in Ho. split; [exact Ho | eapply volume_estimate_pos; eauto].
Qed.

Lemma try_urls_cases (w : world) (urls : list string) :
  try_urls w urls = [] \/
  exists pre url post r,
    urls = pre ++ url :: post /\ Forall (fun u => probe_source w u = None) pre /\
    probe_source w url = Some r /\ try_urls w urls = [r].
Proof.
  induction urls as [|u urls IH]; [left; reflexivity|]. cbn [try_urls].
  destruct (probe_source w u) as [r|] eqn:Hp.
  - right. exists [], u, urls, r. auto.
  - destruct IH as [-> | (pre & url & post & r & -> & Hpre & Hr & ->)]; [left; reflexivity|].
    right. exists (u :: pre), url, post, r. auto.
Qed.

(** ** The writer *)

Lemma drop_duplicates_from_spec (data : list record) :
  forall seen,
    incl (drop_duplicates_from seen data) data /\
    NoDup (map Date (drop_duplicates_from seen data)) /\
    (forall r, In r (drop_duplicates_from seen data) -> ~ In (Date r) seen).
Proof.
  induction data as [|r data IH]; intros seen; cbn [drop_duplicates_from].
  - repeat split; [apply incl_nil_l | constructor | intros r []].
  - destruct (PyStr.mem (Date r) seen) eqn:Em.
    + destruct (IH seen) as (Hi & Hn & Hs). repeat split; auto using incl_tl.
    + destruct (IH (Date r :: seen)) as (Hi & Hn & Hs).
      apply mem_false_iff in Em. repeat split.
      * apply incl_cons; [left; reflexivity | auto using incl_tl].
      * cbn [map]. constructor; [|exact Hn].
        intros Hin. apply in_map_iff in Hin as (r' & E & Hr').
        apply (Hs r' Hr'). left. auto.
      * intros r' [<- | Hr']; [exact Em|].
        intros Hin. apply (Hs r' Hr'). right. exact Hin.
Qed.

(** The code's deduplication is the one the specification words. *)
Lemma drop_duplicates_from_first_occurrences (data : list record) :
  forall seen earlier,
    (forall s, In s seen <-> In s (map Date earlier)) ->
    drop_duplicates_from seen data = first_occurrences earlier data.
Proof.
  induction data as [|r data IH]; intros seen earlier Hse; [reflexivity|].
  cbn [drop_duplicates_from first_occurrences].
  assert (PyStr.mem (Date r) seen
          = existsb (fun e => String.eqb (Date e) (Date r)) earlier) as ->.
  { apply eq_true_iff_eq. rewrite mem_true_iff, Hse, existsb_exists, in_map_iff.
    split; intros (e & H1 & H2); exists e.
    - split; [exact H2 | apply String.eqb_eq; exact H1].
    - apply String.eqb_eq in H2. auto. }
  assert (forall s, In s (Date r :: seen) <-> In s (map Date (earlier ++ [r]))) as Hnext.
  { intros s. rewrite map_app, in_app_iff. cbn [map In]. rewrite <- (Hse s). tauto. }
  destruct (existsb _ earlier) eqn:Ee.
  - apply IH. intros s. rewrite <- (Hnext s). cbn [In].
    apply existsb_exists in Ee as (e & He & Heq). apply String.eqb_eq in Heq.
    assert (In (Date r) seen) by (apply Hse, in_map_iff; eauto).
    split; [tauto | intros [<- | ?]; assumption].
  - f_equal. apply IH. exact Hnext.
Qed.

Lemma with_date_obj_spec (w : world) (data : list record) :
  forall keyed,
    with_date_obj w data = Some keyed ->
    map snd keyed = data /\
    Forall (fun kr => to_datetime w (Date (snd kr)) = Some (fst kr)) keyed.
Proof.
  induction data as [|r data IH]; intros keyed H; cbn [with_date_obj] in H.
  - injection H as <-. split; constructor.
  - destruct (to_datetime w (Date r)) as [t|] eqn:Et; [|discriminate].
    destruct (with_date_obj w data) as [k|]; [|discriminate].
    injection H as <-. destruct (IH k eq_refl) as [Hm Hf].
    split; [cbn; now rewrite Hm|]. constructor; [exact Et | exact Hf].
Qed.

Lemma with_date_obj_none (w : world) (data : list record) :
  with_date_obj w data = None -> exists r, In r data /\ to_datetime w (Date r) = None.
Proof.
  induction data as [|r data IH]; cbn [with_date_obj]; [discriminate|].
  destruct (to_datetime w (Date r)) as [t|] eqn:Et.
  - destruct (with_date_obj w data) as [k|]; [discriminate|].
    intros _. destruct (IH eq_refl) as (r' & Hr' & E). exists r'. split; [now right | exact E].
  - intros _. exists r. split; [now left | exact Et].
Qed.

Lemma with_date_obj_of_cells (w : world) (keyed : list (timestamp * record)) :
  Forall (fun kr => to_datetime w (Date (snd kr)) = Some (fst kr)) keyed ->
  with_date_obj w (map snd keyed) = Some keyed.
Proof.
  induction 1 as [|[t r] keyed Ht _ IH]; [reflexivity|].
  cbn [map snd fst with_date_obj] in *. now rewrite Ht, IH.
Qed.

Lemma to_datetime_day (w : world) (s : string) (k : Z) :
  to_datetime w s = Some (Timestamp k) ->
  not_a_time s = false /\
  exists d, Calendar.strptime s = Some d /\ representable w d = true /\
            k = Calendar.toordinal d.
Proof.
  unfold to_datetime. destruct (not_a_time s); [discriminate|].
  destruct (Calendar.strptime s) as [d|]; [|discriminate].
  destruct (representable w d) eqn:Er; [|discriminate].
  intros E; injection E as <-. eauto.
Qed.

Lemma to_datetime_NaT (w : world) (s : string) :
  to_datetime w s = Some NaT -> not_a_time s = true.
Proof.
  unfold to_datetime. destruct (not_a_time s); [reflexivity|].
  destruct (Calendar.strptime s) as [d|]; [|discriminate].
  destruct (representable w d); discriminate.
Qed.

(** A missing value is no date in the [MM/DD/YYYY] form. *)
Lemma not_a_time_strptime (s : string) :
  not_a_time s = true -> Calendar.strptime s = None.
Proof.
  unfold not_a_time. destruct s as [|a s]; [reflexivity|]. cbn [PyStr.is_empty orb].
  rewrite mem_true_iff. unfold nat_strings. cbn [In].
  intros [E | [E | [E | [E | [E | [E | []]]]]]]; rewrite <- E; reflexivity.
Qed.

Lemma strftime_is_a_time (d : Calendar.date) :
  Calendar.valid d = true -> not_a_time (Calendar.strftime d) = false.
Proof.
  intros Hv. destruct (not_a_time (Calendar.strftime d)) eqn:E; [|reflexivity].
  apply not_a_time_strptime in E. rewrite (strptime_strftime d Hv) in E. discriminate.
Qed.

Lemma to_datetime_well_dated (w : world) (r : record) :
  well_dated r ->
  to_datetime w (Date r) = Some (Timestamp (date_key r)) \/
  (to_datetime w (Date r) = None /\
   exists d, Calendar.valid d = true /\ Date r = Calendar.strftime d /\
             representable w d = false).
Proof.
  intros (d & Hv & Hd). unfold to_datetime, date_key.
  rewrite Hd, (strftime_is_a_time d Hv), (strptime_strftime d Hv).
  destruct (representable w d) eqn:Er; [left; reflexivity | right; eauto].
Qed.

(** *** Sorting *)

Lemma insert_sorted_perm (x : Z * nat * record) (l : list (Z * nat * record)) :
  Permutation (insert_sorted x l) (x :: l).
Proof.
  induction l as [|y l IH]; cbn [insert_sorted]; [reflexivity|].
  destruct (entry_leb x y); [reflexivity|].
  rewrite IH. apply perm_swap.
Qed.

Lemma argsort_perm (l : list (Z * nat * record)) : Permutation (argsort l) l.
Proof.
  induction l as [|x l IH]; cbn [argsort]; [reflexivity|].
  rewrite insert_sorted_perm. now constructor.
Qed.

Lemma entry_leb_key (x y : Z * nat * record) :
  (if entry_leb x y then key x <= key y else key y <= key x).
Proof.
  unfold entry_leb.
  destruct (Z.ltb_spec (key x) (key y)); cbn [orb]; [lia|].
  destruct (Z.eqb_spec (key x) (key y)); cbn [andb]; [|lia].
  destruct (rank x <=? rank y)%nat; lia.
Qed.

Lemma insert_sorted_sorted (x : Z * nat * record) (l : list (Z * nat * record)) :
  StronglySorted (fun a b => key a <= key b) l ->
  StronglySorted (fun a b => key a <= key b) (insert_sorted x l).
Proof.
  induction 1 as [|y l Hs IH Hy]; cbn [insert_sorted]; [repeat constructor|].
  pose proof (entry_leb_key x y) as Hxy. destruct (entry_leb x y).
  - constructor; [constructor; assumption|].
    constructor; [exact Hxy|].
    eapply Forall_impl; [|exact Hy]. cbn. intros; lia.
  - constructor; [exact IH|].
    eapply Permutation_Forall; [symmetry; apply insert_sorted_perm|].
    constructor; [exact Hxy | exact Hy].
Qed.

Lemma argsort_sorted (l : list (Z * nat * record)) :
  StronglySorted (fun a b => key a <= key b) (argsort l).
Proof.
  induction l as [|x l IH]; cbn [argsort]; [constructor|].
  now apply insert_sorted_sorted.
Qed.

(** An array already in strictly ascending order of key is left as it
    is, whatever the ranks. *)
Lemma argsort_strict_id (l : list (Z * nat * record)) :
  StronglySorted (fun a b => key a < key b) l -> argsort l = l.
Proof.
  induction 1 as [|x l Hs IH Hx]; [reflexivity|]. cbn [argsort]. rewrite IH.
  destruct l as [|y l]; [reflexivity|]. cbn [insert_sorted].
  apply Forall_cons_iff in Hx as [Hxy _].
  unfold entry_leb. destruct (Z.ltb_spec (key x) (key y)); [reflexivity | lia].
Qed.

Lemma ranked_rows (l : list (Z * record)) :
  forall ranks, map (fun e => (key e, snd e)) (ranked ranks l) = l.
Proof.
  induction l as [|[k r] l IH]; intros ranks; cbn [ranked map]; [reflexivity|].
  now rewrite IH.
Qed.

Lemma ranked_snd (l : list (Z * record)) (ranks : list nat) :
  map snd (ranked ranks l) = map snd l.
Proof.
  rewrite <- (ranked_rows l ranks) at 2. rewrite map_map. reflexivity.
Qed.

Lemma ranked_Forall (P : Z -> record -> Prop) (l : list (Z * record)) :
  forall ranks,
    Forall (fun kr => P (fst kr) (snd kr)) l ->
    Forall (fun e => P (key e) (snd e)) (ranked ranks l).
Proof.
  induction l as [|[k r] l IH]; intros ranks H; cbn [ranked]; [constructor|].
  apply Forall_cons_iff in H as [Hx H]. constructor; [exact Hx | now apply IH].
Qed.

Lemma dated_undated_perm (keyed : list (timestamp * record)) :
  Permutation (map snd (dated keyed) ++ undated keyed) (map snd keyed).
Proof.
  induction keyed as [|[[|k] r] keyed IH]; cbn [dated undated map snd app].
  - reflexivity.
  - symmetry. apply Permutation_cons_app. symmetry. exact IH.
  - constructor. exact IH.
Qed.

Lemma sort_values_perm (w : world) (keyed : list (timestamp * record)) :
  Permutation (sort_values w keyed) (map snd keyed).
Proof.
  unfold sort_values. rewrite <- dated_undated_perm.
  apply Permutation_app_tail.
  rewrite <- (ranked_snd (dated keyed) (tie_rank w (map fst (dated keyed)))).
  apply Permutation_map, argsort_perm.
Qed.

Lemma dated_keys (w : world) (keyed : list (timestamp * record)) :
  Forall (fun kr => to_datetime w (Date (snd kr)) = Some (fst kr)) keyed ->
  Forall (fun kr => fst kr = date_key (snd kr) /\
                    Calendar.strptime (Date (snd kr)) <> None) (dated keyed).
Proof.
  induction 1 as [|[[|k] r] keyed Ht _ IH]; cbn [dated fst snd] in *; [constructor | exact IH |].
  constructor; [|exact IH]. cbn [fst snd].
  apply to_datetime_day in Ht as (_ & d & Hd & _ & ->).
  unfold date_key. rewrite Hd. split; [reflexivity | discriminate].
Qed.

Lemma undated_missing (w : world) (keyed : list (timestamp * record)) :
  Forall (fun kr => to_datetime w (Date (snd kr)) = Some (fst kr)) keyed ->
  Forall (fun r => not_a_time (Date r) = true) (undated keyed).
Proof.
  induction 1 as [|[[|k] r] keyed Ht _ IH]; cbn [undated fst snd] in *;
    [constructor | | exact IH].
  constructor; [exact (to_datetime_NaT w _ Ht) | exact IH].
Qed.

Lemma sorted_rows_of_keys (l : list (Z * nat * record)) :
  StronglySorted (fun a b => key a <= key b) l ->
  Forall (fun e => key e = date_key (snd e)) l ->
  StronglySorted (fun a b => date_key a <= date_key b) (map snd l).
Proof.
  induction 1 as [|x l Hs IH Hx]; intros Hk; cbn [map]; [constructor|].
  apply Forall_cons_iff in Hk as [Hkx Hk]. constructor; [auto|].
  rewrite Forall_forall in *. intros r Hr. apply in_map_iff in Hr as (y & <- & Hy).
  rewrite <- Hkx, <- (Hk y Hy). auto.
Qed.

(** What line 277 leaves: the rows that have a day, in ascending order
    of day, then the rows whose date is a missing value. *)
Lemma sort_values_spec (w : world) (keyed : list (timestamp * record)) :
  Forall (fun kr => to_datetime w (Date (snd kr)) = Some (fst kr)) keyed ->
  exists days,
    sort_values w keyed = days ++ undated keyed /\
    StronglySorted (fun x y => date_key x <= date_key y) days /\
    Forall (fun r => Calendar.strptime (Date r) <> None) days /\
    Forall (fun r => not_a_time (Date r) = true) (undated keyed).
Proof.
  intros Hcells. pose proof (dated_keys w keyed Hcells) as Hd.
  set (ranks := tie_rank w (map fst (dated keyed))).
  assert (Forall (fun e => key e = date_key (snd e) /\
                           Calendar.strptime (Date (snd e)) <> None)
            (argsort (ranked ranks (dated keyed)))) as He.
  { eapply Permutation_Forall; [symmetry; apply argsort_perm|].
    apply (ranked_Forall (fun k r => k = date_key r /\ Calendar.strptime (Date r) <> None)).
    exact Hd. }
  exists (map snd (argsort (ranked ranks (dated keyed)))).
  split; [reflexivity|]. split; [|split].
  - apply sorted_rows_of_keys; [apply argsort_sorted|].
    eapply Forall_impl; [|exact He]. cbn. tauto.
  - rewrite Forall_map. eapply Forall_impl; [|exact He]. cbn. tauto.
  - exact (undated_missing w keyed Hcells).
Qed.

Lemma date_key_inj (a b : record) :
  well_dated a -> well_dated b -> date_key a = date_key b -> Date a = Date b.
Proof.
  intros (da & Hva & Ha) (db & Hvb & Hb). unfold date_key.
  rewrite Ha, Hb, !strptime_strftime by assumption.
  intros E. now rewrite (toordinal_inj da db Hva Hvb E).
Qed.

(** Sorted rows with pairwise distinct dates are strictly ascending. *)
Lemma sorted_distinct_strict (l : list record) :
  StronglySorted (fun a b => date_key a <= date_key b) l ->
  Forall well_dated l ->
  NoDup (map Date l) ->
  strictly_ascending l.
Proof.
  induction 1 as [|x l Hs IH Hx]; intros Hw Hn; cbn [map] in *; [constructor|].
  apply Forall_cons_iff in Hw as [Hwx Hw].
  apply NoDup_cons_iff in Hn as [Hnx Hn].
  constructor; [apply IH; assumption|].
  rewrite Forall_forall in *. intros y Hy.
  pose proof (Hx y Hy) as Hle.
  destruct (Z.eq_dec (date_key x) (date_key y)) as [E|]; [|lia].
  exfalso. apply Hnx. apply date_key_inj in E; auto.
  rewrite E. auto using in_map.
Qed.

(** *** The file *)

Lemma save_csv_some (w : world) (data : list record) (filename : option string)
  (a : artifact) :
  save_csv w data filename = Some a ->
  exists keyed,
    data <> [] /\
    with_date_obj w (drop_duplicates data) = Some keyed /\
    to_csv w (output_filename w filename) (sort_values w keyed) = true /\
    a = mkartifact (output_filename w filename) csv_columns (sort_values w keyed).
Proof.
  unfold save_csv, sorted_frame. destruct data as [|r0 data0]; [discriminate|].
  set (data := r0 :: data0).
  destruct (with_date_obj w (drop_duplicates data)) as [keyed|]; [|discriminate].
  cbn [option_map].
  destruct (to_csv w (output_filename w filename) (sort_values w keyed)) eqn:Ew;
    [|discriminate].
  intros E; injection E as <-. exists keyed. repeat split; [discriminate | exact Ew].
Qed.

Lemma save_csv_rows (w : world) (data : list record) (filename : option string)
  (a : artifact) :
  save_csv w data filename = Some a ->
  path a = output_filename w filename /\
  columns a = csv_columns /\
  Permutation (rows a) (drop_duplicates data) /\
  NoDup (map Date (rows a)).
Proof.
  intros H. apply save_csv_some in H as (keyed & _ & Hk & _ & ->).
  cbn [path columns rows]. split; [reflexivity|]. split; [reflexivity|].
  destruct (with_date_obj_spec _ _ _ Hk) as (Hsnd & _).
  assert (Permutation (sort_values w keyed) (drop_duplicates data)) as Hperm.
  { rewrite <- Hsnd. apply sort_values_perm. }
  split; [exact Hperm|].
  destruct (drop_duplicates_from_spec data []) as (_ & Hnd & _).
  eapply Permutation_NoDup; [|exact Hnd]. symmetry. now apply Permutation_map.
Qed.

Lemma drop_duplicates_incl (data : list record) : incl (drop_duplicates data) data.
Proof. apply (drop_duplicates_from_spec data []). Qed.

(** The frame built from records dated in the [MM/DD/YYYY] form. *)
Lemma sorted_frame_well_dated (w : world) (data df : list record) :
  Forall well_dated data ->
  sorted_frame w data = Some df ->
  Permutation df (drop_duplicates data) /\
  strictly_ascending df /\ NoDup (map Date df).
Proof.
  intros Hw. unfold sorted_frame.
  destruct (with_date_obj w (drop_duplicates data)) as [keyed|] eqn:Hk; [|discriminate].
  cbn [option_map]. intros E; injection E as <-.
  destruct (with_date_obj_spec _ _ _ Hk) as (Hsnd & Hcells).
  assert (Permutation (sort_values w keyed) (drop_duplicates data)) as Hperm.
  { rewrite <- Hsnd. apply sort_values_perm. }
  assert (NoDup (map Date (sort_values w keyed))) as Hnd.
  { destruct (drop_duplicates_from_spec data []) as (_ & Hnd & _).
    eapply Permutation_NoDup; [|exact Hnd]. symmetry. now apply Permutation_map. }
  assert (Forall well_dated (sort_values w keyed)) as Hw'.
  { eapply Permutation_Forall; [symmetry; exact Hperm|].
    rewrite Forall_forall in *. intros r Hr. apply Hw, drop_duplicates_incl, Hr. }
  split; [exact Hperm|]. split; [|exact Hnd].
  destruct (sort_values_spec w keyed Hcells) as (days & Hsv & Hsorted & _ & Hmiss).
  destruct (undated keyed) as [|r u] eqn:Hu.
  - rewrite app_nil_r in Hsv. rewrite Hsv in *.
    apply sorted_distinct_strict; assumption.
  - exfalso. apply Forall_cons_iff in Hmiss as [Hr _].
    assert (In r (sort_values w keyed)) as Hin.
    { rewrite Hsv. apply in_or_app. right. now left. }
    rewrite Forall_forall in Hw'. destruct (Hw' r Hin) as (d & Hv & Hd).
    rewrite Hd, (strftime_is_a_time d Hv) in Hr. discriminate.
Qed.

Lemma sorted_frame_none_well_dated (w : world) (data : list record) :
  Forall well_dated data ->
  sorted_frame w data = None ->
  exists r d,
    In r data /\ Calendar.valid d = true /\ Date r = Calendar.strftime d /\
    representable w d = false.
Proof.
  intros Hw. unfold sorted_frame.
  destruct (with_date_obj w (drop_duplicates data)) as [keyed|] eqn:Hk; [discriminate|].
  intros _. apply with_date_obj_none in Hk as (r & Hr & Hnone).
  apply drop_duplicates_incl in Hr. rewrite Forall_forall in Hw.
  destruct (to_datetime_well_dated w r (Hw r Hr)) as [E | (_ & d & Hv & Hd & Hrep)].
  - congruence.
  - exists r, d. auto.
Qed.

Lemma try_alternative_source_sound (w : world) :
  Forall sound_record (try_alternative_source w).
Proof.
  unfold try_alternative_source.
  destruct (try_urls_cases w alternative_urls)
    as [-> | (pre & url & post & r & _ & _ & Hr & ->)]; [constructor|].
  constructor; [eauto using probe_source_sound | constructor].
Qed.

(** Whatever [run] hands to [save_csv] is dated in the [MM/DD/YYYY] form. *)
Lemma pipeline_records_well_dated (w : world) (years : Z) (l : list record) :
  Calendar.valid (now_date w) = true ->
  scrape_nepse_daily_data w years = Returns l ->
  Forall well_dated (match l with [] => try_alternative_source w | _ => l end).
Proof.
  intros Hnow. unfold scrape_nepse_daily_data.
  destruct (scrape_trace w years) as [o| |] eqn:Ho; try discriminate.
  intros E; injection E as <-.
  apply scraped_records_harvested in Ho as (c & _ & Hh).
  destruct (records o) as [|r0 l0].
  - unfold try_alternative_source.
    destruct (try_urls_cases w alternative_urls)
      as [-> | (pre & url & post & r & _ & _ & Hr & ->)]; [constructor|].
    constructor; [|constructor]. apply probe_source_record in Hr as [HDate _].
    exists (now_date w). split; [exact Hnow | exact HDate].
  - eapply Forall_impl; [|exact Hh]. intros r. apply harvested_well_dated.
Qed.

(** C3, as the code has it.  Every row of the file a run writes has
    [Close >= 0] and [Volume > 0], and no two rows have the same [Date];
    [Close] can be 0, since a price text of value zero is accepted. *)
Theorem persisted_rows_sound :
  forall (w : world) (years : Z) (filename : option string) (a : artifact),
    run w years filename = Returns (Some a) ->
    (forall r, In r (rows a) -> (0 <= Close r)%Q /\ (0 < Volume r)%Q) /\
    NoDup (map Date (rows a)).
Proof.
  intros w years filename a. unfold run, scrape_nepse_daily_data.
  destruct (scrape_trace w years) as [o| |] eqn:Ho; try discriminate.
  intros E; injection E as E.
  apply save_csv_rows in E as (_ & _ & Hperm & Hnd). split; [|exact Hnd].
  intros r Hr. apply (Permutation_in _ Hperm), drop_duplicates_incl in Hr.
  apply scraped_records_harvested in Ho as (c & _ & Hh).
  destruct (records o) as [|r0 l] eqn:Hrec.
  - pose proof (try_alternative_source_sound w) as Hs.
    rewrite Forall_forall in Hs. exact (Hs r Hr).
  - rewrite Forall_forall in Hh. exact (harvested_sound w c r (Hh r Hr)).
Qed.

Lemma persisted_rows_sound_zero_price :
  exists a,
    run Sample.zero_price_world 2 None = Returns (Some a) /\
    (forall r, In r (rows a) -> (0 <= Close r)%Q /\ (0 < Volume r)%Q) /\
    NoDup (map Date (rows a)).
Proof.
  eexists. split; [vm_compute; reflexivity|].
  apply (persisted_rows_sound Sample.zero_price_world 2 None).
  vm_compute. reflexivity.
Defined.

(** C3, as the claim words it, fails: a row whose price text is [0] is
    accepted, and the file written holds a row with [Close = 0]. *)
Lemma zero_close_is_persisted :
  exists a r,
    run Sample.zero_price_world 2 None = Returns (Some a) /\
    In r (rows a) /\ Date r = "11/01/2026" /\ (Close r == 0)%Q /\ ~ (0 < Close r)%Q.
Proof.
  eexists. eexists. split; [vm_compute; reflexivity|].
  split; [right; right; right; left; reflexivity|].
  split; [reflexivity|]. split; [reflexivity|]. intros H; discriminate H.
Qed.

(** C4.  For a non-empty list of records dated in the [MM/DD/YYYY] form,
    the file [save_csv] writes has the columns [Date], [Close], [Volume]
    in that order; the rows kept are the records whose [Date] no earlier
    record of the input has (the first occurrences), and they are written
    in strictly ascending order of date, so that no date occurs twice.
    The file is written unless pandas cannot hold one of the days or the
    write of those very rows fails. *)
Theorem save_csv_sorted_first_occurrences :
  forall (w : world) (data : list record) (filename : option string),
    data <> [] -> Forall well_dated data ->
    drop_duplicates data = first_occurrences [] data /\
    (forall a,
        save_csv w data filename = Some a ->
        columns a = ["Date"; "Close"; "Volume"] /\
        Permutation (rows a) (first_occurrences [] data) /\
        strictly_ascending (rows a) /\
        NoDup (map Date (rows a))) /\
    (save_csv w data filename = None ->
     (exists r d,
         In r data /\ Calendar.valid d = true /\ Date r = Calendar.strftime d /\
         representable w d = false) \/
     (exists df,
         Permutation df (first_occurrences [] data) /\ strictly_ascending df /\
         to_csv w (output_filename w filename) df = false)).
Proof.
  intros w data filename Hne Hw.
  assert (drop_duplicates data = first_occurrences [] data) as Hd.
  { apply drop_duplicates_from_first_occurrences. intros s. reflexivity. }
  rewrite <- Hd. split; [reflexivity|].
  unfold save_csv. destruct data as [|r0 data0]; [contradiction|].
  set (data := r0 :: data0) in *.
  destruct (sorted_frame w data) as [df|] eqn:Hf.
  - destruct (sorted_frame_well_dated w data df Hw Hf) as (Hperm & Hasc & Hnd).
    destruct (to_csv w (output_filename w filename) df) eqn:Ew; split.
    + intros a E; injection E as <-. cbn [columns rows]. auto.
    + discriminate.
    + discriminate.
    + intros _. right. exists df. auto.
  - split; [discriminate|]. intros _. left.
    exact (sorted_frame_none_well_dated w data Hw Hf).
Qed.

Lemma save_csv_three_records :
  exists a,
    save_csv Sample.harvest_world Sample.three_records (Some "nepse") = Some a /\
    path a = "nepse.csv" /\
    columns a = ["Date"; "Close"; "Volume"] /\
    drop_duplicates Sample.three_records = first_occurrences [] Sample.three_records /\
    Permutation (rows a) (first_occurrences [] Sample.three_records) /\
    strictly_ascending (rows a) /\
    NoDup (map Date (rows a)).
Proof.
  destruct (save_csv_sorted_first_occurrences Sample.harvest_world Sample.three_records
              (Some "nepse")) as (Hfirst & Hfile & _).
  - discriminate.
  - repeat constructor.
    + exists (Calendar.mkdate 2024 1 2). split; reflexivity.
    + exists (Calendar.mkdate 2024 1 2). split; reflexivity.
    + exists (Calendar.mkdate 2024 1 3). split; reflexivity.
  - eexists. split; [vm_compute; reflexivity|]. split; [reflexivity|].
    match goal with
    | |- columns ?a = _ /\ _ =>
        destruct (Hfile a) as (Hc & Hp & Hasc & Hnd); [vm_compute; reflexivity|]
    end.
    auto 10.
Defined.

(** ** The selector cascade *)

Lemma first_table_rows_long (elements : list tag) (rows : list tag) :
  first_table_rows elements = Some rows -> (5 < List.length rows)%nat.
Proof.
  induction elements as [|e l IH]; cbn [first_table_rows]; [discriminate|].
  destruct (Nat.ltb_spec 5 (List.length (tl (find_all_tr e)))).
  - intros E; injection E as <-. assumption.
  - exact IH.
Qed.

Lemma first_table_rows_nil : first_table_rows [] = None.
Proof. reflexivity. Qed.

Ltac cascade_step :=
  match goal with
  | |- context [select ?p ?s] => destruct (select p s) eqn:?
  | |- context [first_table_rows (?e :: ?l)] =>
      destruct (first_table_rows (e :: l)) eqn:?
  | |- context [(5 <? List.length (?e :: ?l))%nat] =>
      destruct (5 <? List.length (e :: l))%nat eqn:?
  end.

(** C5, as the code has it.  The rows processed are those of the first
    selector, in the order of the cascade, that offers more than five
    rows.  When no selector does, the rows processed are whatever the
    bare-row selectors matched (those of [tr], or else those of
    [tbody tr]); the page contributes no rows only when both match
    nothing, and it is then that the loop stops for want of rows. *)
Theorem find_rows_cascade :
  forall page : soup,
    find_rows page
    = match first_yield page selectors with
      | Some rows => rows
      | None =>
          match select page Sel_tr with
          | [] => select page Sel_tbody_tr
          | rows => rows
          end
      end
    /\ (find_rows page = [] <->
        first_yield page selectors = None /\
        select page Sel_tr = [] /\ select page Sel_tbody_tr = [])
    /\ forall (w : world) (c : Calendar.instant) (fuel n : nat)
              (all_records : list record) (log : list nat),
         (n <= 30)%nat -> get_page w n = Fetched page -> find_rows page = [] ->
         while_loop w c (S fuel) n all_records log
         = Some (mkoutcome all_records (log ++ [n]) Stopped_no_rows).
Proof.
  intros page.
  assert (find_rows page
          = match first_yield page selectors with
            | Some rows => rows
            | None =>
                match select page Sel_tr with
                | [] => select page Sel_tbody_tr
                | rows => rows
                end
            end) as Heq.
  { unfold find_rows, selectors.
    cbn [select_rows first_yield is_table_selector]. unfold yields.
    cbn [is_table_selector].
    repeat (cbv beta iota; try rewrite first_table_rows_nil;
            try change (5 <? List.length (@nil tag))%nat with false;
            first [ reflexivity | cascade_step ]). }
  split; [exact Heq|]. split.
  - rewrite Heq. destruct (first_yield page selectors) as [rows|] eqn:Hy.
    + split; [|intros (? & _); discriminate].
      intros ->. exfalso. revert Hy. unfold selectors. cbn [first_yield]. unfold yields.
      cbn [is_table_selector].
      repeat match goal with
             | |- context [first_table_rows ?l] =>
                 let E := fresh "E" in
                 destruct (first_table_rows l) eqn:E;
                 [ intros H; injection H as ->; apply first_table_rows_long in E;
                   cbn in E; lia | ]
             | |- context [(5 <? List.length ?l)%nat] =>
                 let E := fresh "E" in
                 destruct (Nat.ltb_spec 5 (List.length l)) as [E|E];
                 [ intros H; injection H as H; rewrite H in E; cbn in E; lia | ]
             end.
      discriminate.
    + destruct (select page Sel_tr) as [|t l].
      * split; [intros ->; auto | intros (_ & _ & ->); reflexivity].
      * split; [discriminate | intros (_ & H & _); discriminate].
  - intros w c fuel n all_records log Hn Hg Hrows.
    exact (while_loop_no_rows w c fuel n all_records log page Hn Hg Hrows).
Qed.

Lemma find_rows_cascade_blank_page :
  find_rows Sample.blank_page = [] /\
  while_loop Sample.blank_world Sample.cutoff_2024 1 1 [] []
  = Some (mkoutcome [] ([] ++ [1%nat]) Stopped_no_rows).
Proof.
  destruct (find_rows_cascade Sample.blank_page) as (_ & Hnil & Hstop).
  assert (find_rows Sample.blank_page = []) as H.
  { apply Hnil. repeat split; reflexivity. }
  split; [exact H|].
  apply (Hstop Sample.blank_world Sample.cutoff_2024 0%nat 1%nat [] []);
    [lia | reflexivity | exact H].
Defined.

(** C5, as the claim words it, fails: on a page whose only table has a
    header and one data row, no selector offers more than five rows, yet
    two rows are processed and the run returns a record. *)
Lemma short_table_is_processed :
  exists r,
    first_yield Sample.short_table_page selectors = None /\
    find_rows Sample.short_table_page = [Sample.header; Sample.short_table_row] /\
    scrape_nepse_daily_data Sample.short_table_world 2 = Returns [r] /\
    Date r = "11/03/2026".
Proof.
  eexists. split; [reflexivity|]. split; [reflexivity|].
  split; [vm_compute; reflexivity | reflexivity].
Qed.

(** ** Rows that are passed over *)

Lemma row_date_none (row : tag) :
  (List.length (get_texts row) < 3)%nat \/ date_text row = EmptyString \/
  price_text row = EmptyString \/ parse_date_cell (date_text row) = None ->
  row_date row = None.
Proof.
  unfold row_date. intros [H | [H | [H | H]]].
  - destruct (Nat.ltb_spec (List.length (get_texts row)) 3); [reflexivity | lia].
  - rewrite H. cbn [PyStr.is_empty orb].
    now destruct (List.length (get_texts row) <? 3)%nat.
  - rewrite H. cbn [PyStr.is_empty]. rewrite orb_true_r.
    now destruct (List.length (get_texts row) <? 3)%nat.
  - rewrite H. now destruct (List.length (get_texts row) <? 3)%nat,
      (PyStr.is_empty (date_text row) || PyStr.is_empty (price_text row)).
Qed.

(** C6, as the code has it.  A row with fewer than three cells, with a
    blank date or price cell, or whose date does not parse is passed
    over: nothing is raised, no record is produced, and the rows after it
    are processed from the same state.  So is a row whose price does not
    parse, provided its date was already seen or is not before the
    cutoff. *)
Theorem malformed_row_is_skipped :
  forall (w : world) (c : Calendar.instant) (seen : list string)
         (recs : list record) (row : tag) (rest : list tag),
    (List.length (get_texts row) < 3)%nat \/
    date_text row = EmptyString \/
    price_text row = EmptyString \/
    parse_date_cell (date_text row) = None \/
    (row_price row = None /\
     forall d, row_date row = Some d ->
               PyStr.mem (Calendar.strftime d) seen = true \/
               ~ Calendar.instant_lt (Calendar.midnight d) c) ->
    process_row w c seen row = Skip /\
    for_rows w c (row :: rest) recs seen = for_rows w c rest recs seen.
Proof.
  intros w c seen recs row rest H.
  assert (process_row w c seen row = Skip) as Hskip.
  { unfold process_row.
    destruct H as [H | [H | [H | [H | [Hp Hd]]]]];
      try (rewrite row_date_none by tauto; reflexivity).
    destruct (row_date row) as [d|]; [|reflexivity].
    destruct (Hd d eq_refl) as [Hs | Hl].
    - now rewrite Hs.
    - destruct (PyStr.mem _ seen); [reflexivity|].
      apply instant_ltb_false in Hl. rewrite Hl.
      unfold row_record. now rewrite Hp. }
  split; [exact Hskip|]. cbn [for_rows]. now rewrite Hskip.
Qed.

Lemma recent_bad_price_is_skipped :
  process_row Sample.harvest_world Sample.cutoff_2024 [] Sample.recent_bad_price_row = Skip /\
  for_rows Sample.harvest_world Sample.cutoff_2024
    [Sample.recent_bad_price_row; Sample.good_row] [] []
  = for_rows Sample.harvest_world Sample.cutoff_2024 [Sample.good_row] [] [].
Proof.
  apply (malformed_row_is_skipped Sample.harvest_world Sample.cutoff_2024 [] []
           Sample.recent_bad_price_row [Sample.good_row]).
  right; right; right; right. split; [reflexivity|].
  intros d Hd. right. vm_compute in Hd. injection Hd as <-.
  intros [H | [H _]]; vm_compute in H; discriminate H.
Defined.

(** C6, as the claim words it, fails: a row whose price does not parse
    but whose date lies before the cutoff ends the run, and the row after
    it is never processed. *)
Lemma bad_price_before_cutoff_stops :
  exists r,
    row_price Sample.old_bad_price_row = None /\
    process_row Sample.harvest_world Sample.cutoff_2024 [] Sample.old_bad_price_row = Stop /\
    for_rows Sample.harvest_world Sample.cutoff_2024
      [Sample.old_bad_price_row; Sample.good_row] [] [] = Returned [] /\
    for_rows Sample.harvest_world Sample.cutoff_2024 [Sample.good_row] [] []
    = Completed [r].
Proof.
  eexists. split; [reflexivity|]. split; [reflexivity|].
  split; [reflexivity | vm_compute; reflexivity].
Qed.

(** ** Failures and the page ceiling *)

Lemma page_records_of_failed (w : world) (c : Calendar.instant) (n : nat) :
  get_page w n = FetchError -> page_records_of w c n = [].
Proof. unfold page_records_of. now intros ->. Qed.

(** C7, as the code has it.  Once the cutoff has been computed, the call
    returns and raises nothing: a failure of the request for a page ends
    the loop, and the list returned is exactly what the pages before it
    contributed -- the empty list when the first page fails. *)
Theorem fetch_failure_returns_accumulated :
  forall (w : world) (years : Z) (c : Calendar.instant),
    target_date w years = Some c ->
    (exists o,
        scrape_trace w years = Returns o /\
        scrape_nepse_daily_data w years = Returns (records o) /\
        (reason o = Failed ->
         exists k, fetched o = seq 1 (S k) /\ get_page w (S k) = FetchError /\
                   records o = List.concat (map (page_records_of w c) (seq 1 k)))) /\
    (forall fuel page all_records log,
        (page <= 30)%nat -> get_page w page = FetchError ->
        while_loop w c (S fuel) page all_records log
        = Some (mkoutcome all_records (log ++ [page]) Failed)) /\
    (get_page w 1 = FetchError -> scrape_nepse_daily_data w years = Returns []).
Proof.
  intros w years c Hc.
  destruct (scrape_trace_returns w years c Hc) as (o & Ho & Hloop).
  split; [|split].
  - exists o. split; [exact Ho|]. split.
    { unfold scrape_nepse_daily_data. now rewrite Ho. }
    intros Hfail.
    apply while_loop_spec in Hloop as (k & Hf & Hr & _ & Hk & _).
    destruct (Hk Hfail) as [Hk1 Hg]. destruct k as [|k]; [lia|].
    replace (1 + S k - 1)%nat with (S k) in Hg by lia.
    exists k. split; [exact Hf|]. split; [exact Hg|].
    rewrite Hr, seq_S, map_app, concat_app. cbn [app map List.concat Nat.add].
    rewrite (page_records_of_failed w c (S k) Hg). now rewrite !app_nil_r.
  - intros fuel page all_records log. apply while_loop_failed.
  - intros Hg. unfold scrape_nepse_daily_data, scrape_trace. rewrite Hc.
    change 31%nat with (S 30).
    rewrite (while_loop_failed w c 30 1 [] []) by (auto; lia). reflexivity.
Qed.

Lemma offline_run_returns_nothing :
  scrape_nepse_daily_data Sample.offline_world 2 = Returns [].
Proof.
  apply (fetch_failure_returns_accumulated Sample.offline_world 2 Sample.cutoff_2024).
  - reflexivity.
  - reflexivity.
Defined.

(** C7, as the claim words it, fails: the cutoff is computed before the
    loop and outside its [try]; with [years = 3000] on 2026-11-04 the
    subtraction leaves the range of [datetime] and the call raises. *)
Lemma far_cutoff_raises :
  target_date Sample.offline_world 3000 = None /\
  scrape_nepse_daily_data Sample.offline_world 3000 = Raises.
Proof. split; reflexivity. Qed.

Lemma while_loop_page_limit (w : world) (c : Calendar.instant) (fuel : nat) :
  forall page all_records log,
    (1 <= page <= 31)%nat -> (31 - page < fuel)%nat ->
    (forall n, (page <= n <= 30)%nat ->
               exists html r recs,
                 get_page w n = Fetched html /\
                 for_rows w c (find_rows html) [] [] = Completed (r :: recs) /\
                 has_next_link html = true) ->
    exists o,
      while_loop w c fuel page all_records log = Some o /\
      fetched o = log ++ seq page (31 - page) /\ reason o = Stopped_page_limit.
Proof.
  induction fuel as [|fuel IH]; intros page all_records log Hp Hf Hgood; [lia|].
  destruct (Nat.le_gt_cases page 30) as [Hle | Hgt].
  - destruct (Hgood page ltac:(lia)) as (html & r & recs & Hg & Hr & Hn).
    rewrite (while_loop_next w c fuel page all_records log html r recs Hle Hg Hr Hn).
    destruct (IH (S page) (all_records ++ r :: recs) (log ++ [page]))
      as (o & Ho & Hfe & Hre); [lia | lia | intros n Hn'; apply Hgood; lia |].
    exists o. split; [exact Ho|]. split; [|exact Hre].
    rewrite Hfe, <- app_assoc. cbn [app].
    replace (31 - page)%nat with (S (31 - S page)) by lia. reflexivity.
  - cbn [while_loop]. destruct (Nat.leb_spec page 30); [lia|].
    eexists. split; [reflexivity|]. cbn [fetched reason].
    replace (31 - page)%nat with 0%nat by lia. cbn [seq].
    rewrite app_nil_r. split; reflexivity.
Qed.

(** C9.  A run requests the pages 1, 2, ... in order, one more after
    each page that completes, and never more than thirty: the loop
    returns within thirty-one evaluations of its condition, and when
    every page yields records and shows a next-page link it still stops,
    at the page limit, after page 30. *)
Theorem at_most_thirty_pages :
  forall (w : world) (years : Z),
    match scrape_trace w years with
    | Returns o =>
        (List.length (fetched o) <= 30)%nat /\
        fetched o = seq 1 (List.length (fetched o))
    | Raises => target_date w years = None
    | OutOfFuel => False
    end
    /\ forall c : Calendar.instant,
         (forall page all_records log,
             (1 <= page <= 31)%nat ->
             exists o, while_loop w c (32 - page) page all_records log = Some o /\
                       (List.length (fetched o) <= List.length log + (31 - page))%nat) /\
         ((forall n, (1 <= n <= 30)%nat ->
                     exists html r recs,
                       get_page w n = Fetched html /\
                       for_rows w c (find_rows html) [] [] = Completed (r :: recs) /\
                       has_next_link html = true) ->
          exists o, while_loop w c 31 1 [] [] = Some o /\
                    fetched o = seq 1 30 /\ reason o = Stopped_page_limit).
Proof.
  intros w years. split.
  - unfold scrape_trace. destruct (target_date w years) as [c|] eqn:Hc; [|reflexivity].
    destruct (while_loop_total w c 31 1 [] []) as (o & Ho); [lia|]. rewrite Ho.
    apply while_loop_spec in Ho as (k & Hf & _ & Hk & _).
    cbn [app] in Hf. rewrite Hf, length_seq. split; [lia | reflexivity].
  - intros c. split.
    + intros page all_records log Hp.
      destruct (while_loop_total w c (32 - page) page all_records log) as (o & Ho); [lia|].
      exists o. split; [exact Ho|].
      apply while_loop_spec in Ho as (k & Hf & _ & Hk & _).
      rewrite Hf, length_app, length_seq.
      assert (page + k <= 31)%nat by (apply Hk; lia). lia.
    + intros Hgood.
      destruct (while_loop_page_limit w c 31 1 [] []) as (o & Ho & Hf & Hr);
        [lia | lia | intros n Hn; apply Hgood; lia |].
      exists o. auto.
Qed.

Lemma endless_listing_stops_at_page_thirty :
  exists o,
    while_loop Sample.endless_world Sample.cutoff_2024 31 1 [] [] = Some o /\
    fetched o = seq 1 30 /\ reason o = Stopped_page_limit.
Proof.
  apply (proj2 (proj2 (at_most_thirty_pages Sample.endless_world 2) Sample.cutoff_2024)).
  intros n _. eexists. eexists. eexists.
  split; [reflexivity|]. split; [vm_compute; reflexivity | reflexivity].
Defined.

(** ** The cutoff comes before the price *)

(** C10, as the code has it.  The cutoff is compared after the date is
    built and before the price is looked at: a row with at least three
    cells and a non-blank price cell, whose date parses to a day not yet
    seen and before the cutoff, makes the call return the records
    accumulated so far, whatever its price text is.  Hence every record
    returned carries a day on or after the cutoff. *)
Theorem cutoff_precedes_price_check :
  forall (w : world) (years : Z) (c : Calendar.instant),
    target_date w years = Some c ->
    (forall (seen : list string) (row : tag) (d : Calendar.date),
        (3 <= List.length (get_texts row))%nat ->
        price_text row <> EmptyString ->
        parse_date_cell (date_text row) = Some d ->
        PyStr.mem (Calendar.strftime d) seen = false ->
        Calendar.instant_lt (Calendar.midnight d) c ->
        process_row w c seen row = Stop /\
        (forall rest recs, for_rows w c (row :: rest) recs seen = Returned recs) /\
        (forall fuel page all_records log html pre post recs,
            (page <= 30)%nat -> get_page w page = Fetched html ->
            find_rows html = pre ++ row :: post ->
            (forall rest, for_rows w c (pre ++ rest) [] [] = for_rows w c rest recs seen) ->
            while_loop w c (S fuel) page all_records log
            = Some (mkoutcome (all_records ++ recs) (log ++ [page]) Stopped_boundary))) /\
    (forall o, scrape_trace w years = Returns o ->
               Forall (fun r => exists d, Calendar.valid d = true /\
                                          Date r = Calendar.strftime d /\
                                          ~ Calendar.instant_lt (Calendar.midnight d) c)
                      (records o)).
Proof.
  intros w years c Hc. split.
  - intros seen row d Hlen Hprice Hdate Hseen Hlt.
    assert (row_date row = Some d) as Hd.
    { unfold row_date. destruct (Nat.ltb_spec (List.length (get_texts row)) 3); [lia|].
      destruct (date_text row) eqn:Ed; [discriminate Hdate|].
      destruct (price_text row) eqn:Ep; [contradiction|]. exact Hdate. }
    assert (process_row w c seen row = Stop) as Hstop.
    { apply process_row_stop. exists d. apply instant_ltb_spec in Hlt. auto. }
    split; [exact Hstop|]. split.
    + intros rest recs. cbn [for_rows]. now rewrite Hstop.
    + intros fuel page all_records log html pre post recs Hp Hg Hrows Hstate.
      apply while_loop_returned with (html := html); try assumption.
      rewrite Hrows, Hstate. cbn [for_rows]. now rewrite Hstop.
  - intros o Ho. apply scraped_records_harvested in Ho as (c' & Hc' & Hh).
    rewrite Hc in Hc'. injection Hc' as <-.
    eapply Forall_impl; [|exact Hh].
    intros r (row & d & Hd & HDate & Hl & _). exists d.
    split; [exact (row_date_valid _ _ Hd)|]. split; [exact HDate|].
    now apply instant_ltb_false.
Qed.

Lemma old_row_with_bad_price_returns :
  process_row Sample.harvest_world Sample.cutoff_2024 [] Sample.old_bad_price_row = Stop /\
  forall rest recs,
    for_rows Sample.harvest_world Sample.cutoff_2024
      (Sample.old_bad_price_row :: rest) recs [] = Returned recs.
Proof.
  destruct (cutoff_precedes_price_check Sample.harvest_world 2 Sample.cutoff_2024 eq_refl)
    as [Hrow _].
  destruct (Hrow [] Sample.old_bad_price_row (Calendar.mkdate 2000 1 1))
    as (Hstop & Hret & _).
  - cbn. lia.
  - discriminate.
  - reflexivity.
  - reflexivity.
  - left. reflexivity.
  - split; [exact Hstop | exact Hret].
Defined.

(** C10, as the claim words it, fails: a row dated before the cutoff
    whose price cell is blank is dropped at line 136, before its date is
    looked at; the run goes on and returns the record of the next row. *)
Lemma blank_price_before_cutoff_goes_on :
  exists r,
    parse_date_cell (date_text Sample.old_blank_price_row) = Some (Calendar.mkdate 2000 1 1) /\
    Calendar.instant_lt (Calendar.midnight (Calendar.mkdate 2000 1 1)) Sample.cutoff_2024 /\
    price_text Sample.old_blank_price_row = EmptyString /\
    process_row Sample.blank_price_world Sample.cutoff_2024 [] Sample.old_blank_price_row = Skip /\
    scrape_nepse_daily_data Sample.blank_price_world 2 = Returns [r] /\
    Date r = "11/03/2026".
Proof.
  eexists. split; [reflexivity|]. split; [left; reflexivity|].
  split; [reflexivity|]. split; [reflexivity|].
  split; [vm_compute; reflexivity | reflexivity].
Qed.

(** ** The fallback probe *)

Lemma unusable_probe_none (w : world) (url : string) :
  unusable w url = true -> probe_source w url = None.
Proof.
  unfold unusable, probe_source.
  destruct (get_alt w url) as [|status text]; [reflexivity|].
  destruct (status =? 200); [|reflexivity]. cbn [negb orb].
  destruct (PyStr.contains "nepse" _ && PyStr.contains "index" _); [|reflexivity].
  cbn [negb orb]. destruct (first_numeral _); [discriminate | reflexivity].
Qed.

Lemma try_urls_skip (w : world) (pre rest : list string) :
  forallb (unusable w) pre = true -> try_urls w (pre ++ rest) = try_urls w rest.
Proof.
  induction pre as [|u pre IH]; cbn [forallb app try_urls]; [reflexivity|].
  intros H. apply andb_true_iff in H as [Hu Hpre].
  rewrite (unusable_probe_none w u Hu). auto.
Qed.

Lemma try_urls_length (w : world) (urls : list string) :
  (List.length (try_urls w urls) <= 1)%nat.
Proof.
  induction urls as [|u urls IH]; cbn [try_urls]; [cbn; lia|].
  destruct (probe_source w u); [cbn; lia | exact IH].
Qed.

(** C8, as the code has it.  The fallback returns at most one record.
    When a source answers 200 with a text that has both keywords and
    whose first numeral is [2481.35], and every source before it in the
    list is unusable (it fails, does not answer 200, lacks a keyword or
    has no numeral), the result is one record dated today with
    [Close = 2481.35].  When every source is unusable the result is
    empty. *)
Theorem fallback_first_usable_source :
  forall w : world,
    (List.length (try_alternative_source w) <= 1)%nat /\
    (forall pre url post text,
        alternative_urls = pre ++ url :: post ->
        forallb (unusable w) pre = true ->
        get_alt w url = AltStatus 200 text ->
        PyStr.contains "nepse" (PyStr.lower text) = true ->
        PyStr.contains "index" (PyStr.lower text) = true ->
        first_numeral (PyStr.lower text) = Some "2481.35" ->
        exists r, try_alternative_source w = [r] /\
                  Date r = current_date w /\ (Close r == 2481.35)%Q) /\
    (forallb (unusable w) alternative_urls = true -> try_alternative_source w = []).
Proof.
  intros w. unfold try_alternative_source. split; [apply try_urls_length|]. split.
  - intros pre url post text Hurls Hpre Hg Hn Hi Hf.
    rewrite Hurls, (try_urls_skip w pre (url :: post) Hpre). cbn [try_urls].
    unfold probe_source. rewrite Hg. cbn [Z.eqb Pos.eqb]. rewrite Hn, Hi. cbn [andb].
    rewrite Hf.
    change (PyFloat.of_string "2481.35") with (Some (PyFloat.Finite 2481.35)).
    cbv beta iota. unfold get_daily_volume_estimate. cbv beta iota zeta.
    eexists. split; [reflexivity|]. split; reflexivity.
  - intros Hall. rewrite <- (app_nil_r alternative_urls).
    now rewrite (try_urls_skip w alternative_urls [] Hall).
Qed.

Lemma fallback_scenario :
  exists r,
    try_alternative_source Sample.scenario_world = [r] /\
    Date r = current_date Sample.scenario_world /\ (Close r == 2481.35)%Q.
Proof.
  apply (proj1 (proj2 (fallback_first_usable_source Sample.scenario_world))
           [] "https://www.sharesansar.com/today-share-price"
           ["https://nepsealpha.com/trading/1"]
           "Today's NEPSE Index 2481.35 points, turnover up");
    reflexivity.
Defined.

(** C8, as the claim words it, fails: the second source answers with the
    keywords and the numeral [2481.35], but the first source, asked
    before it, already gave another numeral, and the record returned has
    [Close = 100]. *)
Lemma earlier_source_wins :
  exists r,
    get_alt Sample.two_figures_world "https://nepsealpha.com/trading/1"
    = AltStatus 200 "NEPSE index 2481.35" /\
    In "https://nepsealpha.com/trading/1" alternative_urls /\
    PyStr.contains "nepse" (PyStr.lower "NEPSE index 2481.35") = true /\
    PyStr.contains "index" (PyStr.lower "NEPSE index 2481.35") = true /\
    first_numeral (PyStr.lower "NEPSE index 2481.35") = Some "2481.35" /\
    try_alternative_source Sample.two_figures_world = [r] /\
    (Close r == 100)%Q /\ ~ (Close r == 2481.35)%Q.
Proof.
  eexists. split; [reflexivity|]. split; [right; left; reflexivity|].
  split; [reflexivity|]. split; [reflexivity|]. split; [reflexivity|].
  split; [vm_compute; reflexivity|]. split; [reflexivity|].
  intros H; discriminate H.
Qed.

(** * Scenarios of the specification, evaluated *)

(** Page 3 has its first row dated before the cutoff at position 7 of
    10: the run stops with the twelve records of pages 1 and 2 and the
    first six of page 3. *)
Example boundary_on_third_page_run :
  exists o,
    scrape_trace Sample.harvest_world 2 = Returns o /\
    fetched o = [1; 2; 3]%nat /\ reason o = Stopped_boundary /\
    map Date (records o)
    = ["11/22/2024"; "11/21/2024"; "11/20/2024"; "11/19/2024"; "11/18/2024"; "11/17/2024";
       "11/16/2024"; "11/15/2024"; "11/14/2024"; "11/13/2024"; "11/12/2024"; "11/11/2024";
       "11/10/2024"; "11/09/2024"; "11/08/2024"; "11/07/2024"; "11/06/2024"; "11/05/2024"].
Proof.
  eexists. split; [vm_compute; reflexivity|]. repeat split.
Qed.

(** The writer keeps the first [01/02/2024] row and the [01/03/2024]
    row, in that order, under the name given with [.csv] appended. *)
Example writer_keeps_first_occurrence :
  save_csv Sample.harvest_world Sample.three_records (Some "nepse")
  = Some (mkartifact "nepse.csv" ["Date"; "Close"; "Volume"]
            [mkrecord "01/02/2024" 100 1; mkrecord "01/03/2024" 102 3]).
Proof. reflexivity. Qed.

(** A disk that refuses the file: the run has its eighteen records and
    leaves nothing behind. *)
Example refused_write_leaves_no_file :
  (exists l, scrape_nepse_daily_data Sample.read_only_world 2 = Returns l /\
             List.length l = 18%nat) /\
  run Sample.read_only_world 2 (Some "out/nepse.csv") = Returns None.
Proof. split; [eexists; split; vm_compute; reflexivity | vm_compute; reflexivity]. Qed.

(** Dates that read as missing values are kept and go last, in the order
    they came in; two ways of writing one day are two rows, and which
    comes first is for the sort to say. *)
Example loose_records_written :
  option_map rows (save_csv Sample.harvest_world Sample.loose_records None)
  = Some [mkrecord "1/2/2024" 3 3; mkrecord "01/02/2024" 5 5; mkrecord "01/03/2024" 2 2;
          mkrecord "nan" 1 1; mkrecord "" 4 4] /\
  option_map rows (save_csv Sample.last_come_world Sample.loose_records None)
  = Some [mkrecord "01/02/2024" 5 5; mkrecord "1/2/2024" 3 3; mkrecord "01/03/2024" 2 2;
          mkrecord "nan" 1 1; mkrecord "" 4 4].
Proof. split; reflexivity. Qed.

(** A day beyond 2262-04-11 on a machine whose column is
    [datetime64[ns]]: [pd.to_datetime] raises and nothing is written. *)
Example day_out_of_bounds :
  save_csv Sample.harvest_world [mkrecord "01/02/2024" 100 1; mkrecord "01/01/3000" 1 1] None
  = None.
Proof. reflexivity. Qed.

(** The cutoff carries the time of day of the run: at noon, a row dated
    on the very day of the cutoff is before it, and one dated the next
    day is not. *)
Example row_on_the_cutoff_day :
  Calendar.instant_ltb (Calendar.midnight (Calendar.mkdate 2024 11 4)) Sample.cutoff_2024 = true /\
  Calendar.instant_ltb (Calendar.midnight (Calendar.mkdate 2024 11 5)) Sample.cutoff_2024 = false /\
  target_date Sample.harvest_world 2 = Some Sample.cutoff_2024.
Proof. repeat split. Qed.

(** The fallback of the specification's scenario. *)
Example fallback_scenario_record :
  map (fun r => (Date r, Close r)) (try_alternative_source Sample.scenario_world)
  = [("11/04/2026", 2481.35%Q)].
Proof. reflexivity. Qed.

(** * More of the code, verified *)

(** ** The run, page by page *)

Lemma page_end_of_limit (w : world) (c : Calendar.instant) (n : nat) :
  page_end_of w c n <> Some Stopped_page_limit.
Proof.
  unfold page_end_of. destruct (get_page w n) as [|html]; [discriminate|].
  destruct (find_rows html); [discriminate|].
  destruct (for_rows w c _ [] []) as [recs|[|r recs]]; try discriminate.
  destruct (has_next_link html); discriminate.
Qed.

Lemma while_loop_pages (w : world) (c : Calendar.instant) (fuel : nat) :
  forall page all_records log o,
    (page <= 31)%nat ->
    while_loop w c fuel page all_records log = Some o ->
    exists k,
      fetched o = log ++ seq page k /\ (page + k <= 31)%nat /\
      (forall n, (page <= n < page + k - 1)%nat -> page_end_of w c n = None) /\
      match reason o with
      | Stopped_page_limit =>
          (page + k = 31)%nat /\
          forall n, (page <= n < page + k)%nat -> page_end_of w c n = None
      | why => (1 <= k)%nat /\ page_end_of w c (page + k - 1) = Some why
      end.
Proof.
  induction fuel as [|fuel IH]; intros page all_records log o Hp H; [discriminate|].
  cbn [while_loop] in H.
  destruct (Nat.leb_spec page 30) as [Hle|Hgt].
  2:{ injection H as <-. exists 0%nat. cbn [fetched reason seq].
      rewrite app_nil_r. split; [reflexivity|]. split; [lia|].
      split; [intros n Hn; lia|]. split; [lia | intros n Hn; lia]. }
  assert (forall why l,
             o = mkoutcome l (log ++ [page]) why ->
             why <> Stopped_page_limit ->
             page_end_of w c page = Some why ->
             exists k,
               fetched o = log ++ seq page k /\ (page + k <= 31)%nat /\
               (forall n, (page <= n < page + k - 1)%nat -> page_end_of w c n = None) /\
               match reason o with
               | Stopped_page_limit =>
                   (page + k = 31)%nat /\
                   forall n, (page <= n < page + k)%nat -> page_end_of w c n = None
               | why => (1 <= k)%nat /\ page_end_of w c (page + k - 1) = Some why
               end) as one.
  { intros why l -> Hwhy Hend. exists 1%nat. cbn [fetched reason seq].
    replace (page + 1 - 1)%nat with page by lia.
    split; [reflexivity|]. split; [lia|]. split; [intros n Hn; lia|].
    destruct why; try (split; [lia | exact Hend]). contradiction. }
  unfold page_end_of in one.
  destruct (get_page w page) as [|html] eqn:Hg.
  { injection H as <-. eapply one; [reflexivity | discriminate | reflexivity]. }
  destruct (find_rows html) as [|row rows] eqn:Hr.
  { injection H as <-. eapply one; [reflexivity | discriminate | reflexivity]. }
  destruct (for_rows w c (row :: rows) [] []) as [recs|[|r recs]] eqn:Hf.
  - injection H as <-. eapply one; [reflexivity | discriminate | reflexivity].
  - injection H as <-. eapply one; [reflexivity | discriminate | reflexivity].
  - destruct (has_next_link html) eqn:Hn.
    + clear one. apply IH in H as (k & Hfe & Hk & Hmid & Hlast); [|lia].
      assert (page_end_of w c page = None) as Hpage.
      { unfold page_end_of. now rewrite Hg, Hr, Hf, Hn. }
      exists (S k). rewrite Hfe, <- app_assoc. cbn [app seq].
      split; [reflexivity|]. split; [lia|]. split.
      * intros n Hn'. destruct (Nat.eq_dec n page) as [->|]; [exact Hpage|].
        apply Hmid. lia.
      * destruct (reason o);
          try (destruct Hlast as [Hk1 Hend]; split; [lia|];
               replace (page + S k - 1)%nat with (S page + k - 1)%nat by lia; exact Hend).
        destruct Hlast as [Hsum Hall]. split; [lia|].
        intros n Hn'. destruct (Nat.eq_dec n page) as [->|]; [exact Hpage|].
        apply Hall. lia.
    + injection H as <-. eapply one; [reflexivity | discriminate | reflexivity].
Qed.

(** X1.  A run requests the pages 1..k, where every page before the last
    let the loop go on (it was fetched, gave at least one record and
    showed a next link), and the last one is the page that ends the loop
    for the reason the run reports -- or page 30, under the page limit. *)
Theorem run_stops_at_first_ending_page :
  forall (w : world) (years : Z) (o : outcome),
    scrape_trace w years = Returns o ->
    exists c k,
      target_date w years = Some c /\
      fetched o = seq 1 k /\ (k <= 30)%nat /\
      (forall n, (1 <= n < k)%nat -> page_end_of w c n = None) /\
      match reason o with
      | Stopped_page_limit => k = 30%nat /\ page_end_of w c 30 = None
      | why => (1 <= k)%nat /\ page_end_of w c k = Some why
      end.
Proof.
  intros w years o H. apply scrape_trace_inv in H as (c & Hc & Hloop).
  apply while_loop_pages in Hloop as (k & Hf & Hk & Hmid & Hlast); [|lia].
  exists c, k. split; [exact Hc|]. split; [exact Hf|]. split; [lia|].
  split; [intros n Hn; apply Hmid; lia|].
  destruct (reason o);
    try (destruct Hlast as [Hk1 Hend]; split; [exact Hk1|];
         replace (1 + k - 1)%nat with k in Hend by lia; exact Hend).
  destruct Hlast as [Hsum Hall]. split; [lia|]. apply Hall. lia.
Qed.

Lemma run_stops_at_first_ending_page_harvest :
  exists c k,
    target_date Sample.harvest_world 2 = Some c /\
    fetched (mkoutcome (page_records_of Sample.harvest_world Sample.cutoff_2024 1
                        ++ page_records_of Sample.harvest_world Sample.cutoff_2024 2
                        ++ page_records_of Sample.harvest_world Sample.cutoff_2024 3)
                       [1; 2; 3]%nat Stopped_boundary) = seq 1 k /\
    (k <= 30)%nat /\
    (forall n, (1 <= n < k)%nat -> page_end_of Sample.harvest_world c n = None) /\
    (1 <= k)%nat /\ page_end_of Sample.harvest_world c k = Some Stopped_boundary.
Proof.
  apply (run_stops_at_first_ending_page Sample.harvest_world 2
           (mkoutcome (page_records_of Sample.harvest_world Sample.cutoff_2024 1
                       ++ page_records_of Sample.harvest_world Sample.cutoff_2024 2
                       ++ page_records_of Sample.harvest_world Sample.cutoff_2024 3)
                      [1; 2; 3]%nat Stopped_boundary)).
  vm_compute. reflexivity.
Defined.

(** ** Where records come from *)

Lemma row_record_price (w : world) (row : tag) (fd : string) (r : record) :
  row_record w row fd = Some r -> row_price row = Some (PyFloat.Finite (Close r)).
Proof.
  unfold row_record. destruct (row_price row) as [[q|]|]; try discriminate.
  destruct (get_daily_volume_estimate w _ fd); [|discriminate].
  intros E; injection E as <-. reflexivity.
Qed.

Lemma for_rows_origin (w : world) (c : Calendar.instant) (rows : list tag) :
  forall recs seen l,
    for_rows w c rows recs seen = Completed l \/ for_rows w c rows recs seen = Returned l ->
    (forall r, In r l ->
               In r recs \/
               exists row d,
                 In row rows /\ row_date row = Some d /\
                 Date r = Calendar.strftime d /\
                 row_price row = Some (PyFloat.Finite (Close r)) /\
                 ~ Calendar.instant_lt (Calendar.midnight d) c) /\
    (List.length l <= List.length recs + List.length rows)%nat.
Proof.
  induction rows as [|row rows IH]; intros recs seen l Hl; cbn [for_rows] in Hl.
  - assert (l = recs) as -> by (destruct Hl as [E|E]; [now injection E | discriminate]).
    split; [auto | cbn; lia].
  - destruct (process_row w c seen row) as [| |r0] eqn:Ep.
    + destruct (IH _ _ _ Hl) as [Hin Hlen]. split; [|cbn [List.length]; lia].
      intros r Hr. destruct (Hin r Hr) as [? | (row' & d & ? & ?)]; [auto|].
      right. exists row', d. split; [right|]; tauto.
    + assert (l = recs) as -> by (destruct Hl as [E|E]; [discriminate | now injection E]).
      split; [auto | cbn [List.length]; lia].
    + destruct (IH _ _ _ Hl) as [Hin Hlen]. split.
      * intros r Hr. destruct (Hin r Hr) as [Hr' | (row' & d & ? & ?)].
        -- apply in_app_or in Hr' as [? | [<- | []]]; [auto|].
           apply process_row_accept in Ep as (d & Hd & HDate & _ & Hl' & Hrec).
           right. exists row, d. split; [left; reflexivity|]. split; [exact Hd|].
           split; [exact HDate|]. split; [exact (row_record_price _ _ _ _ Hrec)|].
           now apply instant_ltb_false.
        -- right. exists row', d. split; [right|]; tauto.
      * rewrite length_app in Hlen. cbn [List.length] in *. lia.
Qed.

(** X2.  No record is made up: every record a page contributes comes
    from one of the rows selected on that page, carries the rendering of
    that row's date and the value of its price text, and that date is
    not before the cutoff; a page contributes at most one record per
    row. *)
Theorem page_records_come_from_rows :
  forall (w : world) (c : Calendar.instant) (n : nat) (html : soup),
    get_page w n = Fetched html ->
    (forall r, In r (page_records_of w c n) ->
               exists row d,
                 In row (find_rows html) /\ row_date row = Some d /\
                 Date r = Calendar.strftime d /\
                 row_price row = Some (PyFloat.Finite (Close r)) /\
                 ~ Calendar.instant_lt (Calendar.midnight d) c) /\
    (List.length (page_records_of w c n) <= List.length (find_rows html))%nat.
Proof.
  intros w c n html Hg. unfold page_records_of. rewrite Hg.
  destruct (for_rows w c (find_rows html) [] []) as [l|l] eqn:E;
    (destruct (for_rows_origin w c (find_rows html) [] [] l) as [Hin Hlen];
     [auto | split; [|exact Hlen]]);
    intros r Hr; destruct (Hin r Hr) as [[] | ?]; assumption.
Qed.

Lemma page_records_come_from_rows_third_page :
  (forall r, In r (page_records_of Sample.harvest_world Sample.cutoff_2024 3) ->
             exists row d,
               In row (find_rows Sample.page3) /\ row_date row = Some d /\
               Date r = Calendar.strftime d /\
               row_price row = Some (PyFloat.Finite (Close r)) /\
               ~ Calendar.instant_lt (Calendar.midnight d) Sample.cutoff_2024) /\
  (List.length (page_records_of Sample.harvest_world Sample.cutoff_2024 3)
   <= List.length (find_rows Sample.page3))%nat.
Proof.
  apply (page_records_come_from_rows Sample.harvest_world Sample.cutoff_2024 3 Sample.page3).
  reflexivity.
Defined.

(** ** A longer window *)

Section EarlierCutoff.

Variable w : world.
Variables c1 c2 : Calendar.instant.
Hypothesis earlier :
  forall x, Calendar.instant_ltb x c2 = true -> Calendar.instant_ltb x c1 = true.

Lemma process_row_earlier_cutoff (seen : list string) (row : tag) :
  process_row w c1 seen row <> Stop ->
  process_row w c2 seen row = process_row w c1 seen row.
Proof.
  unfold process_row. destruct (row_date row) as [d|]; [|reflexivity].
  destruct (PyStr.mem _ seen); [reflexivity|].
  destruct (Calendar.instant_ltb (Calendar.midnight d) c1) eqn:E1; [congruence|].
  destruct (Calendar.instant_ltb (Calendar.midnight d) c2) eqn:E2; [|reflexivity].
  apply earlier in E2. congruence.
Qed.

Lemma for_rows_extends (c : Calendar.instant) (rows : list tag) :
  forall recs seen l,
    for_rows w c rows recs seen = Completed l \/ for_rows w c rows recs seen = Returned l ->
    exists rest, l = recs ++ rest.
Proof.
  induction rows as [|row rows IH]; intros recs seen l Hl; cbn [for_rows] in Hl.
  - exists []. rewrite app_nil_r. destruct Hl as [E|E]; [now injection E | discriminate].
  - destruct (process_row w c seen row) as [| |r].
    + eauto.
    + exists []. rewrite app_nil_r. destruct Hl as [E|E]; [discriminate | now injection E].
    + destruct (IH _ _ _ Hl) as (rest & ->). exists (r :: rest).
      now rewrite <- app_assoc.
Qed.

Lemma for_rows_result_extends (c : Calendar.instant) (rows : list tag)
  (recs : list record) (seen : list string) :
  exists l rest,
    l = recs ++ rest /\
    (for_rows w c rows recs seen = Completed l \/ for_rows w c rows recs seen = Returned l).
Proof.
  destruct (for_rows w c rows recs seen) as [l|l] eqn:E;
    (destruct (for_rows_extends c rows recs seen l) as (rest & ->); [auto|]);
    eauto.
Qed.

Lemma for_rows_earlier_cutoff (rows : list tag) :
  forall recs seen,
    match for_rows w c1 rows recs seen with
    | Completed l => for_rows w c2 rows recs seen = Completed l
    | Returned l =>
        exists l' rest,
          l' = l ++ rest /\
          (for_rows w c2 rows recs seen = Completed l' \/
           for_rows w c2 rows recs seen = Returned l')
    end.
Proof.
  induction rows as [|row rows IH]; intros recs seen; cbn [for_rows]; [reflexivity|].
  destruct (process_row w c1 seen row) as [| |r] eqn:E1.
  - rewrite process_row_earlier_cutoff, E1 by congruence. apply IH.
  - destruct (process_row w c2 seen row) as [| |r2].
    + apply for_rows_result_extends.
    + exists recs, []. rewrite app_nil_r. auto.
    + destruct (for_rows_result_extends c2 rows (recs ++ [r2]) (Date r2 :: seen))
        as (l2 & rest & -> & Hl2).
      exists ((recs ++ [r2]) ++ rest), ([r2] ++ rest).
      split; [now rewrite <- app_assoc | exact Hl2].
  - rewrite process_row_earlier_cutoff, E1 by congruence. apply IH.
Qed.

Lemma while_loop_earlier_cutoff (fuel : nat) :
  forall page all_records log o1,
    (31 - page < fuel)%nat ->
    while_loop w c1 fuel page all_records log = Some o1 ->
    exists o2 more pages,
      while_loop w c2 fuel page all_records log = Some o2 /\
      records o2 = records o1 ++ more /\ fetched o2 = fetched o1 ++ pages.
Proof.
  induction fuel as [|fuel IH]; intros page all_records log o1 Hfuel H; [discriminate|].
  cbn [while_loop] in H |- *.
  destruct (Nat.leb_spec page 30) as [Hle|Hgt].
  2:{ exists o1, [], []. rewrite !app_nil_r. auto. }
  destruct (get_page w page) as [|html] eqn:Hg.
  { exists o1, [], []. rewrite !app_nil_r. auto. }
  destruct (find_rows html) as [|row rows] eqn:Hr.
  { exists o1, [], []. rewrite !app_nil_r. auto. }
  pose proof (for_rows_earlier_cutoff (row :: rows) [] []) as Hcmp.
  destruct (for_rows w c1 (row :: rows) [] []) as [l|l] eqn:E1.
  - destruct Hcmp as (l' & rest & -> & [E2 | E2]); rewrite E2; injection H as <-;
      cbn [records fetched].
    + destruct (l ++ rest) as [|r lr] eqn:El.
      * apply app_eq_nil in El as [-> ->]. eexists. exists [], [].
        rewrite !app_nil_r. auto.
      * destruct (has_next_link html).
        -- destruct (while_loop_total w c2 fuel (S page) (all_records ++ r :: lr)
                       (log ++ [page])) as (o2 & Ho2); [lia|].
           pose proof (while_loop_spec w c2 fuel _ _ _ _ Ho2) as (k & Hf & Hrec & _).
           exists o2. eexists. eexists. split; [exact Ho2|].
           rewrite Hrec, Hf, <- El, <- !app_assoc. split; reflexivity.
        -- eexists. exists rest, []. cbn [records fetched].
           rewrite <- El, app_assoc, app_nil_r. auto.
    + eexists. exists rest, []. cbn [records fetched].
      rewrite app_assoc, app_nil_r. auto.
  - rewrite Hcmp. destruct l as [|r l].
    + exists o1, [], []. rewrite !app_nil_r. auto.
    + destruct (has_next_link html).
      * apply IH; [lia | exact H].
      * exists o1, [], []. rewrite !app_nil_r. auto.
Qed.

End EarlierCutoff.

Lemma target_date_some (w : world) (years : Z) (c : Calendar.instant) :
  target_date w years = Some c ->
  c = Calendar.mkinstant (Calendar.toordinal (now_date w) - 365 * years) (now_tod w).
Proof.
  unfold target_date. destruct (_ && _); [|discriminate].
  intros E. injection E as E. symmetry. exact E.
Qed.

Lemma target_date_earlier (w : world) (y1 y2 : Z) (c1 c2 : Calendar.instant) :
  y1 <= y2 -> target_date w y1 = Some c1 -> target_date w y2 = Some c2 ->
  forall x, Calendar.instant_ltb x c2 = true -> Calendar.instant_ltb x c1 = true.
Proof.
  intros Hy H1 H2 x. apply target_date_some in H1, H2. subst c1 c2.
  rewrite !instant_ltb_spec. unfold Calendar.instant_lt.
  change (Calendar.ord (Calendar.mkinstant ?o ?t)) with o.
  generalize (Calendar.toordinal (now_date w)) (Calendar.ord x). intros o ox.
  unfold Calendar.ord, Calendar.tod. lia.
Qed.

(** X3.  Asking for more years never loses a record: when both cutoffs
    can be computed, the list returned for the smaller number of years
    is a prefix of the list returned for the larger one. *)
Theorem more_years_extend_the_harvest :
  forall (w : world) (y1 y2 : Z) (l1 l2 : list record),
    y1 <= y2 ->
    scrape_nepse_daily_data w y1 = Returns l1 ->
    scrape_nepse_daily_data w y2 = Returns l2 ->
    exists more, l2 = l1 ++ more.
Proof.
  intros w y1 y2 l1 l2 Hy. unfold scrape_nepse_daily_data.
  destruct (scrape_trace w y1) as [o1| |] eqn:H1; try discriminate.
  destruct (scrape_trace w y2) as [o2| |] eqn:H2; try discriminate.
  intros E1 E2. injection E1 as <-. injection E2 as <-.
  apply scrape_trace_inv in H1 as (c1 & Hc1 & L1), H2 as (c2 & Hc2 & L2).
  destruct (while_loop_earlier_cutoff w c1 c2 (target_date_earlier w y1 y2 c1 c2 Hy Hc1 Hc2)
              31 1 [] [] o1 ltac:(lia) L1) as (o2' & more & pages & L2' & Hrec & _).
  rewrite L2 in L2'. injection L2' as <-. eauto.
Qed.

Lemma more_years_extend_the_harvest_three_pages :
  exists more,
    List.concat (map (page_records_of Sample.harvest_world cutoff_2023) [1; 2; 3]%nat)
    = List.concat (map (page_records_of Sample.harvest_world Sample.cutoff_2024) [1; 2; 3]%nat)
      ++ more.
Proof.
  apply (more_years_extend_the_harvest Sample.harvest_world 2 3).
  - lia.
  - vm_compute. reflexivity.
  - vm_compute. reflexivity.
Defined.

(** ** Prices out of range *)

Lemma inf_price_gives_no_record (w : world) (c : Calendar.instant)
  (seen : list string) (row : tag) :
  row_price row = Some PyFloat.Inf ->
  (forall fd, row_record w row fd = None) /\
  (process_row w c seen row = Skip \/ process_row w c seen row = Stop).
Proof.
  intros Hp.
  assert (forall fd, row_record w row fd = None) as Hrec.
  { intros fd. unfold row_record. rewrite Hp. reflexivity. }
  split; [exact Hrec|]. unfold process_row.
  destruct (row_date row) as [d|]; [|auto].
  destruct (PyStr.mem _ seen); [auto|].
  destruct (Calendar.instant_ltb _ c); [auto|]. rewrite Hrec. auto.
Qed.

(** ** Dates as the listing writes them *)

Lemma digit_not_space (a : ascii) : PyStr.is_digit a = true -> PyStr.isspace a = false.
Proof.
  unfold PyStr.is_digit, PyStr.isspace. generalize (nat_of_ascii a). intros n.
  rewrite andb_true_iff, !Nat.leb_le. intros [H1 H2].
  destruct (Nat.leb_spec 9 n), (Nat.leb_spec n 13), (Nat.leb_spec 28 n),
    (Nat.leb_spec n 32); cbn; try reflexivity; lia.
Qed.

Lemma rstrip_no_space (s : string) : no_space s = true -> PyStr.rstrip s = s.
Proof.
  induction s as [|a s IH]; [reflexivity|]. cbn [no_space PyStr.rstrip].
  intros H. apply andb_true_iff in H as [Ha Hs]. rewrite (IH Hs).
  apply negb_true_iff in Ha. rewrite Ha. now destruct s.
Qed.

Lemma strip_no_space (s : string) : no_space s = true -> PyStr.strip s = s.
Proof.
  intros H. unfold PyStr.strip.
  assert (PyStr.lstrip s = s) as ->.
  { destruct s as [|a s]; [reflexivity|]. cbn [no_space] in H.
    apply andb_true_iff in H as [Ha _]. apply negb_true_iff in Ha.
    cbn [PyStr.lstrip]. now rewrite Ha. }
  now apply rstrip_no_space.
Qed.

Lemma all_digits_no_space (s : string) : PyStr.all_digits s = true -> no_space s = true.
Proof.
  induction s as [|a s IH]; [reflexivity|]. cbn [PyStr.all_digits no_space].
  intros H. apply andb_true_iff in H as [Ha Hs].
  now rewrite (digit_not_space a Ha), IH.
Qed.



Lemma remove_digits (c : ascii) (s : string) :
  PyStr.is_digit c = false -> PyStr.all_digits s = true -> PyStr.remove c s = s.
Proof.
  intros Hc. induction s as [|a s IH]; [reflexivity|].
  cbn [PyStr.all_digits PyStr.remove]. intros H. apply andb_true_iff in H as [Ha Hs].
  destruct (Ascii.eqb_spec a c) as [->|]; [congruence|]. now rewrite IH.
Qed.

Lemma split_digits (c : ascii) (s : string) :
  PyStr.is_digit c = false -> PyStr.all_digits s = true -> PyStr.split c s = [s].
Proof.
  intros Hc. induction s as [|a s IH]; [reflexivity|].
  cbn [PyStr.all_digits PyStr.split]. intros H. apply andb_true_iff in H as [Ha Hs].
  destruct (Ascii.eqb_spec a c) as [->|]; [congruence|]. now rewrite IH.
Qed.

Lemma append_empty (s : string) : (s ++ EmptyString)%string = s.
Proof. induction s as [|a s IH]; [reflexivity|]. cbn. now rewrite IH. Qed.

(** The price of a row whose price text is a plain integer numeral. *)
Lemma row_price_of_digits (row : tag) :
  PyStr.isdigit (price_text row) = true ->
  row_price row
  = Some (if PyFloat.overflow_threshold <=? PyFloat.digits_Z 0 (price_text row)
          then PyFloat.Inf
          else PyFloat.Finite (inject_Z (PyFloat.digits_Z 0 (price_text row)))).
Proof.
  intros H. pose proof (isdigit_all_digits _ H) as Hall. unfold row_price.
  rewrite (remove_digits "," _ eq_refl Hall).
  rewrite (strip_no_space _ (all_digits_no_space _ Hall)).
  rewrite (remove_digits "." _ eq_refl Hall), H.
  destruct (price_text row) as [|a s] eqn:E; [discriminate H|]. cbn [PyStr.is_empty negb andb].
  unfold PyFloat.of_string. rewrite (split_digits "." _ eq_refl Hall), H.
  unfold PyFloat.of_parts. rewrite append_empty.
  change (PyFloat.pow10 (String.length EmptyString)) with 1%positive.
  f_equal. unfold Qle_bool, inject_Z. cbn [Qnum Qden]. rewrite !Z.mul_1_r.
  reflexivity.
Qed.

(** X4.  A row whose price text is an integer numeral of value
    [2^1024 - 2^970] or more -- beyond the range of [float] -- never
    yields a record: the volume estimate raises on [inf], which the row
    loop swallows; the row is passed over, unless its date makes it a
    boundary stop. *)
Theorem overflowing_price_gives_no_record :
  forall (w : world) (c : Calendar.instant) (seen : list string) (row : tag),
    PyStr.isdigit (price_text row) = true ->
    2 ^ 1024 - 2 ^ 970 <= PyFloat.digits_Z 0 (price_text row) ->
    row_price row = Some PyFloat.Inf /\
    (forall fd, row_record w row fd = None) /\
    (process_row w c seen row = Skip \/ process_row w c seen row = Stop).
Proof.
  intros w c seen row Hd Hv.
  assert (row_price row = Some PyFloat.Inf) as Hp.
  { rewrite (row_price_of_digits row Hd).
    destruct (Z.leb_spec PyFloat.overflow_threshold (PyFloat.digits_Z 0 (price_text row)))
      as [_|Hlt]; [reflexivity|].
    unfold PyFloat.overflow_threshold in Hlt. lia. }
  split; [exact Hp|]. now apply inf_price_gives_no_record.
Qed.

Lemma overflowing_price_row_is_skipped :
  row_price overflowing_row = Some PyFloat.Inf /\
  (forall fd, row_record Sample.harvest_world overflowing_row fd = None) /\
  (process_row Sample.harvest_world Sample.cutoff_2024 [] overflowing_row = Skip \/
   process_row Sample.harvest_world Sample.cutoff_2024 [] overflowing_row = Stop).
Proof.
  apply (overflowing_price_gives_no_record Sample.harvest_world Sample.cutoff_2024 []
           overflowing_row).
  - reflexivity.
  - vm_compute. intros H; discriminate H.
Defined.











(** ** The volume estimate *)

Lemma day_factor_range (s : string) : (9 # 10 <= day_factor s <= 12 # 10)%Q.
Proof.
  unfold day_factor. destruct (Calendar.strptime s) as [d|].
  - destruct (Calendar.weekday d =? 0); [split; discriminate|].
    destruct (Calendar.weekday d =? 4); split; discriminate.
  - split; discriminate.
Qed.

Lemma volume_product_bounds (pf df var : Q) :
  (85 # 100 <= pf)%Q -> (9 # 10 <= df <= 12 # 10)%Q -> (7 # 10 <= var <= 129 # 100)%Q ->
  (2409750000 <= 4500000000 * pf * df * var)%Q /\
  (4500000000 * pf * df * var <= 6966000000 * pf)%Q.
Proof.
  intros Hpf Hdf Hvar.
  assert (0 <= pf * df)%Q by nra.
  assert ((85 # 100) * (9 # 10) <= pf * df)%Q by nra.
  assert (pf * df <= pf * (12 # 10))%Q by nra.
  split.
  - assert ((85 # 100) * (9 # 10) * (7 # 10) <= pf * df * var)%Q by nra. nra.
  - assert (pf * df * var <= pf * (12 # 10) * (129 # 100))%Q by nra. nra.
Qed.

(** X6.  For a finite price [q >= 0] the volume estimate never raises,
    whatever the date text, and lies between 2 409 750 000 and
    6 966 000 000 * (q / 2500 * 0.3 + 0.85): between 0.9 * 0.7 and
    1.2 * 1.29 times the base volume scaled by the price factor. *)
Theorem volume_estimate_bounds :
  forall (w : world) (q : Q) (date_str : string),
    (0 <= q)%Q ->
    exists v,
      get_daily_volume_estimate w (PyFloat.Finite q) date_str = Some v /\
      (2409750000 <= v)%Q /\
      (v <= 6966000000 * (q / 2500 * 0.3 + 0.85))%Q.
Proof.
  intros w q date_str Hq. eexists. split; [reflexivity|].
  assert (0 <= inject_Z (repr_tail w q mod 60) <= 59)%Q as Hm.
  { change 0%Q with (inject_Z 0). change 59%Q with (inject_Z 59).
    rewrite <- !Zle_Qle. pose proof (Z.mod_pos_bound (repr_tail w q) 60). lia. }
  revert Hm. generalize (inject_Z (repr_tail w q mod 60)). intros m Hm.
  pose proof (day_factor_range date_str) as Hdf.
  revert Hdf. generalize (day_factor date_str). intros df Hdf.
  unfold base_volume, Qdiv.
  change (/ 2500)%Q with (1 # 2500)%Q. change (/ 100)%Q with (1 # 100)%Q.
  apply volume_product_bounds; [lra | exact Hdf | lra].
Qed.

Lemma volume_estimate_bounds_at_2481 :
  exists v,
    get_daily_volume_estimate Sample.harvest_world (PyFloat.Finite 2481.35) "11/03/2026"
    = Some v /\
    (2409750000 <= v)%Q /\ (v <= 6966000000 * (2481.35 / 2500 * 0.3 + 0.85))%Q.
Proof.
  apply (volume_estimate_bounds Sample.harvest_world 2481.35 "11/03/2026").
  discriminate.
Defined.

(** ** The numeral the fallback reads *)

Lemma take_digits_spec (s : string) :
  forall d r, take_digits s = (d, r) ->
              PyStr.all_digits d = true /\ s = (d ++ r)%string.
Proof.
  induction s as [|a s IH]; intros d r H; cbn [take_digits] in H.
  - injection H as <- <-. auto.
  - destruct (PyStr.is_digit a) eqn:Ha.
    + destruct (take_digits s) as [d' r'] eqn:E. injection H as <- <-.
      destruct (IH d' r' eq_refl) as [Hd ->]. cbn [PyStr.all_digits]. rewrite Ha, Hd. auto.
    + injection H as <- <-. auto.
Qed.

Lemma split_dot_after_digits (d t : string) :
  PyStr.all_digits d = true ->
  PyStr.split "." (d ++ String "." t)%string = d :: PyStr.split "." t.
Proof.
  induction d as [|a d IH]; cbn [PyStr.all_digits append PyStr.split]; intros H.
  - rewrite Ascii.eqb_refl. reflexivity.
  - apply andb_true_iff in H as [Ha Hd]. rewrite (IH Hd).
    destruct (Ascii.eqb_spec a ".") as [->|]; [discriminate Ha | reflexivity].
Qed.

Lemma of_string_digits_dot_digits (d1 d2 : string) :
  PyStr.isdigit d1 = true -> PyStr.all_digits d2 = true ->
  PyFloat.of_string (d1 ++ String "." d2)%string = Some (PyFloat.of_parts d1 d2).
Proof.
  intros H1 H2. pose proof (isdigit_all_digits d1 H1) as Ha.
  unfold PyFloat.of_string.
  rewrite (split_dot_after_digits d1 d2 Ha), (split_digits "." d2 eq_refl H2), Ha, H2.
  destruct d1; [discriminate H1 | reflexivity].
Qed.

Lemma of_string_digits (d : string) :
  PyStr.isdigit d = true -> PyFloat.of_string d = Some (PyFloat.of_parts d EmptyString).
Proof.
  intros H. unfold PyFloat.of_string.
  now rewrite (split_digits "." d eq_refl (isdigit_all_digits d H)), H.
Qed.

(** X7.  Whatever the page text, the first numeral the fallback finds
    is one that [float] accepts: the conversion at line 234 cannot raise
    a [ValueError], and the price it gives is not negative. *)
Theorem fallback_numeral_is_a_float :
  forall s n : string,
    first_numeral s = Some n ->
    exists x, PyFloat.of_string n = Some x /\
              match x with
              | PyFloat.Finite q => (0 <= q)%Q
              | PyFloat.Inf => True
              end.
Proof.
  intros s n H.
  assert (exists x, PyFloat.of_string n = Some x) as (x & Hx).
  { induction s as [|a s IH]; [discriminate H|]. cbn [first_numeral] in H.
    destruct (PyStr.is_digit a) eqn:Ha; [|auto].
    destruct (take_digits (String a s)) as [d1 r1] eqn:E1.
    pose proof (take_digits_spec _ _ _ E1) as [Hd1 _].
    assert (PyStr.isdigit d1 = true) as Hi1.
    { cbn [take_digits] in E1. rewrite Ha in E1.
      destruct (take_digits s). injection E1 as <- _. exact Hd1. }
    destruct r1 as [|b r2].
    - injection H as <-. rewrite (of_string_digits d1 Hi1). eauto.
    - destruct (Ascii.eqb_spec b ".") as [->|Hb].
      + destruct (take_digits r2) as [d2 r3] eqn:E2.
        pose proof (take_digits_spec _ _ _ E2) as [Hd2 _].
        injection H as <-. rewrite (of_string_digits_dot_digits d1 d2 Hi1 Hd2). eauto.
      + assert (Some d1 = Some n) as Hn.
        { rewrite <- H. clear - Hb.
          destruct b as [[] [] [] [] [] [] [] []]; try reflexivity. now contradiction Hb. }
        injection Hn as <-. rewrite (of_string_digits d1 Hi1). eauto. }
  exists x. split; [exact Hx|]. destruct x as [q|]; [|exact I].
  exact (of_string_nonneg n q Hx).
Qed.

Lemma fallback_numeral_is_a_float_scenario :
  exists x, PyFloat.of_string "2481.35" = Some x /\
            match x with
            | PyFloat.Finite q => (0 <= q)%Q
            | PyFloat.Inf => True
            end.
Proof.
  apply (fallback_numeral_is_a_float "today's nepse index 2481.35 points" "2481.35").
  reflexivity.
Defined.

(** ** The name of the file *)

Lemma endswith_app (s t : string) : endswith (s ++ t)%string t = true.
Proof.
  induction s as [|a s IH]; cbn [append endswith].
  - destruct t; cbn [endswith]; now rewrite String.eqb_refl.
  - rewrite IH. apply orb_true_r.
Qed.

Lemma string_app_assoc (a b c : string) :
  (a ++ b ++ c)%string = ((a ++ b) ++ c)%string.
Proof. induction a as [|x a IH]; cbn [append]; [reflexivity | now rewrite IH]. Qed.

Lemma output_filename_endswith (w : world) (filename : option string) :
  endswith (output_filename w filename) ".csv" = true.
Proof.
  assert (forall s, endswith (if endswith s ".csv" then s else (s ++ ".csv")%string) ".csv"
                    = true) as Hend.
  { intros s. destruct (endswith s ".csv") eqn:E; [exact E | apply endswith_app]. }
  unfold output_filename. destruct filename as [[|a s]|]; apply Hend.
Qed.

(** A name that [save_csv] has resolved is used as it is. *)
Lemma output_filename_resolved (w w' : world) (filename : option string) :
  output_filename w' (Some (output_filename w filename)) = output_filename w filename.
Proof.
  pose proof (output_filename_endswith w filename) as Hout.
  destruct (output_filename w filename) as [|a s] eqn:E; [discriminate Hout|].
  unfold output_filename. cbv beta iota zeta. now rewrite Hout.
Qed.

(** X12.  The file is always written under a name ending in [.csv]: a
    name that already ends so is used as it is, any other gets the
    suffix appended, and no name (or the empty one) gives
    [nepse_daily_YYYYMMDD.csv] for the day of the run. *)
Theorem output_filename_ends_in_csv :
  forall (w : world) (filename : option string),
    endswith (output_filename w filename) ".csv" = true /\
    (forall name, filename = Some name -> name <> EmptyString ->
                  output_filename w filename
                  = if endswith name ".csv" then name else (name ++ ".csv")%string) /\
    (filename = None \/ filename = Some EmptyString ->
     output_filename w filename
     = ("nepse_daily_" ++ strftime_Ymd (now_date w) ++ ".csv")%string) /\
    output_filename w (Some (output_filename w filename)) = output_filename w filename.
Proof.
  intros w filename.
  assert (endswith ("nepse_daily_" ++ strftime_Ymd (now_date w) ++ ".csv") ".csv" = true)
    as Hdefault.
  { rewrite string_app_assoc. apply endswith_app. }
  split; [apply output_filename_endswith|]. split; [|split].
  - intros name -> Hne. unfold output_filename. destruct name; [contradiction | reflexivity].
  - intros [-> | ->]; unfold output_filename; now rewrite Hdefault.
  - apply output_filename_resolved.
Qed.

Lemma output_filename_for_a_bare_name :
  output_filename Sample.harvest_world (Some "nepse") = "nepse.csv" /\
  output_filename Sample.harvest_world None = "nepse_daily_20261104.csv".
Proof.
  destruct (output_filename_ends_in_csv Sample.harvest_world (Some "nepse"))
    as (_ & Hname & _).
  destruct (output_filename_ends_in_csv Sample.harvest_world None) as (_ & _ & Hnone & _).
  split.
  - rewrite (Hname "nepse" eq_refl); [reflexivity | discriminate].
  - rewrite Hnone; [reflexivity | now left].
Defined.

(** ** What the writer writes *)

Lemma drop_duplicates_from_keeps_dates (data : list record) :
  forall seen r,
    In r data ->
    In (Date r) seen \/ In (Date r) (map Date (drop_duplicates_from seen data)).
Proof.
  induction data as [|r0 data IH]; intros seen r Hr; [destruct Hr|].
  cbn [drop_duplicates_from]. destruct (PyStr.mem (Date r0) seen) eqn:Em.
  - destruct Hr as [<- | Hr]; [left; now apply mem_true_iff | now apply IH].
  - cbn [map In]. destruct Hr as [<- | Hr]; [auto|].
    destruct (IH (Date r0 :: seen) r Hr) as [[<- | ?] | ?]; auto.
Qed.

Lemma drop_duplicates_from_first (data : list record) :
  forall seen r,
    In r (drop_duplicates_from seen data) ->
    exists pre post,
      data = pre ++ r :: post /\ ~ In (Date r) (map Date pre) /\ ~ In (Date r) seen.
Proof.
  induction data as [|r0 data IH]; intros seen r Hr; [destruct Hr|].
  cbn [drop_duplicates_from] in Hr. destruct (PyStr.mem (Date r0) seen) eqn:Em.
  - destruct (IH seen r Hr) as (pre & post & -> & Hpre & Hseen).
    exists (r0 :: pre), post. split; [reflexivity|]. split; [|exact Hseen].
    cbn [map In]. intros [E | ?]; [|auto].
    apply mem_true_iff in Em. rewrite E in Em. auto.
  - apply mem_false_iff in Em. destruct Hr as [<- | Hr].
    + exists [], data. auto.
    + destruct (IH (Date r0 :: seen) r Hr) as (pre & post & -> & Hpre & Hseen).
      exists (r0 :: pre), post. split; [reflexivity|]. cbn [map In] in *. tauto.
Qed.

Lemma to_datetime_readable (w : world) (r : record) :
  to_datetime w (Date r) <> None <-> readable w r.
Proof.
  unfold readable, to_datetime. destruct (not_a_time (Date r)).
  - split; [auto | discriminate].
  - destruct (Calendar.strptime (Date r)) as [d|].
    + destruct (representable w d) eqn:Er.
      * split; [eauto | discriminate].
      * split; [congruence|]. intros [? | (d' & E & Hr)]; [discriminate|].
        injection E as <-. congruence.
    + split; [congruence|]. intros [? | (d' & E & _)]; discriminate.
Qed.

Lemma with_date_obj_some_iff (w : world) (data : list record) :
  (exists keyed, with_date_obj w data = Some keyed) <-> Forall (readable w) data.
Proof.
  induction data as [|r data IH]; cbn [with_date_obj].
  - split; [constructor | eauto].
  - rewrite Forall_cons_iff, <- IH, <- to_datetime_readable.
    destruct (to_datetime w (Date r)) as [t|].
    + destruct (with_date_obj w data) as [k|].
      * split; [split; [discriminate | eauto] | eauto].
      * split; [intros (? & ?); discriminate | intros (_ & ? & ?); discriminate].
    + split; [intros (? & ?); discriminate | intros (H & _); now contradiction H].
Qed.

(** X8.  [save_csv] leaves a file exactly when its input is not empty,
    every [Date] in it is a missing value or a day in the [MM/DD/YYYY]
    form that pandas can hold, and the write of the sorted frame runs to
    its end: one unreadable date anywhere in the input, or a write that
    fails, leaves no file. *)
Theorem save_csv_writes_iff_dates_parse :
  forall (w : world) (data : list record) (filename : option string),
    (exists a, save_csv w data filename = Some a) <->
    data <> [] /\
    Forall (fun r => not_a_time (Date r) = true \/
                     exists d, Calendar.strptime (Date r) = Some d /\
                               representable w d = true) data /\
    (forall df,
        sorted_frame w data = Some df -> to_csv w (output_filename w filename) df = true).
Proof.
  intros w data filename. fold (readable w).
  assert (Forall (readable w) (drop_duplicates data) <-> Forall (readable w) data) as Hsame.
  { rewrite !Forall_forall. split; intros H r Hr.
    - destruct (drop_duplicates_from_keeps_dates data [] r Hr) as [[] | Hin].
      apply in_map_iff in Hin as (r' & E & Hr'). unfold readable. rewrite <- E.
      now apply H.
    - apply H. now apply drop_duplicates_incl. }
  split.
  - intros (a & H). apply save_csv_some in H as (keyed & Hne & Hk & Hw & _).
    split; [exact Hne|]. split.
    + apply Hsame, with_date_obj_some_iff. eauto.
    + unfold sorted_frame. rewrite Hk. cbn [option_map].
      intros df E; injection E as <-. exact Hw.
  - intros (Hne & Hread & Hw).
    apply Hsame, with_date_obj_some_iff in Hread as (keyed & Hk).
    assert (sorted_frame w data = Some (sort_values w keyed)) as Hf.
    { unfold sorted_frame. now rewrite Hk. }
    unfold save_csv. destruct data as [|r0 data0]; [contradiction|].
    rewrite Hf, (Hw _ Hf). eauto.
Qed.

(** X9.  Whatever file [save_csv] writes, its rows are records of the
    input, one for each [Date] of the input and none besides: every row
    is the first record of the input with its [Date], and no date of the
    input is missing.  The rows that have a day come first, in ascending
    order of day; the rows whose date is a missing value come last. *)
Theorem save_csv_keeps_every_date_once :
  forall (w : world) (data : list record) (filename : option string) (a : artifact),
    save_csv w data filename = Some a ->
    (forall s, In s (map Date (rows a)) <-> In s (map Date data)) /\
    (forall r, In r (rows a) ->
               exists pre post, data = pre ++ r :: post /\ ~ In (Date r) (map Date pre)) /\
    (exists days blanks,
        rows a = days ++ blanks /\
        StronglySorted (fun x y => date_key x <= date_key y) days /\
        Forall (fun r => Calendar.strptime (Date r) <> None) days /\
        Forall (fun r => not_a_time (Date r) = true) blanks) /\
    (Forall (fun r => Calendar.strptime (Date r) <> None) data ->
     StronglySorted (fun x y => date_key x <= date_key y) (rows a)) /\
    (List.length (rows a) <= List.length data)%nat.
Proof.
  intros w data filename a H.
  pose proof (save_csv_rows w data filename a H) as (_ & _ & Hperm & Hnd).
  apply save_csv_some in H as (keyed & _ & Hk & _ & ->). cbn [rows] in *.
  destruct (with_date_obj_spec _ _ _ Hk) as (_ & Hcells).
  destruct (sort_values_spec w keyed Hcells) as (days & Hsv & Hsorted & Hdays & Hmiss).
  split; [|split; [|split; [|split]]].
  - intros s. split; intros Hs; apply in_map_iff in Hs as (r & <- & Hr).
    + apply in_map. apply drop_duplicates_incl. exact (Permutation_in _ Hperm Hr).
    + destruct (drop_duplicates_from_keeps_dates data [] r Hr) as [[] | Hin].
      apply in_map_iff in Hin as (r' & <- & Hr'). apply in_map.
      exact (Permutation_in _ (Permutation_sym Hperm) Hr').
  - intros r Hr. apply (Permutation_in _ Hperm) in Hr.
    destruct (drop_duplicates_from_first data [] r Hr) as (pre & post & ? & ? & _). eauto.
  - exists days, (undated keyed). auto.
  - intros Hall. destruct (undated keyed) as [|r u] eqn:Hu.
    + rewrite Hsv, app_nil_r. exact Hsorted.
    + exfalso. apply Forall_cons_iff in Hmiss as [Hr _].
      assert (In r (sort_values w keyed)) as Hin.
      { rewrite Hsv. apply in_or_app. right. now left. }
      apply (Permutation_in _ Hperm), drop_duplicates_incl in Hin.
      rewrite Forall_forall in Hall. apply (Hall r Hin).
      now apply not_a_time_strptime.
  - rewrite (Permutation_length Hperm).
    apply NoDup_incl_length; [|apply drop_duplicates_incl].
    destruct (drop_duplicates_from_spec data []) as (_ & Hn & _).
    exact (NoDup_map_inv Date _ Hn).
Qed.

Lemma save_csv_keeps_every_date_once_loose_records :
  (forall s, In s ["1/2/2024"; "01/02/2024"; "01/03/2024"; "nan"; ""] <->
             In s (map Date Sample.loose_records)) /\
  (exists days blanks,
      [mkrecord "1/2/2024" 3 3; mkrecord "01/02/2024" 5 5; mkrecord "01/03/2024" 2 2;
       mkrecord "nan" 1 1; mkrecord "" 4 4] = days ++ blanks /\
      StronglySorted (fun x y => date_key x <= date_key y) days /\
      Forall (fun r => Calendar.strptime (Date r) <> None) days /\
      Forall (fun r => not_a_time (Date r) = true) blanks).
Proof.
  destruct (save_csv_keeps_every_date_once Sample.harvest_world Sample.loose_records None
              (mkartifact "nepse_daily_20261104.csv" csv_columns
                 [mkrecord "1/2/2024" 3 3; mkrecord "01/02/2024" 5 5;
                  mkrecord "01/03/2024" 2 2; mkrecord "nan" 1 1; mkrecord "" 4 4]))
    as (Hdates & _ & Hsplit & _).
  - reflexivity.
  - split; [exact Hdates | exact Hsplit].
Defined.

Lemma drop_duplicates_from_nodup (data : list record) :
  forall seen,
    NoDup (map Date data) -> (forall r, In r data -> ~ In (Date r) seen) ->
    drop_duplicates_from seen data = data.
Proof.
  induction data as [|r data IH]; intros seen Hn Hs; [reflexivity|].
  cbn [drop_duplicates_from map] in *. apply NoDup_cons_iff in Hn as [Hr Hn].
  assert (PyStr.mem (Date r) seen = false) as -> by (apply mem_false_iff, Hs; now left).
  f_equal. apply IH; [exact Hn|]. intros r' Hr' [E | Hin].
  - apply Hr. rewrite E. now apply in_map.
  - apply (Hs r'); [now right | exact Hin].
Qed.

Lemma ranked_strict (rows : list record) :
  strictly_ascending rows ->
  forall ranks,
    StronglySorted (fun a b => key a < key b)
      (ranked ranks (map (fun r => (date_key r, r)) rows)).
Proof.
  induction 1 as [|r rows Hs IH Hr]; intros ranks; cbn [map ranked]; [constructor|].
  constructor; [apply IH|].
  apply (ranked_Forall (fun k _ => date_key r < k)).
  rewrite Forall_map. exact Hr.
Qed.

Lemma dated_all (rows : list record) :
  dated (map (fun r => (Timestamp (date_key r), r)) rows)
  = map (fun r => (date_key r, r)) rows /\
  undated (map (fun r => (Timestamp (date_key r), r)) rows) = [].
Proof.
  induction rows as [|r rows [IH1 IH2]]; cbn [map dated undated]; [auto|].
  now rewrite IH1, IH2.
Qed.

(** Rows in strictly ascending order of day are left in that order. *)
Lemma sort_values_strict_id (w : world) (rows : list record) :
  strictly_ascending rows ->
  sort_values w (map (fun r => (Timestamp (date_key r), r)) rows) = rows.
Proof.
  intros Hasc. unfold sort_values. destruct (dated_all rows) as [-> ->].
  rewrite app_nil_r, (argsort_strict_id _ (ranked_strict rows Hasc _)), ranked_snd.
  rewrite map_map. cbn [snd]. apply map_id.
Qed.

(** X10.  Writing is idempotent on what the scraper builds: for records
    dated in the [MM/DD/YYYY] form, handing [save_csv] the rows of a file
    it wrote, under the name of that file, writes the same file again,
    also on a machine whose sort orders equal keys otherwise, as long as
    it holds the days the first one holds and the write does not fail. *)
Theorem save_csv_idempotent :
  forall (w w' : world) (data : list record) (filename : option string) (a : artifact),
    Forall well_dated data ->
    save_csv w data filename = Some a ->
    (forall d, representable w d = true -> representable w' d = true) ->
    to_csv w' (path a) (rows a) = true ->
    save_csv w' (rows a) (Some (path a)) = Some a.
Proof.
  intros w w' data filename a Hw H Hrep Hwrite.
  pose proof (save_csv_rows w data filename a H) as (_ & _ & Hperm & Hnd).
  apply save_csv_some in H as (keyed & Hne & Hk & _ & ->). cbn [rows path] in *.
  assert (sorted_frame w data = Some (sort_values w keyed)) as Hf.
  { unfold sorted_frame. now rewrite Hk. }
  destruct (sorted_frame_well_dated w data _ Hw Hf) as (_ & Hasc & _).
  destruct (with_date_obj_spec _ _ _ Hk) as (Hsnd & Hcells).
  set (df := sort_values w keyed) in *.
  assert (Forall (fun r => to_datetime w' (Date r) = Some (Timestamp (date_key r))) df)
    as Hcells'.
  { eapply Permutation_Forall; [symmetry; exact Hperm|].
    rewrite <- Hsnd, Forall_map. rewrite Forall_forall in *.
    intros [t r] Hin. pose proof (Hcells _ Hin) as Ht. cbn [fst snd] in *.
    assert (well_dated r) as Hwr.
    { apply Hw, drop_duplicates_incl. rewrite <- Hsnd. exact (in_map snd _ _ Hin). }
    destruct (to_datetime_well_dated w r Hwr) as [E | (E & _)]; [|congruence].
    destruct Hwr as (d & Hv & Hd). unfold to_datetime, date_key in *.
    rewrite Hd, (strftime_is_a_time d Hv), (strptime_strftime d Hv) in *.
    destruct (representable w d) eqn:Er; [|discriminate].
    now rewrite (Hrep d Er). }
  assert (with_date_obj w' df = Some (map (fun r => (Timestamp (date_key r), r)) df))
    as Hk'.
  { rewrite <- (map_id df) at 1.
    rewrite <- (map_ext (fun r => snd (Timestamp (date_key r), r)) id) by reflexivity.
    rewrite <- map_map. apply with_date_obj_of_cells.
    rewrite Forall_map. exact Hcells'. }
  unfold save_csv, sorted_frame.
  assert (drop_duplicates df = df) as ->.
  { apply drop_duplicates_from_nodup; [exact Hnd | intros r _ []]. }
  rewrite Hk'. cbn [option_map].
  rewrite (sort_values_strict_id w' df Hasc), output_filename_resolved, Hwrite.
  destruct df as [|r0 df0] eqn:Edf; [|reflexivity].
  exfalso. apply Permutation_nil in Hperm.
  destruct data as [|x data0]; [now apply Hne|].
  unfold drop_duplicates in Hperm. cbn [drop_duplicates_from PyStr.mem existsb] in Hperm.
  discriminate Hperm.
Qed.

Lemma save_csv_idempotent_three_records :
  save_csv Sample.last_come_world
    [mkrecord "01/02/2024" 100 1; mkrecord "01/03/2024" 102 3] (Some "nepse.csv")
  = Some (mkartifact "nepse.csv" csv_columns
            [mkrecord "01/02/2024" 100 1; mkrecord "01/03/2024" 102 3]).
Proof.
  apply (save_csv_idempotent Sample.harvest_world Sample.last_come_world
           Sample.three_records (Some "nepse")
           (mkartifact "nepse.csv" csv_columns
              [mkrecord "01/02/2024" 100 1; mkrecord "01/03/2024" 102 3])).
  - repeat constructor.
    + exists (Calendar.mkdate 2024 1 2). split; reflexivity.
    + exists (Calendar.mkdate 2024 1 2). split; reflexivity.
    + exists (Calendar.mkdate 2024 1 3). split; reflexivity.
  - reflexivity.
  - intros d Hd. exact Hd.
  - reflexivity.
Defined.

(** ** The whole run *)

Lemma drop_duplicates_nonempty (data : list record) :
  data <> [] -> drop_duplicates data <> [].
Proof.
  destruct data as [|r data]; [contradiction|]. intros _. unfold drop_duplicates.
  cbn [drop_duplicates_from PyStr.mem existsb]. discriminate.
Qed.

(** X11.  When the clock shows a calendar day, a run that returns either
    leaves a file, under the name asked for, with the header [Date],
    [Close], [Volume] and at least one row, its rows in strictly
    ascending order of date; or it leaves none, and then the primary and
    the alternate sources gave no record, or pandas cannot hold the day
    of one of the records, or the write of the sorted rows failed. *)
Theorem run_writes_an_ascending_file :
  forall (w : world) (years : Z) (filename : option string) (res : option artifact),
    Calendar.valid (now_date w) = true ->
    run w years filename = Returns res ->
    exists l,
      scrape_nepse_daily_data w years = Returns l /\
      let data := match l with [] => try_alternative_source w | _ => l end in
      match res with
      | Some a =>
          path a = output_filename w filename /\
          columns a = ["Date"; "Close"; "Volume"] /\ rows a <> [] /\
          Permutation (rows a) (drop_duplicates data) /\
          strictly_ascending (rows a)
      | None =>
          (l = [] /\ try_alternative_source w = []) \/
          (exists r d,
              In r data /\ Calendar.valid d = true /\ Date r = Calendar.strftime d /\
              representable w d = false) \/
          (exists df,
              df <> [] /\ Permutation df (drop_duplicates data) /\
              strictly_ascending df /\
              to_csv w (output_filename w filename) df = false)
      end.
Proof.
  intros w years filename res Hnow. unfold run.
  destruct (scrape_nepse_daily_data w years) as [l| |] eqn:Hs; try discriminate.
  intros E; injection E as <-. exists l. split; [reflexivity|].
  pose proof (pipeline_records_well_dated w years l Hnow Hs) as Hw.
  set (data := match l with [] => try_alternative_source w | _ => l end) in *.
  cbv zeta. destruct data as [|r0 data0] eqn:Hd.
  - cbn [save_csv]. left. destruct l; [split; [reflexivity | exact Hd] | discriminate Hd].
  - assert (forall df, Permutation df (drop_duplicates (r0 :: data0)) -> df <> []) as Hne.
    { intros df Hp Hnil. rewrite Hnil in Hp. apply Permutation_nil in Hp.
      exact (drop_duplicates_nonempty (r0 :: data0) ltac:(discriminate) Hp). }
    unfold save_csv.
    destruct (sorted_frame w (r0 :: data0)) as [df|] eqn:Hf.
    + destruct (sorted_frame_well_dated w _ df Hw Hf) as (Hperm & Hasc & _).
      destruct (to_csv w (output_filename w filename) df) eqn:Ew.
      * cbn [path columns rows]. auto 10.
      * right. right. exists df. auto.
    + right. left. exact (sorted_frame_none_well_dated w _ Hw Hf).
Qed.

Lemma run_writes_an_ascending_file_harvest :
  exists a,
    run Sample.harvest_world 2 (Some "nepse") = Returns (Some a) /\
    path a = "nepse.csv" /\
    columns a = ["Date"; "Close"; "Volume"] /\ rows a <> [] /\
    strictly_ascending (rows a).
Proof.
  eexists. split; [vm_compute; reflexivity|].
  match goal with
  | |- path ?a = _ /\ _ =>
      destruct (run_writes_an_ascending_file Sample.harvest_world 2 (Some "nepse") (Some a))
        as (l & _ & Hp & Hc & Hr & _ & Hasc)
  end.
  - reflexivity.
  - vm_compute. reflexivity.
  - split; [reflexivity|]. auto.
Defined.

(** ** The forecast's samples *)

Lemma collect_map {A B : Type} (f : A -> option B) (g : A -> B) (idx : list A) :
  (forall i, In i idx -> f i = Some (g i)) ->
  Forecast.collect (map f idx) = Some (map g idx).
Proof.
  induction idx as [|i idx IH]; intros H; [reflexivity|].
  cbn [map Forecast.collect]. rewrite (H i (or_introl eq_refl)), IH; [reflexivity|].
  intros j Hj. apply H. now right.
Qed.

Lemma skipn_cons_nth {A : Type} (d : A) (l : list A) :
  forall n, (n < List.length l)%nat -> skipn n l = nth n l d :: skipn (S n) l.
Proof.
  induction l as [|a l IH]; intros n Hn; cbn [List.length] in Hn; [lia|].
  destruct n as [|n]; [reflexivity|]. cbn [skipn nth]. apply IH. lia.
Qed.

Lemma skipn_S_tl {A : Type} (l : list A) :
  forall n, skipn (S n) l = tl (skipn n l).
Proof.
  induction l as [|a l IH]; intros n; [now destruct n|].
  destruct n as [|n]; [reflexivity|]. cbn [skipn]. apply IH.
Qed.

Lemma sample_at_in_range (prices : list Q) (i : nat) :
  (i + Forecast.window_size < List.length prices)%nat ->
  Forecast.sample_at prices i
  = Some (firstn Forecast.window_size (skipn i prices),
          nth (i + Forecast.window_size) prices 0%Q) /\
  List.length (firstn Forecast.window_size (skipn i prices)) = Forecast.window_size /\
  skipn i prices
  = firstn Forecast.window_size (skipn i prices)
    ++ nth (i + Forecast.window_size) prices 0%Q :: skipn (i + 4) prices.
Proof.
  unfold Forecast.window_size. intros Hi. split; [|split].
  - unfold Forecast.sample_at, Forecast.window_size.
    now rewrite (nth_error_nth' prices 0%Q Hi).
  - rewrite length_firstn, length_skipn. lia.
  - rewrite <- (firstn_skipn 3 (skipn i prices)) at 1. f_equal.
    rewrite skipn_skipn, (Nat.add_comm 3 i), (skipn_cons_nth 0%Q prices (i + 3) Hi).
    now replace (S (i + 3)) with (i + 4)%nat by lia.
Qed.

(** X13.  The forecast's training samples are the sliding windows of the
    closing prices: building them never indexes out of range, there are
    [len(prices) - 3] of them (none for fewer than four prices), sample
    [i] is the three consecutive prices from position [i] with the price
    right after them as its target, and the input used for tomorrow's
    forecast is the last window moved on by one price. *)
Theorem samples_are_sliding_windows :
  forall prices : list Q,
    exists l,
      Forecast.samples prices = Some l /\
      List.length l = (List.length prices - 3)%nat /\
      (forall i X y,
          nth_error l i = Some (X, y) ->
          List.length X = 3%nat /\ skipn i prices = X ++ y :: skipn (i + 4) prices) /\
      (forall X y,
          nth_error l (List.length l - 1) = Some (X, y) ->
          Forecast.tomorrow_input prices = tl X ++ [y]).
Proof.
  intros prices.
  set (g := fun i => (firstn Forecast.window_size (skipn i prices),
                      nth (i + Forecast.window_size) prices 0%Q)).
  assert (Forecast.samples prices
          = Some (map g (seq 0 (List.length prices - Forecast.window_size)))) as Hs.
  { apply collect_map. intros i Hi. apply in_seq in Hi.
    apply sample_at_in_range. unfold Forecast.window_size in *. lia. }
  assert (forall i X y,
             nth_error (map g (seq 0 (List.length prices - Forecast.window_size))) i
             = Some (X, y) ->
             (i + 3 < List.length prices)%nat /\ List.length X = 3%nat /\
             skipn i prices = X ++ y :: skipn (i + 4) prices) as Hith.
  { intros i X y H. rewrite nth_error_map in H.
    destruct (nth_error (seq 0 _) i) as [j|] eqn:Ej; [|discriminate].
    assert (i < List.length (seq 0 (List.length prices - Forecast.window_size)))%nat as Hlt
      by (apply nth_error_Some; congruence).
    rewrite length_seq in Hlt. unfold Forecast.window_size in Hlt.
    rewrite nth_error_seq in Ej.
    destruct (Nat.ltb_spec i (List.length prices - Forecast.window_size)) as [_|Hge];
      [|unfold Forecast.window_size in Hge; lia].
    injection Ej as <-. cbn [Nat.add option_map] in H. injection H as <- <-.
    destruct (sample_at_in_range prices i) as (_ & Hlen & Heq);
      [unfold Forecast.window_size; lia|].
    split; [lia|]. split; [exact Hlen | exact Heq]. }
  eexists. split; [exact Hs|]. split; [now rewrite length_map, length_seq|].
  split; [intros i X y H; apply (Hith i X y) in H; tauto|].
  intros X y H. rewrite length_map, length_seq in H. unfold Forecast.window_size in H.
  destruct (Hith _ X y H) as (Hi & Hlen & Heq).
  unfold Forecast.tomorrow_input, Forecast.window_size.
  replace (List.length prices - 3)%nat with (S (List.length prices - 3 - 1)) by lia.
  rewrite skipn_S_tl, Heq.
  replace (List.length prices - 3 - 1 + 4)%nat with (List.length prices) by lia.
  rewrite skipn_all.
  destruct X as [|a X]; [discriminate Hlen | reflexivity].
Qed.
